(** * A shallow embedding of the FTP server (code/server.c and its
      documented sibling) and the properties its specification states.

    Two versions of the server live in the repository.  [Module Server]
    follows code/server.c, the file the Makefile builds: it has the extended
    verbs MKD, RMD, DELE, RNFR and RNTO.  [Module ServerDoc] follows the
    documented version of the same file: it binds the data socket to port 20
    and canonicalises the CWD target with realpath.  The functions the two
    versions share word for word are embedded once, before the modules.
    [load_users] and, in [Module Client], the control side of code/client.c
    are embedded as well, so that what the client writes can be followed
    into the server's handlers.

    Conventions of the embedding:
    - C strings are [string]; a [char] buffer is the string it holds up to its
      terminating NUL.  Strings are taken to fit the buffers they are printed
      into: a write past the end of a buffer is outside the model.
    - [int] values are [Z]; where the C arithmetic can leave the range of
      [int] the wrap-around is written out with [wrap_int].
    - The operating system is a record of answers, [World]: one value per
      system call a handler makes.  Regular files and their contents are
      state ([files]); the handlers report what they do as a list of
      [event]s, in program order.
    - [files] is keyed by the text of the path a call is given: two texts
      that the file system resolves to one file (d/name and d/./name, or
      two hard links) are two keys.  Statements about [files] are made for
      the paths the handlers themselves form, and say nothing of other
      spellings.
    - A [Connect] event carries the address as the text that is handed to
      inet_addr, [data_ip]; it is the address connected to when that text
      is four numbers from 0 to 255 with dots between them.
    - The traces of the handlers show every write() of a child on the data
      socket as a call that returns.  [under_writes] gives the trace under
      any answers of the system to these calls, SIGPIPE among them. *)

From Stdlib Require Import ZArith String Ascii List Lia Bool.
From Stdlib Require Import DecimalString DecimalZ DecimalPos.
From stdpp Require Import base gmap strings list.

Open Scope Z_scope.

(** ** The C library, as far as the server uses it *)

Module CLib.

Definition CR : ascii := ascii_of_nat 13.
Definition LF : ascii := ascii_of_nat 10.
Definition NUL : ascii := ascii_of_nat 0.
Definition CRLF : string := String CR (String LF EmptyString).
Definition DQUOTE : string := String (ascii_of_nat 34) EmptyString.

(** isspace(3) in the C locale: space, \t, \n, \v, \f, \r. *)
Definition isspace (c : ascii) : bool :=
  let n := nat_of_ascii c in
  (n =? 32)%nat || ((9 <=? n)%nat && (n <=? 13)%nat).

Definition isdigit (c : ascii) : bool :=
  let n := nat_of_ascii c in
  ((48 <=? n)%nat && (n <=? 57)%nat).

(** strcmp(a, b) == 0 *)
Definition streq (a b : string) : bool := String.eqb a b.

(** strstr(haystack, needle): the suffix of [haystack] that starts at the
    first occurrence of [needle]; [None] is the NULL result. *)
Fixpoint strstr (haystack needle : string) : option string :=
  if String.prefix needle haystack then Some haystack
  else match haystack with
       | EmptyString => None
       | String _ rest => strstr rest needle
       end.

(** strncpy(dst, src, n) read back as a C string, for a source shorter than
    [n]; a longer source leaves [dst] without terminator, and what a reader
    of [dst] then sees past its [n] bytes is outside the model. *)
Definition strncpy (src : string) (n : nat) : string :=
  if (String.length src <? n)%nat then src else substring 0 n src.

(** The range of [int] and the wrap-around of a 32-bit two's complement
    value. *)
Definition INT_MIN : Z := - 2 ^ 31.
Definition INT_MAX : Z := 2 ^ 31 - 1.
Definition wrap_int (z : Z) : Z := (z + 2 ^ 31) mod 2 ^ 32 - 2 ^ 31.

(** The range of [long], 64 bits wide.  strtol, with which scanf converts
    the digits of a %d, answers a numeral outside this range with the
    nearest end of the range. *)
Definition LONG_MIN : Z := - 2 ^ 63.
Definition LONG_MAX : Z := 2 ^ 63 - 1.
Definition strtol_range (z : Z) : Z := Z.max LONG_MIN (Z.min LONG_MAX z).

(** What %d stores for a numeral of value [z]: the [long] of strtol, cut to
    an [int]. *)
Definition scan_int (z : Z) : Z := wrap_int (strtol_range z).

(** printf's %d and %ld. *)
Definition fmt_d (z : Z) : string := NilZero.string_of_int (Z.to_int z).

(** *** scanf directives *)

(** White space in the input is skipped by %s, by %d and by a white-space
    directive of the format. *)
Fixpoint skip_space (s : string) : string :=
  match s with
  | EmptyString => EmptyString
  | String c rest => if isspace c then skip_space rest else s
  end.

(** The longest prefix without white space, and what follows it. *)
Fixpoint scan_word (s : string) : string * string :=
  match s with
  | EmptyString => (EmptyString, EmptyString)
  | String c rest =>
      if isspace c then (EmptyString, s)
      else let '(w, r) := scan_word rest in (String c w, r)
  end.

(** %s: skip white space, then take the non-empty run of other characters.
    [None] is an input failure (the input ended first). *)
Definition scan_s (s : string) : option (string * string) :=
  match scan_word (skip_space s) with
  | (EmptyString, _) => None
  | (w, rest) => Some (w, rest)
  end.

Definition digit_of (c : ascii) (d : Decimal.uint) : Decimal.uint :=
  match (nat_of_ascii c - 48)%nat with
  | 0%nat => Decimal.D0 d
  | 1%nat => Decimal.D1 d
  | 2%nat => Decimal.D2 d
  | 3%nat => Decimal.D3 d
  | 4%nat => Decimal.D4 d
  | 5%nat => Decimal.D5 d
  | 6%nat => Decimal.D6 d
  | 7%nat => Decimal.D7 d
  | 8%nat => Decimal.D8 d
  | _ => Decimal.D9 d
  end.

(** The longest prefix of decimal digits, as a decimal numeral, and what
    follows it. *)
Fixpoint scan_digits (s : string) : Decimal.uint * string :=
  match s with
  | EmptyString => (Decimal.Nil, EmptyString)
  | String c rest =>
      if isdigit c
      then let '(d, r) := scan_digits rest in (digit_of c d, r)
      else (Decimal.Nil, s)
  end.

(** The optional sign of a number. *)
Definition scan_sign (s : string) : bool * string :=
  match s with
  | String c rest =>
      if Ascii.eqb c "-" then (true, rest)
      else if Ascii.eqb c "+" then (false, rest)
      else (false, s)
  | EmptyString => (false, s)
  end.

(** %d: skip white space, an optional sign, then at least one digit.  The
    digits go through strtol and the [long] it answers is stored into an
    [int]. *)
Definition scan_d (s : string) : option (Z * string) :=
  let '(neg, s2) := scan_sign (skip_space s) in
  match scan_digits s2 with
  | (Decimal.Nil, _) => None
  | (d, rest) =>
      let v := Z.of_uint d in
      Some (scan_int (if neg then - v else v), rest)
  end.

(** An ordinary character of the format matches itself. *)
Definition scan_lit (c : ascii) (s : string) : option string :=
  match s with
  | String c' rest => if Ascii.eqb c c' then Some rest else None
  | EmptyString => None
  end.

(** sscanf(command, "%s %s", cmd, arg).  [cmd0] and [arg0] are the buffers
    as they were before the call: a buffer whose conversion is not reached
    keeps its content.  The result is the return value (EOF is -1) and the
    two buffers after the call. *)
Definition sscanf_s_s (command cmd0 arg0 : string) : Z * string * string :=
  match scan_s command with
  | None => (-1, cmd0, arg0)
  | Some (cmd, rest) =>
      match scan_s (skip_space rest) with
      | None => (1, cmd, arg0)
      | Some (arg, _) => (2, cmd, arg)
      end
  end.

(** sscanf(port_args, "%d,%d,%d,%d,%d,%d", ...): the assigned values, as far
    as the conversions got.  The return value is the length of the list (or
    EOF, for which the list is empty as well). *)
Fixpoint scan_d_comma (n : nat) (s : string) : list Z :=
  match n with
  | O => []
  | S n' =>
      match scan_d s with
      | None => []
      | Some (v, rest) =>
          v :: match n' with
               | O => []
               | S _ => match scan_lit "," rest with
                        | None => []
                        | Some rest' => scan_d_comma n' rest'
                        end
               end
      end
  end.

Definition sscanf_6d (port_args : string) : list Z := scan_d_comma 6 port_args.

(** *** strtok, fgets and strcspn *)

(** [c] is one of the characters of [delims]. *)
Fixpoint is_delim (delims : string) (c : ascii) : bool :=
  match delims with
  | EmptyString => false
  | String d rest => Ascii.eqb c d || is_delim rest c
  end.

Fixpoint skip_delims (delims s : string) : string :=
  match s with
  | EmptyString => EmptyString
  | String c rest => if is_delim delims c then skip_delims delims rest else s
  end.

(** The token at the head of [s] and the place where the next call goes
    on: the delimiter that ends the token is overwritten with a NUL and
    stepped over. *)
Fixpoint scan_token (delims s : string) : string * string :=
  match s with
  | EmptyString => (EmptyString, EmptyString)
  | String c rest =>
      if is_delim delims c then (EmptyString, rest)
      else let '(tok, next) := scan_token delims rest in (String c tok, next)
  end.

(** strtok: [s] is the string of a first call, or the place a previous call
    left off for a call with NULL.  [None] is the NULL result; otherwise the
    token and the place to go on from. *)
Definition strtok (delims s : string) : option (string * string) :=
  match skip_delims delims s with
  | EmptyString => None
  | s1 => Some (scan_token delims s1)
  end.

(** fgets(line, n + 1, fp) on what is left of the file: at most [n]
    characters, up to and with the first newline; the line and what is left
    after it. *)
Fixpoint fgets (n : nat) (s : string) : string * string :=
  match n, s with
  | S n', String c rest =>
      if Ascii.eqb c LF then (String c EmptyString, rest)
      else let '(line, more) := fgets n' rest in (String c line, more)
  | _, _ => (EmptyString, s)
  end.

(** s[strcspn(s, reject)] = '\0': the string up to its first character
    that is in [reject]. *)
Fixpoint cut_at (reject s : string) : string :=
  match s with
  | EmptyString => EmptyString
  | String c rest =>
      if is_delim reject c then EmptyString else String c (cut_at reject rest)
  end.

(** The bytes of a buffer as the string functions see them: up to the
    first NUL. *)
Definition c_string (buf : string) : string :=
  cut_at (String NUL EmptyString) buf.

End CLib.

Import CLib.

(** ** Data model *)

Definition MAX_CLIENTS : nat := 10.
Definition BUFFER_SIZE : nat := 1024.
Definition MAX_USERS : nat := 50.
Definition MAX_USERNAME : nat := 50.
Definition MAX_PASSWORD : nat := 50.

(** One line of users.csv. *)
Record User := mkUser {
  user_username : string;
  user_password : string
}.

(** The per-connection record.  [control_fd = -1] marks a free slot and
    [data_port = -1] an undeclared data endpoint. *)
Record FTPSession := mkSession {
  control_fd : Z;
  data_fd : Z;
  username : string;
  authenticated : bool;
  current_dir : string;
  root_dir : string;
  data_ip : string;
  data_port : Z
}.

Definition set_control_fd (v : Z) (s : FTPSession) : FTPSession :=
  mkSession v (data_fd s) (username s) (authenticated s) (current_dir s)
            (root_dir s) (data_ip s) (data_port s).
Definition set_data_fd (v : Z) (s : FTPSession) : FTPSession :=
  mkSession (control_fd s) v (username s) (authenticated s) (current_dir s)
            (root_dir s) (data_ip s) (data_port s).
Definition set_username (v : string) (s : FTPSession) : FTPSession :=
  mkSession (control_fd s) (data_fd s) v (authenticated s) (current_dir s)
            (root_dir s) (data_ip s) (data_port s).
Definition set_authenticated (v : bool) (s : FTPSession) : FTPSession :=
  mkSession (control_fd s) (data_fd s) (username s) v (current_dir s)
            (root_dir s) (data_ip s) (data_port s).
Definition set_current_dir (v : string) (s : FTPSession) : FTPSession :=
  mkSession (control_fd s) (data_fd s) (username s) (authenticated s) v
            (root_dir s) (data_ip s) (data_port s).
Definition set_root_dir (v : string) (s : FTPSession) : FTPSession :=
  mkSession (control_fd s) (data_fd s) (username s) (authenticated s)
            (current_dir s) v (data_ip s) (data_port s).
Definition set_data_ip (v : string) (s : FTPSession) : FTPSession :=
  mkSession (control_fd s) (data_fd s) (username s) (authenticated s)
            (current_dir s) (root_dir s) v (data_port s).
Definition set_data_port (v : Z) (s : FTPSession) : FTPSession :=
  mkSession (control_fd s) (data_fd s) (username s) (authenticated s)
            (current_dir s) (root_dir s) (data_ip s) v.

(** The globals of the server ([rnfr_filename] exists in code/server.c
    only), and the regular files of the file system by the path they are
    opened under. *)
Record Server := mkServer {
  users : list User;
  client_sessions : list FTPSession;
  rnfr_filename : list string;
  files : gmap string (list Byte.byte)
}.

Definition set_sessions (l : list FTPSession) (st : Server) : Server :=
  mkServer (users st) l (rnfr_filename st) (files st).
Definition set_rnfr (l : list string) (st : Server) : Server :=
  mkServer (users st) (client_sessions st) l (files st).
Definition set_files (m : gmap string (list Byte.byte)) (st : Server) : Server :=
  mkServer (users st) (client_sessions st) (rnfr_filename st) m.

(** client_sessions[i].field = v *)
Definition update_session (i : nat) (f : FTPSession -> FTPSession)
    (st : Server) : Server :=
  set_sessions (alter f i (client_sessions st)) st.

(** ** System calls *)

(** What a read(2) on the data socket returns. *)
Inductive read_result :=
| RBytes (bs : list Byte.byte)   (* a positive count, with these bytes *)
| REof                           (* 0 *)
| RError.                        (* -1 *)

(** The answers of the operating system during one handler call. *)
Record World := mkWorld {
  w_socket : Z;                         (* socket(): the descriptor, or -1 *)
  w_setsockopt : Z;                     (* 0, or -1 *)
  w_bind : Z;                           (* 0, or -1 *)
  w_connect : Z;                        (* 0, or -1 *)
  w_fork : Z;                           (* the child's pid, or -1 *)
  w_time : Z;                           (* time(NULL) *)
  w_opendir : string -> bool;           (* opendir() is not NULL *)
  w_readdir : string -> list string;    (* the d_name of each entry *)
  w_realpath : string -> option string; (* realpath(); None is NULL *)
  w_mkdir : string -> Z;                (* 0, or -1 *)
  w_rmdir : string -> Z;
  w_unlink : string -> Z;
  w_stat : string -> Z;
  w_rename : string -> string -> Z;
  w_child_fopen : string -> bool;       (* fopen() in the child is not NULL *)
  w_getcwd : option string;             (* getcwd(); None is NULL *)
  w_data_in : list read_result          (* successive read()s of the data socket *)
}.

(** What a handler does, in program order.  The events between a successful
    [Fork] and the [Exit] that follows it are the child's. *)
Inductive event :=
| Write (fd : Z) (bytes : string)
| Socket (ret : Z)
| Setsockopt (fd ret : Z)
| Bind (fd port ret : Z)
| Connect (fd : Z) (ip : string) (port ret : Z)
| Fork (ret : Z)
| Waitpid (pid : Z)
| Close (fd : Z)
| Exit (status : Z)
| Opendir (path : string) (ok : bool)
| Fopen (path mode : string) (ok : bool)
| Mkdir (path : string) (ret : Z)
| Rmdir (path : string) (ret : Z)
| Unlink (path : string) (ret : Z)
| Stat (path : string) (ret : Z)
| Rename (src dst : string) (ret : Z)
| Realpath (path : string) (res : option string)
| DataRead (fd : Z) (r : read_result)
| DataWrite (fd : Z) (bs : list Byte.byte).

(** ** Functions common to both versions *)

(** A slot as initialize_sessions leaves it. *)
Definition free_slot : FTPSession :=
  mkSession (-1) (-1) EmptyString false EmptyString EmptyString EmptyString
            (-1).

(** get_session_index: the first slot whose control_fd is [client_fd];
    [None] is the -1 result. *)
Fixpoint find_session (l : list FTPSession) (client_fd : Z) (i : nat)
    : option nat :=
  match l with
  | [] => None
  | s :: rest =>
      if control_fd s =? client_fd then Some i
      else find_session rest client_fd (S i)
  end.

Definition get_session_index (st : Server) (client_fd : Z) : option nat :=
  find_session (client_sessions st) client_fd 0.

(** client_sessions[i], for an index get_session_index returned. *)
Definition session_at (st : Server) (i : nat) : FTPSession :=
  default free_slot
          (client_sessions st !! i).

Definition initialize_sessions : list FTPSession :=
  replicate MAX_CLIENTS free_slot.

Definition clean_up_session (i : nat) (st : Server) : Server * list event :=
  let s := session_at st i in
  (update_session i
     (fun s => set_data_ip EmptyString
                 (set_username EmptyString
                    (set_authenticated false
                       (set_data_port (-1)
                          (set_data_fd (-1) (set_control_fd (-1) s))))))
     st,
   if data_fd s =? -1 then [] else [Close (data_fd s)]).

Definition send_response (client_fd : Z) (response : string) : list event :=
  [Write client_fd (response +:+ CRLF)].

Definition authenticate_user (us : list User) (name password : string)
    : bool :=
  existsb (fun u => streq (user_username u) name
                    && streq (user_password u) password) us.

Definition user_exists (us : list User) (name : string) : bool :=
  existsb (fun u => streq (user_username u) name) us.

Definition handle_user_command (st : Server) (client_fd : Z)
    (name : string) : Server * list event :=
  match get_session_index st client_fd with
  | Some i =>
      if user_exists (users st) name
      then (update_session i (set_username (strncpy name MAX_USERNAME)) st,
            send_response client_fd "331 Username OK, need password.")
      else (st, send_response client_fd "530 Not logged in.")
  | None => (st, send_response client_fd "500 Internal server error.")
  end.

Definition handle_pass_command (w : World) (st : Server) (client_fd : Z)
    (password : string) : Server * list event :=
  match get_session_index st client_fd with
  | Some i =>
      let s := session_at st i in
      if negb (String.eqb (username s) EmptyString)
      then
        if authenticate_user (users st) (username s) password
        then
          let user_dir := root_dir s +:+ "/" +:+ username s in
          (update_session i
             (fun s => set_current_dir user_dir (set_authenticated true s))
             st,
           Mkdir user_dir (w_mkdir w user_dir)
             :: send_response client_fd "230 User logged in, proceed.")
        else (st, send_response client_fd "530 Not logged in.")
      else (st, send_response client_fd "503 Bad sequence of commands.")
  | None => (st, send_response client_fd "503 Bad sequence of commands.")
  end.

Definition handle_port_command (st : Server) (client_fd : Z)
    (port_args : string) : Server * list event :=
  match get_session_index st client_fd with
  | None => (st, send_response client_fd "500 Internal server error.")
  | Some i =>
      match sscanf_6d port_args with
      | [h1; h2; h3; h4; p1; p2] =>
          (update_session i
             (fun s =>
                set_data_port (wrap_int (p1 * 256 + p2))
                  (set_data_ip (fmt_d h1 +:+ "." +:+ fmt_d h2 +:+ "."
                                +:+ fmt_d h3 +:+ "." +:+ fmt_d h4) s))
             st,
           send_response client_fd "200 PORT command successful.")
      | _ => (st, send_response client_fd "501 Syntax error in parameters.")
      end
  end.

Definition handle_pwd_command (st : Server) (client_fd : Z)
    : Server * list event :=
  match get_session_index st client_fd with
  | None => (st, send_response client_fd "500 Internal server error.")
  | Some i =>
      let s := session_at st i in
      let rel_path := current_dir s in
      match strstr rel_path (username s) with
      | Some username_pos =>
          (st, send_response client_fd ("257 " +:+ username_pos +:+ "/"))
      | None => (st, send_response client_fd ("257 " +:+ rel_path +:+ "/"))
      end
  end.

(** *** The forked children of the transfer handlers *)

(** fread(buffer, 1, BUFFER_SIZE, fp) until it returns 0: the content of the
    file in pieces of at most BUFFER_SIZE bytes. *)
Fixpoint fread_chunks (fuel : nat) (content : list Byte.byte)
    : list (list Byte.byte) :=
  match fuel, content with
  | S fuel', _ :: _ =>
      take BUFFER_SIZE content :: fread_chunks fuel' (drop BUFFER_SIZE content)
  | _, _ => []
  end.

(** The child of RETR: reopen the file, copy it to the data socket,
    exit(0); exit(1) when the file does not open. *)
Definition retr_child (w : World) (st : Server) (client_fd dfd : Z)
    (filepath : string) : list event :=
  Close client_fd ::
  match files st !! filepath with
  | Some content =>
      if w_child_fopen w filepath
      then Fopen filepath "rb" true
             :: map (DataWrite dfd) (fread_chunks (length content) content)
             ++ [Close dfd; Exit 0]
      else [Fopen filepath "rb" false; Close dfd; Exit 1]
  | None => [Fopen filepath "rb" false; Close dfd; Exit 1]
  end.

(** while ((bytes_read = read(data_fd, ...)) > 0) fwrite(...): what reaches
    the file.  The loop ends at the first read that returns 0 or -1, and
    does not tell the two apart. *)
Fixpoint stor_receive (reads : list read_result) : list Byte.byte :=
  match reads with
  | RBytes (b :: bs) :: rest => (b :: bs) ++ stor_receive rest
  | _ => []
  end.

(** The read()s the loop makes: up to and with the first that returns 0 or
    -1 (a data connection with nothing more to say reads as closed). *)
Fixpoint stor_reads (reads : list read_result) : list read_result :=
  match reads with
  | RBytes (b :: bs) :: rest => RBytes (b :: bs) :: stor_reads rest
  | r :: _ => [r]
  | [] => [REof]
  end.

(** The child of STOR: write the data socket to the temporary file, rename
    it to the final name, exit(0); exit(1) when the temporary file does not
    open.  The results of fwrite and rename are not looked at. *)
Definition stor_child (w : World) (st : Server) (client_fd dfd : Z)
    (temp_filepath final_filepath : string) : Server * list event :=
  if w_child_fopen w temp_filepath
  then
    let content := stor_receive (w_data_in w) in
    let ret := w_rename w temp_filepath final_filepath in
    (set_files
       (if ret =? 0
        then <[final_filepath := content]> (delete temp_filepath (files st))
        else <[temp_filepath := content]> (files st))
       st,
     [Close client_fd; Fopen temp_filepath "wb" true]
       ++ map (DataRead dfd) (stor_reads (w_data_in w))
       ++ [Close dfd; Rename temp_filepath final_filepath ret; Exit 0])
  else (st, [Close client_fd; Fopen temp_filepath "wb" false; Close dfd;
             Exit 1]).

(** The exit status of the child in a trace, as waitpid could report it. *)
Fixpoint exit_status (tr : list event) : option Z :=
  match tr with
  | [] => None
  | Exit status :: _ => Some status
  | _ :: rest => exit_status rest
  end.

(** The parent after a successful fork: close its copy of the data socket,
    forget the declared endpoint, wait for the child (the status argument
    of waitpid is NULL) and report completion. *)
Definition transfer_parent (i : nat) (st : Server) (client_fd dfd pid : Z)
    : Server * list event :=
  (update_session i
     (fun s => set_data_ip EmptyString (set_data_port (-1) s)) st,
   [Close dfd; Waitpid pid]
     ++ send_response client_fd "226 Transfer complete.").

(** *** The answers of the system to write() on a data socket

    The children of LIST and RETR call write() on the data socket and drop
    what it returns, and the server leaves SIGPIPE at its default action.
    The traces of the handlers show each of these calls as one that
    returns.  [under_writes] gives what is left of such a trace when the
    system answers the k-th of these calls with [answer k]: an answer that
    returns changes nothing in what the child does next, whatever part of
    the bytes was taken; SIGPIPE ends the child at that call, so that the
    rest of what the child would have done, up to and with its [Exit], is
    not done, and the trace goes on with what the parent does. *)
Inductive write_result :=
| WTaken (n : nat)    (* write returns n: the first n bytes are taken *)
| WFailed             (* write returns -1 *)
| WSigpipe.           (* the peer has closed the connection: SIGPIPE *)

Definition is_sigpipe (r : write_result) : bool :=
  match r with
  | WSigpipe => true
  | _ => false
  end.

(** [k] counts the writes on data sockets so far; [killed] tells that the
    events at hand are those of a child that SIGPIPE has ended. *)
Fixpoint under_writes (answer : nat -> write_result) (k : nat)
    (killed : bool) (tr : list event) : list event :=
  match tr with
  | [] => []
  | e :: rest =>
      if killed
      then match e with
           | Exit _ => under_writes answer k false rest
           | _ => under_writes answer k true rest
           end
      else match e with
           | DataWrite _ _ =>
               e :: under_writes answer (S k) (is_sigpipe (answer k)) rest
           | _ => e :: under_writes answer k false rest
           end
  end.

(** The bytes the peer of the data connection has taken, for a trace whose
    writes on data sockets, counted from [k], are answered by [answer]. *)
Fixpoint data_received (answer : nat -> write_result) (k : nat)
    (tr : list event) : list Byte.byte :=
  match tr with
  | [] => []
  | DataWrite _ bs :: rest =>
      match answer k with
      | WTaken n => take n bs
      | _ => []
      end ++ data_received answer (S k) rest
  | _ :: rest => data_received answer k rest
  end.

(** htons(client_port): the port as the 16 bits that go on the wire. *)
Definition htons (port : Z) : Z := port mod 65536.

(** The declared data endpoint of a session, as the specification names
    it. *)
Definition pending_data_endpoint (s : FTPSession) : option (string * Z) :=
  if data_port s =? -1 then None else Some (data_ip s, data_port s).

(** ** code/server.c *)

Module Server.

(** The child of LIST: one line per directory entry except "." and "..". *)
Definition list_child (w : World) (client_fd dfd : Z) (dir : string)
    : list event :=
  Close client_fd ::
  (if w_opendir w dir
   then Opendir dir true
          :: map (fun name =>
                    DataWrite dfd (list_byte_of_string (name +:+ CRLF)))
                 (List.filter
                    (fun name => negb (streq name "." || streq name ".."))
                    (w_readdir w dir))
   else [Opendir dir false])
  ++ [Close dfd; Exit 0].

Definition handle_list_command (w : World) (st : Server) (client_fd : Z)
    : Server * list event :=
  match get_session_index st client_fd with
  | None => (st, send_response client_fd "425 Can't open data connection.")
  | Some i =>
    let s := session_at st i in
    if data_port s =? -1
    then (st, send_response client_fd "425 Can't open data connection.")
    else
      let client_ip := data_ip s in
      let client_port := data_port s in
      let dfd := w_socket w in
      if dfd <? 0
      then (st, Socket dfd
                  :: send_response client_fd "425 Can't open data connection.")
      else if w_setsockopt w <? 0
      then (st, [Socket dfd; Setsockopt dfd (w_setsockopt w); Close dfd]
                  ++ send_response client_fd "425 Can't open data connection.")
      else
        let pre :=
          [Socket dfd; Setsockopt dfd (w_setsockopt w)]
            ++ send_response client_fd
                 "150 File status okay; about to open data connection."
            ++ [Connect dfd client_ip (htons client_port) (w_connect w)] in
        if w_connect w <? 0
        then (st, pre ++ Close dfd
                    :: send_response client_fd "425 Can't open data connection.")
        else if w_fork w <? 0
        then (st, pre ++ [Fork (w_fork w); Close dfd]
                    ++ send_response client_fd
                         "451 Requested action aborted: local error in processing.")
        else
          let '(st', post) := transfer_parent i st client_fd dfd (w_fork w) in
          (st', pre ++ Fork (w_fork w)
                  :: list_child w client_fd dfd (current_dir s) ++ post)
  end.

Definition handle_cwd_command (w : World) (st : Server) (client_fd : Z)
    (dir : string) : Server * list event :=
  match get_session_index st client_fd with
  | None => (st, send_response client_fd "500 Internal server error.")
  | Some i =>
    let s := session_at st i in
    let new_dir :=
      match dir with
      | String "/" _ => dir
      | _ => current_dir s +:+ "/" +:+ dir
      end in
    if w_opendir w new_dir
    then
      let rel_path := new_dir in
      (update_session i (set_current_dir new_dir) st,
       Opendir new_dir true ::
       send_response client_fd
         match strstr rel_path (username s) with
         | Some username_pos =>
             "200 directory changed to " +:+ username_pos +:+ "/."
         | None => "200 directory changed to " +:+ rel_path +:+ "/."
         end)
    else (st, Opendir new_dir false
                :: send_response client_fd "550 No such file or directory.")
  end.

Definition handle_retr_command (w : World) (st : Server) (client_fd : Z)
    (filename : string) : Server * list event :=
  match get_session_index st client_fd with
  | None => (st, send_response client_fd "425 Can't open data connection.")
  | Some i =>
    let s := session_at st i in
    if data_port s =? -1
    then (st, send_response client_fd "425 Can't open data connection.")
    else
      let client_ip := data_ip s in
      let client_port := data_port s in
      let dfd := w_socket w in
      if dfd <? 0
      then (st, Socket dfd
                  :: send_response client_fd "425 Can't open data connection.")
      else if w_setsockopt w <? 0
      then (st, [Socket dfd; Setsockopt dfd (w_setsockopt w); Close dfd]
                  ++ send_response client_fd "425 Can't open data connection.")
      else
        let filepath := current_dir s +:+ "/" +:+ filename in
        let opened := bool_decide (is_Some (files st !! filepath)) in
        let pre0 := [Socket dfd; Setsockopt dfd (w_setsockopt w);
                     Fopen filepath "rb" opened] in
        if negb opened
        then (st, pre0
                    ++ send_response client_fd "550 No such file or directory."
                    ++ [Close dfd])
        else
          let pre :=
            pre0
              ++ send_response client_fd
                   "150 File status okay; about to open data connection."
              ++ [Connect dfd client_ip (htons client_port) (w_connect w)] in
          if w_connect w <? 0
          then (st, pre ++ Close dfd
                      :: send_response client_fd
                           "425 Can't open data connection.")
          else if w_fork w <? 0
          then (st, pre ++ [Fork (w_fork w); Close dfd]
                      ++ send_response client_fd
                           "451 Requested action aborted: local error in processing.")
          else
            let '(st', post) := transfer_parent i st client_fd dfd (w_fork w) in
            (st', pre ++ Fork (w_fork w)
                    :: retr_child w st client_fd dfd filepath ++ post)
  end.

Definition handle_stor_command (w : World) (st : Server) (client_fd : Z)
    (filename : string) : Server * list event :=
  match get_session_index st client_fd with
  | None => (st, send_response client_fd "425 Can't open data connection.")
  | Some i =>
    let s := session_at st i in
    if data_port s =? -1
    then (st, send_response client_fd "425 Can't open data connection.")
    else
      let client_ip := data_ip s in
      let client_port := data_port s in
      let dfd := w_socket w in
      if dfd <? 0
      then (st, Socket dfd
                  :: send_response client_fd "425 Can't open data connection.")
      else if w_setsockopt w <? 0
      then (st, [Socket dfd; Setsockopt dfd (w_setsockopt w); Close dfd]
                  ++ send_response client_fd "425 Can't open data connection.")
      else
        let temp_filepath :=
          current_dir s +:+ "/tmp_" +:+ fmt_d (w_time w) +:+ "_"
            +:+ filename in
        let final_filepath := current_dir s +:+ "/" +:+ filename in
        let pre :=
          [Socket dfd; Setsockopt dfd (w_setsockopt w)]
            ++ send_response client_fd
                 "150 File status okay; about to open data connection."
            ++ [Connect dfd client_ip (htons client_port) (w_connect w)] in
        if w_connect w <? 0
        then (st, pre ++ Close dfd
                    :: send_response client_fd "425 Can't open data connection.")
        else if w_fork w <? 0
        then (st, pre ++ [Fork (w_fork w); Close dfd]
                    ++ send_response client_fd
                         "451 Requested action aborted: local error in processing.")
        else
          let '(st1, child) :=
            stor_child w st client_fd dfd temp_filepath final_filepath in
          let '(st', post) := transfer_parent i st1 client_fd dfd (w_fork w) in
          (st', pre ++ Fork (w_fork w) :: child ++ post)
  end.

Definition handle_mkd_command (w : World) (st : Server) (client_fd : Z)
    (dirname : string) : Server * list event :=
  match get_session_index st client_fd with
  | None => (st, send_response client_fd "500 Internal server error.")
  | Some i =>
    let dir_path := current_dir (session_at st i) +:+ "/" +:+ dirname in
    if w_opendir w dir_path
    then (st, Opendir dir_path true
                :: send_response client_fd "550 Directory already exists.")
    else if w_mkdir w dir_path =? 0
    then (st, [Opendir dir_path false; Mkdir dir_path (w_mkdir w dir_path)]
                ++ send_response client_fd
                     ("257 " +:+ DQUOTE +:+ dirname +:+ DQUOTE
                      +:+ " directory created."))
    else (st, [Opendir dir_path false; Mkdir dir_path (w_mkdir w dir_path)]
                ++ send_response client_fd "550 Failed to create directory.")
  end.

Definition handle_rmd_command (w : World) (st : Server) (client_fd : Z)
    (dirname : string) : Server * list event :=
  match get_session_index st client_fd with
  | None => (st, send_response client_fd "500 Internal server error.")
  | Some i =>
    let dir_path := current_dir (session_at st i) +:+ "/" +:+ dirname in
    if negb (w_opendir w dir_path)
    then (st, Opendir dir_path false
                :: send_response client_fd "550 Directory not found.")
    else if w_rmdir w dir_path =? 0
    then (st, [Opendir dir_path true; Rmdir dir_path (w_rmdir w dir_path)]
                ++ send_response client_fd
                     ("250 " +:+ DQUOTE +:+ dirname +:+ DQUOTE
                      +:+ " directory removed."))
    else (st, [Opendir dir_path true; Rmdir dir_path (w_rmdir w dir_path)]
                ++ send_response client_fd
                     "550 Failed to remove directory. Make sure it is empty.")
  end.

Definition handle_dele_command (w : World) (st : Server) (client_fd : Z)
    (filename : string) : Server * list event :=
  match get_session_index st client_fd with
  | None => (st, send_response client_fd "500 Internal server error.")
  | Some i =>
    let file_path := current_dir (session_at st i) +:+ "/" +:+ filename in
    match files st !! file_path with
    | None => (st, Fopen file_path "r" false
                     :: send_response client_fd "550 File not found.")
    | Some _ =>
        if w_unlink w file_path =? 0
        then (set_files (delete file_path (files st)) st,
              [Fopen file_path "r" true;
               Unlink file_path (w_unlink w file_path)]
                ++ send_response client_fd
                     ("250 " +:+ DQUOTE +:+ filename +:+ DQUOTE
                      +:+ " file deleted."))
        else (st, [Fopen file_path "r" true;
                   Unlink file_path (w_unlink w file_path)]
                    ++ send_response client_fd "550 Failed to delete file.")
    end
  end.

Definition handle_rnfr_command (w : World) (st : Server) (client_fd : Z)
    (oldname : string) : Server * list event :=
  match get_session_index st client_fd with
  | None => (st, send_response client_fd "500 Internal server error.")
  | Some i =>
    let file_path := current_dir (session_at st i) +:+ "/" +:+ oldname in
    if w_stat w file_path =? -1
    then (st, Stat file_path (w_stat w file_path)
                :: send_response client_fd "550 File not found.")
    else (set_rnfr (<[i := file_path]> (rnfr_filename st)) st,
          Stat file_path (w_stat w file_path)
            :: send_response client_fd
                 "350 Requested file action pending further information.")
  end.

Definition handle_rnto_command (w : World) (st : Server) (client_fd : Z)
    (newname : string) : Server * list event :=
  match get_session_index st client_fd with
  | None => (st, send_response client_fd "500 Internal server error.")
  | Some i =>
    let old := default EmptyString (rnfr_filename st !! i) in
    match old with
    | EmptyString =>
        (st, send_response client_fd "503 Bad sequence of commands.")
    | _ =>
        let new_file_path :=
          current_dir (session_at st i) +:+ "/" +:+ newname in
        let ret := w_rename w old new_file_path in
        let cleared := <[i := EmptyString]> (rnfr_filename st) in
        if ret =? 0
        then (set_rnfr cleared
                (set_files
                   match files st !! old with
                   | Some content =>
                       <[new_file_path := content]> (delete old (files st))
                   | None => files st
                   end st),
              Rename old new_file_path ret
                :: send_response client_fd "250 File successfully renamed.")
        else (set_rnfr cleared st,
              Rename old new_file_path ret
                :: send_response client_fd "550 Failed to rename file.")
    end
  end.

Definition handle_quit_command (st : Server) (client_fd : Z)
    : Server * list event :=
  let reply := send_response client_fd "221 Service closing control connection." in
  match get_session_index st client_fd with
  | Some i =>
      let '(st', closed) := clean_up_session i st in
      (st', reply ++ closed ++ [Close client_fd])
  | None => (st, reply ++ [Close client_fd])
  end.

(** handle_command.  [cmd0] and [arg0] stand for what the two local
    buffers hold on entry: they are not initialised, and sscanf leaves
    [arg] as it was when the line has a single word. *)
Definition handle_command (w : World) (cmd0 arg0 : string) (st : Server)
    (client_fd : Z) (command : string) : Server * list event :=
  let '(n, cmd, arg) := sscanf_s_s command cmd0 arg0 in
  if n <? 1
  then (st, send_response client_fd "500 Syntax error, command unrecognized.")
  else
    match get_session_index st client_fd with
    | None => (st, send_response client_fd "500 Internal server error.")
    | Some session_index =>
      if streq cmd "USER" then handle_user_command st client_fd arg
      else if streq cmd "PASS" then handle_pass_command w st client_fd arg
      else if streq cmd "QUIT" then handle_quit_command st client_fd
      else if negb (authenticated (session_at st session_index))
      then (st, send_response client_fd "530 Not logged in.")
      else if streq cmd "PORT" then handle_port_command st client_fd arg
      else if streq cmd "LIST" then handle_list_command w st client_fd
      else if streq cmd "CWD" then handle_cwd_command w st client_fd arg
      else if streq cmd "PWD" then handle_pwd_command st client_fd
      else if streq cmd "RETR" then handle_retr_command w st client_fd arg
      else if streq cmd "STOR" then handle_stor_command w st client_fd arg
      else if streq cmd "MKD" then handle_mkd_command w st client_fd arg
      else if streq cmd "RMD" then handle_rmd_command w st client_fd arg
      else if streq cmd "DELE" then handle_dele_command w st client_fd arg
      else if streq cmd "RNFR" then handle_rnfr_command w st client_fd arg
      else if streq cmd "RNTO" then handle_rnto_command w st client_fd arg
      else (st, send_response client_fd "202 Command not implemented.")
    end.

(** *** The loop of main *)

(** The locals of main that live across iterations of its loop, and with
    them [closed_fds]: the descriptors of [master_fds] that the process has
    closed without clearing them from the set. *)
Record Main := mkMain {
  srv : Server;
  server_fd : Z;
  master_fds : gset Z;
  max_fd : Z;
  closed_fds : gset Z
}.

(** The buffer read from a control socket, as the C string handle_command
    sees: a NUL is put after the bytes read and over every CR and LF. *)
Fixpoint c_line (buffer : string) : string :=
  match buffer with
  | EmptyString => EmptyString
  | String c rest =>
      if Ascii.eqb c NUL || Ascii.eqb c LF || Ascii.eqb c CR
      then EmptyString
      else String c (c_line rest)
  end.

(** The events of a trace that are the parent's: those of a child, from a
    successful fork to its exit, are left out. *)
Fixpoint parent_events (in_child : bool) (tr : list event) : list event :=
  match tr with
  | [] => []
  | Fork ret :: rest => Fork ret :: parent_events (0 <=? ret) rest
  | Exit _ :: rest => parent_events false rest
  | e :: rest =>
      if in_child then parent_events in_child rest
      else e :: parent_events in_child rest
  end.

(** The process has closed descriptor [fd] during [tr]. *)
Definition closes (fd : Z) (tr : list event) : bool :=
  existsb (fun e => match e with
                    | Close fd' => fd' =? fd
                    | _ => false
                    end)
          (parent_events false tr).

(** "Check for new connections", from the return of accept on, for a
    [client_fd] that is not negative. *)
Definition accept_connection (w : World) (m : Main) (client_fd : Z)
    : Main * list event :=
  let st := srv m in
  let st' :=
    match find_session (client_sessions st) (-1) 0 with
    | Some i =>
        update_session i
          (fun s =>
             let s1 :=
               set_data_ip EmptyString
                 (set_data_port (-1)
                    (set_data_fd (-1)
                       (set_authenticated false
                          (set_control_fd client_fd s)))) in
             match w_getcwd w with
             | Some cwd => set_current_dir cwd (set_root_dir cwd s1)
             | None => s1
             end)
          st
    | None => st
    end in
  (mkMain st' (server_fd m) ({[client_fd]} ∪ master_fds m)
          (if max_fd m <? client_fd then client_fd else max_fd m)
          (closed_fds m ∖ {[client_fd]}),
   send_response client_fd "220 Service ready for new user.").

(** "Check for client data" for one ready descriptor [i] other than the
    listening socket, given what read returned. *)
Definition client_data (w : World) (cmd0 arg0 : string) (m : Main) (i : Z)
    (r : read_result) : Main * list event :=
  match r with
  | RBytes (b :: bs) =>
      let command := c_line (string_of_list_byte (b :: bs)) in
      let '(st', evs) := handle_command w cmd0 arg0 (srv m) i command in
      (mkMain st' (server_fd m) (master_fds m) (max_fd m)
              (if closes i evs then {[i]} ∪ closed_fds m else closed_fds m),
       evs)
  | _ =>
      let '(st', closed) :=
        match get_session_index (srv m) i with
        | Some session_index => clean_up_session session_index (srv m)
        | None => (srv m, [])
        end in
      (mkMain st' (server_fd m) (master_fds m ∖ {[i]}) (max_fd m)
              (closed_fds m ∖ {[i]}),
       closed ++ [Close i])
  end.

(** One ready control socket: what read returns on it, the answers of the
    system while it is served, and the content of handle_command's buffers
    on entry. *)
Record Tick := mkTick {
  t_world : World;
  t_cmd0 : string;
  t_arg0 : string;
  t_fd : Z;
  t_read : read_result
}.

(** The for loop over the ready descriptors. *)
Fixpoint serve (m : Main) (ready : list Tick) : Main * list event :=
  match ready with
  | [] => (m, [])
  | t :: rest =>
      let '(m1, evs1) :=
        if t_fd t =? server_fd m then (m, [])
        else client_data (t_world t) (t_cmd0 t) (t_arg0 t) m (t_fd t)
                         (t_read t) in
      let '(m2, evs2) := serve m1 rest in
      (m2, evs1 ++ evs2)
  end.

(** How select returns, as far as the system decides it. *)
Inductive select_result :=
| SelReady
| SelInterrupted   (* -1 with errno EINTR *)
| SelFailed.       (* -1 with another errno *)

(** One turn of the loop: the return of select, whether the listening
    socket is ready and what accept then returns, and the ready control
    sockets in increasing order. *)
Record Iteration := mkIteration {
  it_select : select_result;
  it_world : World;
  it_accept : option Z;
  it_ready : list Tick
}.

(** The control sockets that get served in this turn: none when select is
    interrupted or accept fails, for the turn is given up then. *)
Definition served (it : Iteration) : list Tick :=
  match it_select it, it_accept it with
  | SelReady, Some client_fd =>
      if client_fd <? 0 then [] else it_ready it
  | SelReady, None => it_ready it
  | _, _ => []
  end.

(** One turn of the loop of main.  [None] is exit(EXIT_FAILURE): select
    fails with EBADF as soon as a closed descriptor is in its set. *)
Definition iteration (m : Main) (it : Iteration)
    : option (Main * list event) :=
  if negb (bool_decide (closed_fds m = ∅)) then None
  else
    match it_select it with
    | SelFailed => None
    | SelInterrupted => Some (m, [])
    | SelReady =>
        match it_accept it with
        | Some client_fd =>
            if client_fd <? 0 then Some (m, [])
            else
              let '(m1, evs1) := accept_connection (it_world it) m client_fd in
              let '(m2, evs2) := serve m1 (it_ready it) in
              Some (m2, evs1 ++ evs2)
        | None => Some (serve m (it_ready it))
        end
    end.

(** The loop, for as many turns as [its] has or until the process exits;
    the number is that of the turns that were made. *)
Fixpoint run (m : Main) (its : list Iteration) : Main * list event * nat :=
  match its with
  | [] => (m, [], O)
  | it :: rest =>
      match iteration m it with
      | None => (m, [], O)
      | Some (m1, evs1) =>
          let '(m2, evs2, n) := run m1 rest in
          (m2, evs1 ++ evs2, S n)
      end
  end.

(** The lines that arrive on descriptor [c] and get served. *)
Fixpoint lines_of (c : Z) (ready : list Tick) : list string :=
  match ready with
  | [] => []
  | t :: rest =>
      match t_read t with
      | RBytes (b :: bs) =>
          if t_fd t =? c
          then c_line (string_of_list_byte (b :: bs)) :: lines_of c rest
          else lines_of c rest
      | _ => lines_of c rest
      end
  end.

Definition lines_on (c : Z) (its : list Iteration) : list string :=
  concat (map (fun it => lines_of c (served it)) its).

(** While descriptor [c] is open the system hands it out to nobody else,
    and its peer keeps the connection: socket does not return [c], and a
    read on [c] returns bytes. *)
Definition tick_keeps_open (c : Z) (t : Tick) : Prop :=
  w_socket (t_world t) <> c
  /\ (t_fd t = c -> exists b bs, t_read t = RBytes (b :: bs)).

(** The same for a turn of the loop: accept does not return [c] either. *)
Definition keeps_open (c : Z) (it : Iteration) : Prop :=
  it_accept it <> Some c /\ Forall (tick_keeps_open c) (it_ready it).

End Server.

(** ** The documented version of the server *)

Module ServerDoc.

Definition PATH_MAX : nat := 4096.

(** snprintf(buf, size, ...): the text, cut to what fits with its NUL. *)
Definition snprintf (size : nat) (text : string) : string :=
  substring 0 (size - 1) text.

(** The child of LIST: one line per directory entry whose name does not
    start with a dot. *)
Definition list_child (w : World) (client_fd dfd : Z) (dir : string)
    : list event :=
  Close client_fd ::
  (if w_opendir w dir
   then Opendir dir true
          :: map (fun name =>
                    DataWrite dfd (list_byte_of_string (name +:+ CRLF)))
                 (List.filter
                    (fun name => match name with
                                 | String "." _ => false
                                 | _ => true
                                 end)
                    (w_readdir w dir))
   else [Opendir dir false])
  ++ [Close dfd; Exit 0].

Definition handle_list_command (w : World) (st : Server) (client_fd : Z)
    : Server * list event :=
  match get_session_index st client_fd with
  | None => (st, send_response client_fd "425 Can't open data connection.")
  | Some i =>
    let s := session_at st i in
    if data_port s =? -1
    then (st, send_response client_fd "425 Can't open data connection.")
    else
      let client_ip := data_ip s in
      let client_port := data_port s in
      let dfd := w_socket w in
      if dfd <? 0
      then (st, Socket dfd
                  :: send_response client_fd "425 Can't open data connection.")
      else if w_setsockopt w <? 0
      then (st, [Socket dfd; Setsockopt dfd (w_setsockopt w); Close dfd]
                  ++ send_response client_fd "425 Can't open data connection.")
      else if w_bind w <? 0
      then (st, [Socket dfd; Setsockopt dfd (w_setsockopt w);
                 Bind dfd 20 (w_bind w); Close dfd]
                  ++ send_response client_fd
                       "425 Can't open data connection (bind 20).")
      else
        let pre :=
          [Socket dfd; Setsockopt dfd (w_setsockopt w); Bind dfd 20 (w_bind w)]
            ++ send_response client_fd
                 "150 File status okay; about to open data connection."
            ++ [Connect dfd client_ip (htons client_port) (w_connect w)] in
        if w_connect w <? 0
        then (st, pre ++ Close dfd
                    :: send_response client_fd "425 Can't open data connection.")
        else if w_fork w <? 0
        then (st, pre ++ [Fork (w_fork w); Close dfd]
                    ++ send_response client_fd
                         "451 Requested action aborted: local error in processing.")
        else
          let '(st', post) := transfer_parent i st client_fd dfd (w_fork w) in
          (st', pre ++ Fork (w_fork w)
                  :: list_child w client_fd dfd (current_dir s) ++ post)
  end.

(** strncmp(resolved_path, allowed_root, len) != 0 ||
    (resolved_path[len] != '/' && resolved_path[len] != '\0'), negated. *)
Definition within_root (resolved_path allowed_root : string) : bool :=
  String.prefix allowed_root resolved_path
  && match String.get (String.length allowed_root) resolved_path with
     | None => true
     | Some c => Ascii.eqb c "/"
     end.

Definition handle_cwd_command (w : World) (st : Server) (client_fd : Z)
    (dir : string) : Server * list event :=
  match get_session_index st client_fd with
  | None => (st, send_response client_fd "500 Internal server error.")
  | Some i =>
    let s := session_at st i in
    let target_path :=
      match dir with
      | String "/" _ => snprintf PATH_MAX dir
      | _ => snprintf PATH_MAX (current_dir s +:+ "/" +:+ dir)
      end in
    match w_realpath w target_path with
    | None =>
        (st, Realpath target_path None
               :: send_response client_fd "550 No such file or directory.")
    | Some resolved_path =>
      match strstr (current_dir s) (username s) with
      | None =>
          (st, Realpath target_path (Some resolved_path)
                 :: send_response client_fd "500 Internal server error.")
      | Some _ =>
        match w_realpath w (username s) with
        | None =>
            (st, [Realpath target_path (Some resolved_path);
                  Realpath (username s) None]
                   ++ send_response client_fd "550 Invalid root directory.")
        | Some allowed_root =>
          let tr := [Realpath target_path (Some resolved_path);
                     Realpath (username s) (Some allowed_root)] in
          if negb (within_root resolved_path allowed_root)
          then (st, tr ++ send_response client_fd "550 Permission denied.")
          else
            (update_session i
               (set_current_dir (snprintf BUFFER_SIZE resolved_path)) st,
             tr ++ send_response client_fd
                     (snprintf BUFFER_SIZE
                        match strstr resolved_path (username s) with
                        | Some rel_path =>
                            "200 directory changed to /" +:+ rel_path
                        | None =>
                            "200 directory changed to " +:+ resolved_path
                        end))
        end
      end
    end
  end.

Definition handle_retr_command (w : World) (st : Server) (client_fd : Z)
    (filename : string) : Server * list event :=
  match get_session_index st client_fd with
  | None => (st, send_response client_fd "425 Can't open data connection.")
  | Some i =>
    let s := session_at st i in
    if data_port s =? -1
    then (st, send_response client_fd "425 Can't open data connection.")
    else
      let client_ip := data_ip s in
      let client_port := data_port s in
      let dfd := w_socket w in
      if dfd <? 0
      then (st, Socket dfd
                  :: send_response client_fd "425 Can't open data connection.")
      else if w_setsockopt w <? 0
      then (st, [Socket dfd; Setsockopt dfd (w_setsockopt w); Close dfd]
                  ++ send_response client_fd "425 Can't open data connection.")
      else if w_bind w <? 0
      then (st, [Socket dfd; Setsockopt dfd (w_setsockopt w);
                 Bind dfd 20 (w_bind w); Close dfd]
                  ++ send_response client_fd
                       "425 Can't open data connection (bind 20).")
      else
        let filepath := current_dir s +:+ "/" +:+ filename in
        let opened := bool_decide (is_Some (files st !! filepath)) in
        let pre0 := [Socket dfd; Setsockopt dfd (w_setsockopt w);
                     Bind dfd 20 (w_bind w); Fopen filepath "rb" opened] in
        if negb opened
        then (st, pre0
                    ++ send_response client_fd "550 No such file or directory."
                    ++ [Close dfd])
        else
          let pre :=
            pre0
              ++ send_response client_fd
                   "150 File status okay; about to open data connection."
              ++ [Connect dfd client_ip (htons client_port) (w_connect w)] in
          if w_connect w <? 0
          then (st, pre ++ Close dfd
                      :: send_response client_fd
                           "425 Can't open data connection.")
          else if w_fork w <? 0
          then (st, pre ++ [Fork (w_fork w); Close dfd]
                      ++ send_response client_fd
                           "451 Requested action aborted: local error in processing.")
          else
            let '(st', post) := transfer_parent i st client_fd dfd (w_fork w) in
            (st', pre ++ Fork (w_fork w)
                    :: retr_child w st client_fd dfd filepath ++ post)
  end.

Definition handle_stor_command (w : World) (st : Server) (client_fd : Z)
    (filename : string) : Server * list event :=
  match get_session_index st client_fd with
  | None => (st, send_response client_fd "425 Can't open data connection.")
  | Some i =>
    let s := session_at st i in
    if data_port s =? -1
    then (st, send_response client_fd "425 Can't open data connection.")
    else
      let client_ip := data_ip s in
      let client_port := data_port s in
      let dfd := w_socket w in
      if dfd <? 0
      then (st, Socket dfd
                  :: send_response client_fd "425 Can't open data connection.")
      else if w_setsockopt w <? 0
      then (st, [Socket dfd; Setsockopt dfd (w_setsockopt w); Close dfd]
                  ++ send_response client_fd "425 Can't open data connection.")
      else if w_bind w <? 0
      then (st, [Socket dfd; Setsockopt dfd (w_setsockopt w);
                 Bind dfd 20 (w_bind w); Close dfd]
                  ++ send_response client_fd
                       "425 Can't open data connection (bind 20).")
      else
        let temp_filepath :=
          current_dir s +:+ "/tmp_" +:+ fmt_d (w_time w) +:+ "_"
            +:+ filename in
        let final_filepath := current_dir s +:+ "/" +:+ filename in
        let pre :=
          [Socket dfd; Setsockopt dfd (w_setsockopt w); Bind dfd 20 (w_bind w)]
            ++ send_response client_fd
                 "150 File status okay; about to open data connection."
            ++ [Connect dfd client_ip (htons client_port) (w_connect w)] in
        if w_connect w <? 0
        then (st, pre ++ Close dfd
                    :: send_response client_fd "425 Can't open data connection.")
        else if w_fork w <? 0
        then (st, pre ++ [Fork (w_fork w); Close dfd]
                    ++ send_response client_fd
                         "451 Requested action aborted: local error in processing.")
        else
          let '(st1, child) :=
            stor_child w st client_fd dfd temp_filepath final_filepath in
          let '(st', post) := transfer_parent i st1 client_fd dfd (w_fork w) in
          (st', pre ++ Fork (w_fork w) :: child ++ post)
  end.

(** QUIT here leaves the close of the control socket to the loop of main. *)
Definition handle_quit_command (st : Server) (client_fd : Z)
    : Server * list event :=
  let reply := send_response client_fd "221 Service closing control connection." in
  match get_session_index st client_fd with
  | Some i =>
      let '(st', closed) := clean_up_session i st in
      (st', reply ++ closed)
  | None => (st, reply)
  end.

Definition handle_command (w : World) (cmd0 arg0 : string) (st : Server)
    (client_fd : Z) (command : string) : Server * list event :=
  let '(n, cmd, arg) := sscanf_s_s command cmd0 arg0 in
  if n <? 1
  then (st, send_response client_fd "500 Syntax error, command unrecognized.")
  else
    match get_session_index st client_fd with
    | None => (st, send_response client_fd "500 Internal server error.")
    | Some session_index =>
      if streq cmd "USER" then handle_user_command st client_fd arg
      else if streq cmd "PASS" then handle_pass_command w st client_fd arg
      else if streq cmd "QUIT" then handle_quit_command st client_fd
      else if negb (authenticated (session_at st session_index))
      then (st, send_response client_fd "530 Not logged in.")
      else if streq cmd "PORT" then handle_port_command st client_fd arg
      else if streq cmd "LIST" then handle_list_command w st client_fd
      else if streq cmd "CWD" then handle_cwd_command w st client_fd arg
      else if streq cmd "PWD" then handle_pwd_command st client_fd
      else if streq cmd "RETR" then handle_retr_command w st client_fd arg
      else if streq cmd "STOR" then handle_stor_command w st client_fd arg
      else (st, send_response client_fd "202 Command not implemented.")
    end.

End ServerDoc.

(** ** Loading the credential store *)

(** while (fgets(line, sizeof(line), fp)): the lines of the file as fgets
    hands them out, the newline at their end included.  [fuel] bounds the
    number of lines; the length of the content is enough. *)
Fixpoint read_lines (fuel : nat) (content : string) : list string :=
  match fuel, content with
  | S fuel', String _ _ =>
      let '(line, more) := fgets (BUFFER_SIZE - 1) content in
      line :: read_lines fuel' more
  | _, _ => []
  end.

(** The body of the loop of load_users, on the bytes fgets has put into
    [line]: strtok sees them as a C string, so up to the first NUL.  The
    first field up to a comma is the user name, the token after it up to a
    comma or the newline is the password; a line that lacks one of them
    adds nothing. *)
Definition parse_user (line : string) : option User :=
  match strtok "," (c_string line) with
  | None => None
  | Some (name, next) =>
      match strtok ("," +:+ String LF EmptyString) next with
      | None => None
      | Some (password, _) =>
          Some (mkUser (strncpy name MAX_USERNAME)
                       (strncpy password MAX_PASSWORD))
      end
  end.

(** load_users, on the content of users.csv: the table it fills, for a file
    of at most MAX_USERS usable lines (the loop does not test num_users, and
    a longer file writes past the table). *)
Definition load_users (content : string) : list User :=
  omap parse_user (read_lines (String.length content) content).

(** ** code/client.c *)

Module Client.

(** count_arguments: the number of tokens strtok finds between spaces and
    tabs.  [fuel] bounds the number of tokens. *)
Fixpoint count_tokens (fuel : nat) (s : string) : Z :=
  match fuel with
  | O => 0
  | S fuel' =>
      match strtok (" " +:+ String (ascii_of_nat 9) EmptyString) s with
      | None => 0
      | Some (_, next) => 1 + count_tokens fuel' next
      end
  end.

Definition count_arguments (command : string) : Z :=
  count_tokens (String.length command) command.

(** What the loop of main makes of one line typed by the user. *)
Inductive action :=
| Skip                                  (* continue *)
| Usage (verb : string)                 (* the usage line of the verb *)
| Unknown (cmd : string)                (* "Unknown command" *)
| Call (verb : string) (arg : string).  (* the handler of the verb *)

Definition verbs_with_argument : list string :=
  ["USER"; "PASS"; "CWD"; "!CWD"; "RETR"; "STOR"].

Definition verbs_alone : list string :=
  ["LIST"; "!LIST"; "PWD"; "!PWD"; "QUIT"].

(** The body of the loop of main after fgets, down to the call of the
    handler, on the bytes fgets has read: strcspn, sscanf and strtok take
    them as a C string, up to the first NUL.  The buffers cmd and arg start
    empty here. *)
Definition dispatch (typed : string) : action :=
  let command := cut_at (String LF EmptyString) (c_string typed) in
  match command with
  | EmptyString => Skip
  | _ =>
      let '(n, cmd, arg) := sscanf_s_s command EmptyString EmptyString in
      if n <? 1 then Skip
      else
        let arg_count := count_arguments command in
        if existsb (String.eqb cmd) verbs_with_argument
        then if arg_count =? 2 then Call cmd arg else Usage cmd
        else if existsb (String.eqb cmd) verbs_alone
        then if arg_count =? 1 then Call cmd arg else Usage cmd
        else Unknown cmd
  end.

(** send_command: the bytes written to the control socket. *)
Definition send_command (command : string) : string := command +:+ CRLF.

(** receive_response: what is left in the buffer of the bytes one read
    returned, cut at the first carriage return or line feed. *)
Definition receive_response (bytes : string) : string :=
  cut_at CRLF bytes.

(** What handle_user_command and handle_pass_command write to the control
    socket: the verb, a space and the argument. *)
Definition handle_user_command (name : string) : string :=
  send_command ("USER " +:+ name).

Definition handle_pass_command (password : string) : string :=
  send_command ("PASS " +:+ password).

(** The PORT command setup_data_connection sends for the port its
    listening socket got (ntohs gives 0..65535; C division truncates). *)
Definition port_command (data_port : Z) : string :=
  "PORT 127,0,0,1," +:+ fmt_d (Z.quot data_port 256) +:+ ","
  +:+ fmt_d (Z.rem data_port 256).

Definition setup_data_connection (data_port : Z) : string :=
  send_command (port_command data_port).

(** What the other handlers write to the control socket, in order, with
    [authenticated] the client's own flag (set by a 230 reply to PASS) and
    [data_port] the port of the listening socket, when the handler gets as
    far as its command (the local file of STOR and the listening socket
    are there). *)
Definition handle_cwd_command (authenticated : bool) (dir : string)
    : list string :=
  if authenticated then [send_command ("CWD " +:+ dir)] else [].

Definition handle_pwd_command (authenticated : bool) : list string :=
  if authenticated then [send_command "PWD"] else [].

Definition handle_list_command (authenticated : bool) (data_port : Z)
    : list string :=
  if authenticated
  then [setup_data_connection data_port; send_command "LIST"]
  else [].

Definition handle_retr_command (authenticated : bool) (data_port : Z)
    (filename : string) : list string :=
  if authenticated
  then [setup_data_connection data_port;
        send_command ("RETR " +:+ filename)]
  else [].

Definition handle_stor_command (authenticated : bool) (data_port : Z)
    (filename : string) : list string :=
  if authenticated
  then [setup_data_connection data_port;
        send_command ("STOR " +:+ filename)]
  else [].

Definition handle_quit_command : string := send_command "QUIT".

End Client.

(** ** Vocabulary of the statements *)

(** White space only. *)
Fixpoint all_space (s : string) : bool :=
  match s with
  | EmptyString => true
  | String c rest => isspace c && all_space rest
  end.

Fixpoint no_space (s : string) : bool :=
  match s with
  | EmptyString => true
  | String c rest => negb (isspace c) && no_space rest
  end.

(** A white-space-delimited token: not empty, no white space in it. *)
Definition is_word (s : string) : bool :=
  match s with
  | EmptyString => false
  | _ => no_space s
  end.

(** [s] is empty or starts with white space: a token ends before it. *)
Definition ends_word (s : string) : bool :=
  match s with
  | EmptyString => true
  | String c _ => isspace c
  end.

(** [s] is empty or starts with something else than a digit: a number ends
    before it. *)
Definition not_digit_start (s : string) : bool :=
  match s with
  | EmptyString => true
  | String c _ => negb (isdigit c)
  end.

Definition fits_int (z : Z) : Prop := INT_MIN <= z <= INT_MAX.

(** The three states of the specification, read off a session record. *)
Inductive auth_state :=
| Unauth
| UserNamed (u : string)
| Authenticated (u : string).

Definition auth_state_of (s : FTPSession) : auth_state :=
  if authenticated s then Authenticated (username s)
  else match username s with
       | EmptyString => Unauth
       | u => UserNamed u
       end.

(** The jail test of the specification: [path] is [root] or lies below
    it. *)
Definition in_jail (root path : string) : bool :=
  String.eqb path root || String.prefix (root +:+ "/") path.

(** The control replies in a trace, in order. *)
Fixpoint replies (client_fd : Z) (tr : list event) : list string :=
  match tr with
  | [] => []
  | Write fd bytes :: rest =>
      if fd =? client_fd then bytes :: replies client_fd rest
      else replies client_fd rest
  | _ :: rest => replies client_fd rest
  end.

(** Every connect in the trace is made on a socket that a successful bind
    has given source port 20 before; [bound] lists the sockets bound so
    far. *)
Fixpoint connects_from_20 (bound : list Z) (tr : list event) : bool :=
  match tr with
  | [] => true
  | Bind fd port ret :: rest =>
      connects_from_20
        (if (port =? 20) && (0 <=? ret) then fd :: bound else bound) rest
  | Connect fd _ _ _ :: rest =>
      existsb (Z.eqb fd) bound && connects_from_20 bound rest
  | _ :: rest => connects_from_20 bound rest
  end.

Definition is_bind (e : event) : bool :=
  match e with
  | Bind _ _ _ => true
  | _ => false
  end.

Definition is_connect (e : event) : bool :=
  match e with
  | Connect _ _ _ _ => true
  | _ => false
  end.

(** Neither bind nor connect in the trace. *)
Definition quiet (tr : list event) : bool :=
  forallb (fun e => negb (is_bind e || is_connect e)) tr.

Definition is_unlink (e : event) : bool :=
  match e with
  | Unlink _ _ => true
  | _ => false
  end.

(** Descriptor [c] is in no session, neither as control nor as data
    socket. *)
Definition unknown_fd (c : Z) (st : Server) : Prop :=
  Forall (fun s => control_fd s <> c /\ data_fd s <> c) (client_sessions st).

(** The event writes to descriptor [c] or closes it. *)
Definition touches (c : Z) (e : event) : bool :=
  match e with
  | Write fd _ => fd =? c
  | Close fd => fd =? c
  | _ => false
  end.

(** The result of a handler leaves descriptor [c] alone: [c] is still in
    no session and nothing was written to it, nor was it closed. *)
Definition spares (c : Z) (r : Server * list event) : Prop :=
  unknown_fd c (fst r)
  /\ forallb (fun e => negb (touches c e)) (snd r) = true.

(** What the loop of main keeps true of a connection without session: its
    descriptor is in no session, it is watched, and it is not the
    listening socket. *)
Definition standing (c : Z) (m : Server.Main) : Prop :=
  unknown_fd c (Server.srv m)
  /\ c ∈ Server.master_fds m
  /\ c <> Server.server_fd m.

(** The reply to a line that arrives on a connection without session. *)
Definition reply_without_session (command : string) : string :=
  match scan_s command with
  | None => "500 Syntax error, command unrecognized." +:+ CRLF
  | Some _ => "500 Internal server error." +:+ CRLF
  end.

(** A part of the loop has kept descriptor [c] standing, has answered the
    [lines] that arrived on it with the reply for a connection without
    session and nothing else, and has not closed it. *)
Definition kept (c : Z) (r : Server.Main * list event)
    (lines : list string) : Prop :=
  standing c (fst r)
  /\ replies c (snd r) = map reply_without_session lines
  /\ ~ In (Close c) (snd r).

(** Every system call of the first phase of a transfer succeeded, up to and
    with fork. *)
Definition transfer_forked (w : World) : bool :=
  (0 <=? w_socket w) && (0 <=? w_setsockopt w) && (0 <=? w_connect w)
  && (0 <=? w_fork w).

(** The replies of a LIST, RETR or STOR that does not get as far as a
    forked transfer, by the first step that fails: socket or setsockopt,
    then opening the file (RETR only: [opened] is true for the other two),
    then connect, then fork. *)
Definition refusal (w : World) (opened : bool) : list string :=
  if (w_socket w <? 0) || (w_setsockopt w <? 0)
  then ["425 Can't open data connection." +:+ CRLF]
  else if negb opened
  then ["550 No such file or directory." +:+ CRLF]
  else ("150 File status okay; about to open data connection." +:+ CRLF)
       :: (if w_connect w <? 0
           then ["425 Can't open data connection." +:+ CRLF]
           else ["451 Requested action aborted: local error in processing."
                 +:+ CRLF]).

(** What LIST, RETR or STOR, given on session [i] of [st] with the endpoint
    of [s] declared, has made of the endpoint when it returns [r]: forgotten
    once the transfer is forked; otherwise the state is as it was, the
    endpoint is still the declared one and the replies are those of the
    step that failed. *)
Definition transfer_outcome (w : World) (st : Server) (client_fd : Z)
    (i : nat) (s : FTPSession) (opened : bool) (r : Server * list event)
    : Prop :=
  let '(st', out) := r in
  if transfer_forked w && opened
  then get_session_index st' client_fd = Some i
       /\ pending_data_endpoint (session_at st' i) = None
  else st' = st
       /\ pending_data_endpoint (session_at st' i)
          = Some (data_ip s, data_port s)
       /\ replies client_fd out = refusal w opened.

(** Every character of [s] satisfies [P]. *)
Fixpoint every (P : ascii -> bool) (s : string) : bool :=
  match s with
  | EmptyString => true
  | String c rest => P c && every P rest
  end.

(** No character of [s] is one of [delims]. *)
Definition free_of (delims s : string) : bool :=
  every (fun c => negb (is_delim delims c)) s.

(** The line feed as a string. *)
Definition NL : string := String LF EmptyString.

(** What a C string holds of one line: no NUL, no CR, no LF. *)
Definition one_line (s : string) : bool := free_of (String NUL CRLF) s.

(** The bytes written to the data connection in a trace, in order. *)
Fixpoint data_sent (tr : list event) : list Byte.byte :=
  match tr with
  | [] => []
  | DataWrite _ bs :: rest => bs ++ data_sent rest
  | _ :: rest => data_sent rest
  end.

(** Every write of the pieces [chunks], in order, is taken whole. *)
Definition taken_in_full (answer : nat -> write_result)
    (chunks : list (list Byte.byte)) : Prop :=
  forall k chunk,
    chunks !! k = Some chunk ->
    exists n, answer k = WTaken n /\ (length chunk <= n)%nat.

(** The k-th write is the first that is answered by SIGPIPE. *)
Definition first_sigpipe (answer : nat -> write_result) (k : nat) : Prop :=
  answer k = WSigpipe /\ forall j, (j < k)%nat -> answer j <> WSigpipe.

(** Neither a write on a data socket nor an exit. *)
Definition parent_event (e : event) : bool :=
  match e with
  | DataWrite _ _ | Exit _ => false
  | _ => true
  end.

(** What a transfer whose child is to write the pieces [chunks] comes to
    under the answers of write(); [out] is the trace of the handler and
    [tr] what is left of it under the answers.  The replies are 150 and
    226 in any case.  When every write is taken whole, [tr] is [out], the
    peer has all the pieces and the child exits with 0.  When the k-th
    write is the first answered by SIGPIPE, the pieces up to that one have
    been handed to write(), the peer has no more than the pieces before
    it, and the child does not exit. *)
Definition sends_under (answer : nat -> write_result) (client_fd : Z)
    (out : list event) (chunks : list (list Byte.byte)) : Prop :=
  let tr := under_writes answer 0 false out in
  replies client_fd tr
  = ["150 File status okay; about to open data connection." +:+ CRLF;
     "226 Transfer complete." +:+ CRLF]
  /\ (taken_in_full answer chunks ->
      tr = out
      /\ data_sent tr = concat chunks
      /\ data_received answer 0 tr = concat chunks
      /\ exit_status tr = Some 0)
  /\ (forall k, (k < length chunks)%nat -> first_sigpipe answer k ->
      data_sent tr = concat (take (S k) chunks)
      /\ (length (data_received answer 0 tr)
          <= length (concat (take k chunks)))%nat
      /\ exit_status tr = None).

(** A name as readdir gives it: a C string of at most NAME_MAX bytes. *)
Definition entry_name (name : string) : bool :=
  free_of (String NUL EmptyString) name && (String.length name <=? 255)%nat.

(** A line of users.csv for user [u], with line end [eol], and the file
    for a list of users. *)
Definition csv_row (eol : string) (u : User) : string :=
  user_username u +:+ "," +:+ user_password u +:+ eol.

Definition csv (eol : string) (us : list User) : string :=
  fold_right (fun u rest => csv_row eol u +:+ rest) EmptyString us.

(** A field of users.csv that fits its buffer: not empty, without NUL,
    comma and line feed, shorter than [n]. *)
Definition csv_field (n : nat) (s : string) : bool :=
  negb (String.eqb s EmptyString)
  && free_of (String NUL ("," +:+ NL)) s
  && (String.length s <? n)%nat.

Definition csv_user (u : User) : bool :=
  csv_field MAX_USERNAME (user_username u)
  && csv_field MAX_PASSWORD (user_password u).

(** What a connection can cause before it has logged in: replies, the
    mkdir of a login, and the closes of QUIT. *)
Definition pre_login_event (e : event) : bool :=
  match e with
  | Write _ _ | Mkdir _ _ | Close _ => true
  | _ => false
  end.

(** A conversation on one control connection: each line is read on its
    own and served with the answers of the system that go with it, as the
    loop of main does for a connection that sends one line at a time. *)
Fixpoint serve_lines (cmd0 arg0 : string) (client_fd : Z) (st : Server)
    (reads : list (World * string)) : Server * list event :=
  match reads with
  | [] => (st, [])
  | (w, bytes) :: rest =>
      let '(st1, out1) :=
        Server.handle_command w cmd0 arg0 st client_fd (Server.c_line bytes) in
      let '(st2, out2) := serve_lines cmd0 arg0 client_fd st1 rest in
      (st2, out1 ++ out2)
  end.

(** The names handle_stor_command writes to and renames to. *)
Definition temp_path (w : World) (dir filename : string) : string :=
  dir +:+ "/tmp_" +:+ fmt_d (w_time w) +:+ "_" +:+ filename.

Definition final_path (dir filename : string) : string :=
  dir +:+ "/" +:+ filename.

(** The peer sends [chunks], one per read, and closes the connection. *)
Definition sends (chunks : list (list Byte.byte)) : list read_result :=
  map RBytes chunks ++ [REof].


(** main as it enters its loop: the sessions initialised, the users
    loaded, no rename pending, the listening socket watched. *)
Definition main_start (us : list User) (fs : gmap string (list Byte.byte))
    (listen_fd : Z) : Server.Main :=
  Server.mkMain
    (mkServer us initialize_sessions (replicate MAX_CLIENTS EmptyString) fs)
    listen_fd {[listen_fd]} listen_fd ∅.

(** The connections [conns] accepted one after the other, each with the
    answers of the system at its accept. *)
Fixpoint accept_all (m : Server.Main) (conns : list (World * Z))
    : Server.Main :=
  match conns with
  | [] => m
  | (w, client_fd) :: rest =>
      accept_all (fst (Server.accept_connection w m client_fd)) rest
  end.

(** The argument of the client's PORT command. *)
Definition port_arguments (data_port : Z) : string :=
  "127,0,0,1," +:+ fmt_d (Z.quot data_port 256) +:+ ","
  +:+ fmt_d (Z.rem data_port 256).

(** What the parent of a transfer does to the session record. *)
Definition forget_endpoint (s : FTPSession) : FTPSession :=
  set_data_ip EmptyString (set_data_port (-1) s).

(** The record accept_connection makes of a free slot, for the descriptor
    accept returned and the answers of the system at that time. *)
Definition accepted (c : World * Z) : FTPSession :=
  let s1 :=
    set_data_ip EmptyString
      (set_data_port (-1)
         (set_data_fd (-1)
            (set_authenticated false (set_control_fd (snd c) free_slot)))) in
  match w_getcwd (fst c) with
  | Some cwd => set_current_dir cwd (set_root_dir cwd s1)
  | None => s1
  end.

(** ** A concrete server, used to run the handlers *)

Module Scenario.

Definition users0 : list User :=
  [mkUser "alice" "wonderland"; mkUser "bob" "donuts"].

(** alice after USER and PASS, on control socket 5, server started in
    /srv. *)
Definition alice : FTPSession :=
  mkSession 5 (-1) "alice" true "/srv/alice" "/srv" EmptyString (-1).

(** The same after PORT 127,0,0,1,19,136. *)
Definition alice_port : FTPSession :=
  set_data_port 5000 (set_data_ip "127.0.0.1" alice).

(** alice, endpoint declared, in a directory that has been removed since
    she entered it. *)
Definition alice_lost : FTPSession :=
  set_current_dir "/srv/alice/gone" alice_port.

(** A connection that has sent USER alice and no password yet. *)
Definition alice_named : FTPSession :=
  mkSession 5 (-1) "alice" false "/srv" "/srv" EmptyString (-1).

Definition server_with (s : FTPSession)
    (fs : gmap string (list Byte.byte)) : Server :=
  mkServer users0 (s :: replicate 9 free_slot) (replicate 10 EmptyString) fs.

(** The files: one of alice, /etc/passwd, and one of bob under the name
    by which a session standing in /srv/alice reaches it. *)
Definition files0 : gmap string (list Byte.byte) :=
  {[ "/srv/alice/hello.txt" := [Byte.x68; Byte.x69];
     "/etc/passwd" := [Byte.x72; Byte.x6f; Byte.x6f; Byte.x74];
     "/srv/alice/../bob/diary.txt" := [Byte.x62; Byte.x6f; Byte.x62] ]}.

(** A system with the directories /, /etc, /srv and /srv/alice
    ("/srv/alice/../.." names the first of them), in which every call
    succeeds except as the arguments say: [connect] and [fork] are the
    results of these two calls, [child_fopen] tells whether fopen succeeds
    in the child, [data_in] is what the peer sends. *)
Definition world_with (connect fork : Z) (child_fopen : bool)
    (data_in : list read_result) : World :=
  {| w_socket := 7;
     w_setsockopt := 0;
     w_bind := 0;
     w_connect := connect;
     w_fork := fork;
     w_time := 1700000000;
     w_opendir := fun p =>
       existsb (String.eqb p)
               ["/"; "/etc"; "/srv"; "/srv/alice"; "/srv/alice/../.."];
     w_readdir := fun _ => ["."; ".."; "hello.txt"];
     w_realpath := fun p =>
       if String.eqb p "alice" then Some "/srv/alice"
       else if String.eqb p "/srv/alice/../.." then Some "/"
       else if String.eqb p "/srv/alice/." then Some "/srv/alice"
       else None;
     w_mkdir := fun _ => 0;
     w_rmdir := fun _ => 0;
     w_unlink := fun _ => 0;
     w_stat := fun _ => 0;
     w_rename := fun _ _ => 0;
     w_child_fopen := fun _ => child_fopen;
     w_getcwd := Some "/srv";
     w_data_in := data_in |}.

(** Every call succeeds; the peer sends nothing. *)
Definition world_ok : World := world_with 0 4242 true [REof].

(** The peer refuses the data connection. *)
Definition world_refused : World := world_with (-1) 4242 true [REof].

(** The peer sends two bytes, then the data connection breaks. *)
Definition world_broken_upload : World :=
  world_with 0 4242 true [RBytes [Byte.x61; Byte.x62]; RError].

(** The child cannot create its temporary file. *)
Definition world_no_temp : World :=
  world_with 0 4242 false [RBytes [Byte.x61; Byte.x62]; REof].

(** Ten connected clients, on descriptors 4 to 13. *)
Definition full_house : list FTPSession :=
  map (fun fd => mkSession fd (-1) EmptyString false "/srv" "/srv"
                           EmptyString (-1))
      [4; 5; 6; 7; 8; 9; 10; 11; 12; 13].

Definition main_full : Server.Main :=
  Server.mkMain (mkServer users0 full_house (replicate 10 EmptyString) ∅)
                3 (list_to_set [3; 4; 5; 6; 7; 8; 9; 10; 11; 12; 13]) 13 ∅.

Definition bytes_read (line : string) : read_result :=
  RBytes (list_byte_of_string (line +:+ CRLF)).

Definition tick (fd : Z) (line : string) : Server.Tick :=
  Server.mkTick world_ok EmptyString EmptyString fd (bytes_read line).

(** What happens next in the full server, after the newcomer on descriptor
    14 is accepted.  First turn: the newcomer sends USER.  Second turn: the
    client on descriptor 5 sends PWD and the newcomer a blank line.  Third
    turn: the client on descriptor 6 disconnects, which frees its slot, and
    the newcomer sends QUIT. *)
Definition turns0 : list Server.Iteration :=
  [Server.mkIteration Server.SelReady world_ok None [tick 14 "USER alice"];
   Server.mkIteration Server.SelReady world_ok None
     [tick 5 "PWD"; tick 14 "  "];
   Server.mkIteration Server.SelReady world_ok None
     [Server.mkTick world_ok EmptyString EmptyString 6 REof; tick 14 "QUIT"]].

(** A client with a session sends QUIT, then the newcomer sends a line. *)
Definition turns_quit : list Server.Iteration :=
  [Server.mkIteration Server.SelReady world_ok None [tick 5 "QUIT"];
   Server.mkIteration Server.SelReady world_ok None [tick 14 "USER alice"]].

End Scenario.

(** * Properties *)

#[local] Arguments String.append !_ _ / : simpl nomatch.

(** ** The scanners *)

Section Scanning.

Lemma skip_space_app ws s :
  all_space ws = true -> skip_space (ws +:+ s) = skip_space s.
Proof.
  induction ws as [|c ws IH]; simpl; intros H; [reflexivity|].
  apply andb_true_iff in H as [Hc Hws]. rewrite Hc. auto.
Qed.

Lemma skip_space_word w s :
  is_word w = true -> skip_space (w +:+ s) = w +:+ s.
Proof.
  destruct w as [|c w]; simpl; [discriminate|].
  intros H. apply andb_true_iff in H as [Hc _].
  apply negb_true_iff in Hc. now rewrite Hc.
Qed.

Lemma scan_word_app w s :
  no_space w = true -> ends_word s = true -> scan_word (w +:+ s) = (w, s).
Proof.
  induction w as [|c w IH]; simpl; intros Hw Hs.
  - destruct s as [|c s]; simpl in *; [reflexivity | now rewrite Hs].
  - apply andb_true_iff in Hw as [Hc Hw]. apply negb_true_iff in Hc.
    rewrite Hc, (IH Hw Hs). reflexivity.
Qed.

Lemma scan_s_word ws w s :
  all_space ws = true -> is_word w = true -> ends_word s = true ->
  scan_s (ws +:+ w +:+ s) = Some (w, s).
Proof.
  intros Hws Hw Hs. unfold scan_s.
  rewrite (skip_space_app _ _ Hws), (skip_space_word _ _ Hw).
  destruct w as [|c w]; [discriminate|].
  rewrite scan_word_app by assumption. reflexivity.
Qed.

Lemma skip_space_blank ws : all_space ws = true -> skip_space ws = EmptyString.
Proof.
  induction ws as [|c ws IH]; simpl; intros H; [reflexivity|].
  apply andb_true_iff in H as [Hc Hws]. rewrite Hc. auto.
Qed.

Lemma scan_s_blank ws : all_space ws = true -> scan_s ws = None.
Proof. intros H. unfold scan_s. now rewrite skip_space_blank. Qed.

Lemma ends_word_space ws s :
  all_space ws = true -> ws <> EmptyString -> ends_word (ws +:+ s) = true.
Proof.
  destruct ws as [|c ws]; simpl; intros H Hne; [congruence|].
  now apply andb_true_iff in H as [Hc _].
Qed.

(** Reading back a printed numeral. *)
Lemma scan_digits_print d rest :
  not_digit_start rest = true ->
  scan_digits (NilEmpty.string_of_uint d +:+ rest) = (d, rest).
Proof.
  intros Hr. induction d; simpl.
  1: { destruct rest as [|c r]; simpl in *; [reflexivity|].
       apply negb_true_iff in Hr. now rewrite Hr. }
  all: change (String.append (NilEmpty.string_of_uint d) rest)
         with (NilEmpty.string_of_uint d +:+ rest);
       rewrite IHd; reflexivity.
Qed.

Lemma scan_d_unsigned d rest :
  d <> Decimal.Nil -> not_digit_start rest = true ->
  scan_d (NilEmpty.string_of_uint d +:+ rest)
  = Some (scan_int (Z.of_uint d), rest).
Proof.
  intros Hd Hr. unfold scan_d.
  assert (Hs : scan_sign (skip_space (NilEmpty.string_of_uint d +:+ rest))
               = (false, NilEmpty.string_of_uint d +:+ rest)).
  { destruct d; [contradiction | reflexivity ..]. }
  rewrite Hs; cbv beta iota; rewrite scan_digits_print by assumption.
  destruct d; [contradiction | reflexivity ..].
Qed.

Lemma scan_d_negative d rest :
  d <> Decimal.Nil -> not_digit_start rest = true ->
  scan_d (String "-" (NilEmpty.string_of_uint d) +:+ rest)
  = Some (scan_int (- Z.of_uint d), rest).
Proof.
  intros Hd Hr. unfold scan_d.
  change (scan_sign
            (skip_space (String "-" (NilEmpty.string_of_uint d) +:+ rest)))
    with (true, NilEmpty.string_of_uint d +:+ rest).
  cbv beta iota; rewrite scan_digits_print by assumption.
  destruct d; [contradiction | reflexivity ..].
Qed.

Lemma string_of_uint_nonnil d :
  d <> Decimal.Nil -> NilZero.string_of_uint d = NilEmpty.string_of_uint d.
Proof. destruct d; [contradiction | reflexivity ..]. Qed.

(** %d reads what %d printed. *)
Lemma scan_d_print z rest :
  not_digit_start rest = true ->
  scan_d (fmt_d z +:+ rest) = Some (scan_int z, rest).
Proof.
  intros Hr. pose proof (DecimalZ.of_to z) as Hz.
  unfold fmt_d. destruct z as [|p|p].
  - apply (scan_d_unsigned (Decimal.D0 Decimal.Nil));
      [discriminate | assumption].
  - pose proof (DecimalPos.Unsigned.to_uint_nonnil p) as Hn.
    change (Z.of_uint (Pos.to_uint p) = Z.pos p) in Hz.
    change (NilZero.string_of_int (Z.to_int (Z.pos p)))
      with (NilZero.string_of_uint (Pos.to_uint p)).
    rewrite (string_of_uint_nonnil _ Hn), (scan_d_unsigned _ _ Hn Hr), Hz.
    reflexivity.
  - pose proof (DecimalPos.Unsigned.to_uint_nonnil p) as Hn.
    change (- Z.of_uint (Pos.to_uint p) = Z.neg p) in Hz.
    change (NilZero.string_of_int (Z.to_int (Z.neg p)))
      with (String "-" (NilZero.string_of_uint (Pos.to_uint p))).
    rewrite (string_of_uint_nonnil _ Hn), (scan_d_negative _ _ Hn Hr), Hz.
    reflexivity.
Qed.

Lemma wrap_int_small z : fits_int z -> wrap_int z = z.
Proof.
  unfold fits_int, INT_MIN, INT_MAX, wrap_int. intros H.
  rewrite Z.mod_small by lia. lia.
Qed.

Lemma scan_int_small z : fits_int z -> scan_int z = z.
Proof.
  intros H. unfold scan_int. rewrite <- (wrap_int_small z H) at 2. f_equal.
  unfold fits_int, INT_MIN, INT_MAX in H.
  unfold strtol_range, LONG_MIN, LONG_MAX. lia.
Qed.

(** Six printed numbers with commas between them scan as six values,
    whatever follows the last one. *)
Lemma sscanf_6d_print h1 h2 h3 h4 p1 p2 rest :
  not_digit_start rest = true ->
  sscanf_6d (fmt_d h1 +:+ "," +:+ fmt_d h2 +:+ "," +:+ fmt_d h3 +:+ ","
             +:+ fmt_d h4 +:+ "," +:+ fmt_d p1 +:+ "," +:+ fmt_d p2 +:+ rest)
  = map scan_int [h1; h2; h3; h4; p1; p2].
Proof.
  intros Hr. unfold sscanf_6d, scan_d_comma.
  repeat (rewrite scan_d_print by (assumption || reflexivity);
          cbn [scan_lit String.append Ascii.eqb Bool.eqb]).
  reflexivity.
Qed.

End Scanning.

(** ** Command parsing *)

Lemma append_empty_r s : s +:+ EmptyString = s.
Proof. induction s as [|c s IH]; simpl; [reflexivity | now rewrite IH]. Qed.

Section Parsing.

Variables (ws1 verb ws2 arg rest : string).
Hypothesis Hws1 : all_space ws1 = true.
Hypothesis Hverb : is_word verb = true.
Hypothesis Hws2 : all_space ws2 = true.
Hypothesis Hsep : ws2 <> EmptyString.
Hypothesis Harg : is_word arg = true.
Hypothesis Hrest : ends_word rest = true.

Lemma sscanf_two_words cmd0 arg0 :
  sscanf_s_s (ws1 +:+ verb +:+ ws2 +:+ arg +:+ rest) cmd0 arg0
  = (2, verb, arg).
Proof.
  unfold sscanf_s_s.
  rewrite (scan_s_word ws1 verb _ Hws1 Hverb)
    by (apply ends_word_space; assumption).
  rewrite (skip_space_app _ _ Hws2).
  rewrite (skip_space_word _ _ Harg).
  pose proof (scan_s_word EmptyString arg rest eq_refl Harg Hrest) as H.
  simpl in H. rewrite H. reflexivity.
Qed.

Lemma sscanf_one_word ws cmd0 arg0 :
  all_space ws = true ->
  sscanf_s_s (ws1 +:+ verb +:+ ws) cmd0 arg0 = (1, verb, arg0).
Proof.
  intros Hws. unfold sscanf_s_s.
  assert (He : ends_word ws = true).
  { destruct ws as [|c ws']; simpl in *; [reflexivity|].
    now apply andb_true_iff in Hws as [Hc _]. }
  rewrite (scan_s_word ws1 verb _ Hws1 Hverb He).
  rewrite (skip_space_blank _ Hws). reflexivity.
Qed.

End Parsing.




(** ** The session table *)

Lemma leb_ltb0 a : (0 <=? a) = negb (a <? 0).
Proof. now rewrite Z.ltb_antisym, negb_involutive. Qed.

Section Sessions.

Lemma find_session_Some l fd k i :
  find_session l fd k = Some i ->
  (k <= i)%nat /\ exists s, l !! (i - k)%nat = Some s /\ control_fd s = fd.
Proof.
  revert k. induction l as [|s l IH]; simpl; intros k H; [discriminate|].
  destruct (control_fd s =? fd) eqn:E.
  - injection H as <-. split; [lia|]. exists s.
    rewrite Nat.sub_diag. split; [reflexivity | now apply Z.eqb_eq].
  - destruct (IH _ H) as [Hle (s' & Hs' & Hfd)]. split; [lia|].
    exists s'. split; [|assumption].
    replace (i - k)%nat with (S (i - S k)) by lia. exact Hs'.
Qed.

Lemma find_session_None l fd k :
  find_session l fd k = None <-> Forall (fun s => control_fd s <> fd) l.
Proof.
  revert k. induction l as [|s l IH]; simpl; intros k.
  - split; [constructor | reflexivity].
  - destruct (control_fd s =? fd) eqn:E.
    + apply Z.eqb_eq in E. split; [discriminate|].
      intros H. inversion H; subst. contradiction.
    + apply Z.eqb_neq in E. rewrite IH. split.
      * intros H. now constructor.
      * intros H. now inversion H.
Qed.

Lemma get_session_index_Some st fd i :
  get_session_index st fd = Some i ->
  exists s, client_sessions st !! i = Some s /\ control_fd s = fd.
Proof.
  intros H. apply find_session_Some in H as [_ (s & Hs & Hfd)].
  rewrite Nat.sub_0_r in Hs. eauto.
Qed.

Lemma session_at_lookup st i s :
  client_sessions st !! i = Some s -> session_at st i = s.
Proof. unfold session_at. now intros ->. Qed.

Lemma session_at_update st i f s :
  client_sessions st !! i = Some s ->
  session_at (update_session i f st) i = f s.
Proof.
  intros Hs. unfold session_at, update_session. simpl.
  rewrite list_lookup_alter_eq, Hs. reflexivity.
Qed.

Lemma lookup_update_ne st i j f :
  i <> j ->
  client_sessions (update_session i f st) !! j = client_sessions st !! j.
Proof.
  intros Hne. unfold update_session. simpl.
  now rewrite list_lookup_alter_ne.
Qed.

Lemma update_session_id st i f :
  (forall s, f s = s) -> update_session i f st = st.
Proof.
  intros Hf. unfold update_session, set_sessions. destruct st as [u l r m].
  simpl. f_equal. now apply list_alter_id.
Qed.

End Sessions.

(** ** PORT *)

(** C6, as stated, fails: an octet above 255 is accepted, with reply 200,
    and goes into the declared endpoint. *)
Lemma port_octet_above_255_accepted :
  let st := Scenario.server_with Scenario.alice Scenario.files0 in
  let '(st', out) := handle_port_command st 5 "300,0,0,1,1,2" in
  out = send_response 5 "200 PORT command successful."
  /\ out <> send_response 5 "501 Syntax error in parameters."
  /\ pending_data_endpoint (session_at st' 0)
     = Some ("300.0.0.1"%string, 258).
Proof. vm_compute. repeat split; discriminate. Qed.

(** C6 (as amended): PORT takes any six integers that sscanf reads with
    commas between them; no range is checked.  For six numbers written as
    %d prints them, whatever follows the sixth, the reply is 200, the
    address is the first four values as %d stored them, printed with dots,
    and the port is p1*256+p2 in [int] arithmetic.  The declared endpoint is
    this pair, unless the port comes out as -1, the mark of no endpoint.
    Values that fit an [int] are stored as written.  The reply is 200
    whenever sscanf reads six numbers; only when it reads fewer is the
    reply 501, and then the server state is as it was. *)
Theorem port_takes_any_six_integers
    (st : Server) (client_fd : Z) (i : nat) (h1 h2 h3 h4 p1 p2 : Z)
    (rest : string) :
  get_session_index st client_fd = Some i ->
  not_digit_start rest = true ->
  let ip := fmt_d (scan_int h1) +:+ "." +:+ fmt_d (scan_int h2) +:+ "."
            +:+ fmt_d (scan_int h3) +:+ "." +:+ fmt_d (scan_int h4) in
  let port := wrap_int (scan_int p1 * 256 + scan_int p2) in
  let '(st', out) :=
    handle_port_command st client_fd
      (fmt_d h1 +:+ "," +:+ fmt_d h2 +:+ "," +:+ fmt_d h3 +:+ ","
       +:+ fmt_d h4 +:+ "," +:+ fmt_d p1 +:+ "," +:+ fmt_d p2 +:+ rest) in
  (out = send_response client_fd "200 PORT command successful."
   /\ st' = update_session i
              (fun s => set_data_port port (set_data_ip ip s)) st
   /\ data_ip (session_at st' i) = ip
   /\ data_port (session_at st' i) = port
   /\ pending_data_endpoint (session_at st' i)
      = (if port =? -1 then None else Some (ip, port)))
  /\ (Forall fits_int [h1; h2; h3; h4; p1; p2] ->
      ip = fmt_d h1 +:+ "." +:+ fmt_d h2 +:+ "." +:+ fmt_d h3 +:+ "."
           +:+ fmt_d h4
      /\ port = wrap_int (p1 * 256 + p2))
  /\ (forall port_args,
        length (sscanf_6d port_args) <> 6%nat ->
        handle_port_command st client_fd port_args
        = (st, send_response client_fd "501 Syntax error in parameters."))
  /\ (forall port_args,
        length (sscanf_6d port_args) = 6%nat ->
        snd (handle_port_command st client_fd port_args)
        = send_response client_fd "200 PORT command successful.").
Proof.
  intros Hi Hrest ip port.
  destruct (get_session_index_Some _ _ _ Hi) as (s & Hs & _).
  unfold handle_port_command at 1.
  rewrite Hi, sscanf_6d_print by assumption. cbn [map].
  fold ip. fold port.
  split; [|split; [|split]].
  - split; [reflexivity|]. split; [reflexivity|].
    rewrite (session_at_update _ _ _ _ Hs).
    split; [reflexivity|]. split; [reflexivity|].
    unfold pending_data_endpoint. reflexivity.
  - intros Hint.
    apply Forall_cons in Hint as [H1 Hint].
    apply Forall_cons in Hint as [H2 Hint].
    apply Forall_cons in Hint as [H3 Hint].
    apply Forall_cons in Hint as [H4 Hint].
    apply Forall_cons in Hint as [H5 Hint].
    apply Forall_cons in Hint as [H6 _].
    unfold ip, port.
    rewrite (scan_int_small h1), (scan_int_small h2), (scan_int_small h3),
      (scan_int_small h4), (scan_int_small p1), (scan_int_small p2)
      by assumption.
    split; reflexivity.
  - intros port_args Hlen. unfold handle_port_command. rewrite Hi.
    destruct (sscanf_6d port_args) as [|? [|? [|? [|? [|? [|? [|? ?]]]]]]];
      simpl in Hlen; try reflexivity; lia.
  - intros port_args Hlen. unfold handle_port_command. rewrite Hi.
    destruct (sscanf_6d port_args) as [|? [|? [|? [|? [|? [|? [|? ?]]]]]]];
      simpl in Hlen; try reflexivity; lia.
Qed.

(** PORT 300,0,0,1,1,-3 with trailing text is accepted, and so is a first
    number beyond the range of [long], which is stored as -1. *)
Lemma port_takes_any_six_integers_witness :
  let st := Scenario.server_with Scenario.alice Scenario.files0 in
  (get_session_index st 5 = Some 0%nat /\ not_digit_start " junk" = true)
  /\ (let '(st', out) := handle_port_command st 5 "300,0,0,1,1,-3 junk" in
      (out = send_response 5 "200 PORT command successful."
       /\ st' = update_session 0
                  (fun s => set_data_port 253 (set_data_ip "300.0.0.1" s)) st
       /\ data_ip (session_at st' 0) = "300.0.0.1"%string
       /\ data_port (session_at st' 0) = 253
       /\ pending_data_endpoint (session_at st' 0)
          = Some ("300.0.0.1"%string, 253))
      /\ (Forall fits_int [300; 0; 0; 1; 1; -3] ->
          "300.0.0.1"%string = "300.0.0.1"%string /\ 253 = 253)
      /\ (forall port_args,
            length (sscanf_6d port_args) <> 6%nat ->
            handle_port_command st 5 port_args
            = (st, send_response 5 "501 Syntax error in parameters."))
      /\ (forall port_args,
            length (sscanf_6d port_args) = 6%nat ->
            snd (handle_port_command st 5 port_args)
            = send_response 5 "200 PORT command successful."))
  /\ (let '(st', out) :=
        handle_port_command st 5 "99999999999999999999,0,0,1,0,-1 junk" in
      out = send_response 5 "200 PORT command successful."
      /\ data_ip (session_at st' 0) = "-1.0.0.1"%string
      /\ pending_data_endpoint (session_at st' 0) = None).
Proof.
  intros st. split; [split; reflexivity|]. split.
  - exact (port_takes_any_six_integers st 5 0 300 0 0 1 1 (-3) " junk"
             eq_refl eq_refl).
  - pose proof (port_takes_any_six_integers st 5 0 99999999999999999999 0 0 1
                  0 (-1) " junk" eq_refl eq_refl) as H.
    cbv zeta in H.
    change (fmt_d 99999999999999999999 +:+ "," +:+ fmt_d 0 +:+ ","
            +:+ fmt_d 0 +:+ "," +:+ fmt_d 1 +:+ "," +:+ fmt_d 0 +:+ ","
            +:+ fmt_d (-1) +:+ " junk")
      with "99999999999999999999,0,0,1,0,-1 junk"%string in H.
    destruct (handle_port_command st 5 "99999999999999999999,0,0,1,0,-1 junk")
      as [st' out].
    destruct H as [(Ho & _ & Hip & _ & Hp) _].
    split; [exact Ho|]. split; [exact Hip | exact Hp].
Defined.

(** ** USER and PASS *)

(** C5, as stated, fails: after a PASS that does not verify the session
    still names its user, and a PASS with the right password then logs in
    with no USER in between. *)
Lemma failed_pass_keeps_user_named :
  let st := Scenario.server_with Scenario.alice_named Scenario.files0 in
  auth_state_of (session_at st 0) = UserNamed "alice"
  /\ authenticate_user (users st) "alice" "bad" = false
  /\ let '(st1, out1) := handle_pass_command Scenario.world_ok st 5 "bad" in
     out1 = send_response 5 "530 Not logged in."
     /\ auth_state_of (session_at st1 0) <> Unauth
     /\ let '(st2, out2) :=
          handle_pass_command Scenario.world_ok st1 5 "wonderland" in
        replies 5 out2 = ["230 User logged in, proceed." +:+ CRLF]
        /\ auth_state_of (session_at st2 0) = Authenticated "alice".
Proof. vm_compute. repeat split; discriminate. Qed.

(** C5 (as amended): a PASS whose password does not verify for the named
    user is answered 530 and changes nothing: the session keeps its user
    name, so a later PASS with a password that verifies logs that user in
    without a new USER. *)
Theorem failed_pass_changes_nothing
    (w : World) (st : Server) (client_fd : Z) (i : nat) (password : string) :
  get_session_index st client_fd = Some i ->
  username (session_at st i) <> EmptyString ->
  authenticate_user (users st) (username (session_at st i)) password = false ->
  handle_pass_command w st client_fd password
    = (st, send_response client_fd "530 Not logged in.")
  /\ (forall w' password',
        authenticate_user (users st) (username (session_at st i)) password'
          = true ->
        let '(st', out) :=
          handle_pass_command w'
            (fst (handle_pass_command w st client_fd password))
            client_fd password' in
        replies client_fd out = ["230 User logged in, proceed." +:+ CRLF]
        /\ auth_state_of (session_at st' i)
           = Authenticated (username (session_at st i))).
Proof.
  intros Hi Hname Hbad.
  assert (Hfail : handle_pass_command w st client_fd password
                  = (st, send_response client_fd "530 Not logged in.")).
  { unfold handle_pass_command. rewrite Hi.
    destruct (String.eqb_spec (username (session_at st i)) EmptyString)
      as [E|_]; [contradiction|].
    simpl. now rewrite Hbad. }
  split; [exact Hfail|].
  intros w' password' Hgood. rewrite Hfail. simpl fst.
  unfold handle_pass_command. rewrite Hi.
  destruct (String.eqb_spec (username (session_at st i)) EmptyString)
    as [E|_]; [contradiction|].
  simpl negb. cbv iota. rewrite Hgood.
  destruct (get_session_index_Some _ _ _ Hi) as (s & Hs & Hfd).
  rewrite (session_at_update _ _ _ _ Hs), (session_at_lookup _ _ _ Hs).
  split.
  - simpl. rewrite Z.eqb_refl. reflexivity.
  - reflexivity.
Qed.

(** USER alice, then PASS bad: the server is as it was. *)
Lemma failed_pass_changes_nothing_witness :
  (get_session_index
     (Scenario.server_with Scenario.alice_named Scenario.files0) 5
   = Some 0%nat
   /\ username
        (session_at
           (Scenario.server_with Scenario.alice_named Scenario.files0) 0)
      <> EmptyString
   /\ authenticate_user Scenario.users0 "alice" "bad" = false)
  /\ handle_pass_command Scenario.world_ok
       (Scenario.server_with Scenario.alice_named Scenario.files0) 5 "bad"
     = (Scenario.server_with Scenario.alice_named Scenario.files0,
        send_response 5 "530 Not logged in.").
Proof.
  split; [repeat split; (reflexivity || discriminate)|].
  apply (failed_pass_changes_nothing Scenario.world_ok
           (Scenario.server_with Scenario.alice_named Scenario.files0)
           5 0 "bad");
    solve [reflexivity | discriminate].
Defined.

Lemma find_session_alter f i l fd k :
  (forall s, control_fd (f s) = control_fd s) ->
  find_session (alter f i l) fd k = find_session l fd k.
Proof.
  intros Hf. revert i k. induction l as [|s l IH]; intros i k; [reflexivity|].
  destruct i as [|i].
  - change (alter f 0%nat (s :: l)) with (f s :: l). simpl. now rewrite Hf.
  - change (alter f (S i) (s :: l)) with (s :: alter f i l). simpl.
    now rewrite IH.
Qed.

Lemma get_session_index_update st i f fd :
  (forall s, control_fd (f s) = control_fd s) ->
  get_session_index (update_session i f st) fd = get_session_index st fd.
Proof. intros Hf. unfold get_session_index. simpl. now apply find_session_alter. Qed.

Lemma user_exists_length us name :
  Forall (fun u => (String.length (user_username u) < MAX_USERNAME)%nat) us ->
  user_exists us name = true ->
  (String.length name < MAX_USERNAME)%nat.
Proof.
  intros Hwf Hex. unfold user_exists in Hex.
  apply existsb_exists in Hex as (u & Hin & Heq).
  apply String.eqb_eq in Heq. subst name.
  rewrite Forall_forall in Hwf. apply Hwf. now apply list_elem_of_In.
Qed.

Lemma strncpy_short src n :
  (String.length src < n)%nat -> strncpy src n = src.
Proof.
  intros H. unfold strncpy. apply Nat.ltb_lt in H. now rewrite H.
Qed.

(** C9: USER with a name of the credential store writes the username field
    of the session and nothing else: the authenticated flag, both
    directories, the declared endpoint and the descriptors stay, and so do
    the other sessions and the rest of the server.  The dispatcher serves
    USER before it looks at the authenticated flag, so a logged-in session
    that names another user stays logged in, and PWD then builds its answer
    with the new name. *)
Theorem user_writes_only_the_username
    (w : World) (cmd0 arg0 : string) (st : Server) (client_fd : Z) (i : nat)
    (s : FTPSession) (u : string) :
  Forall (fun usr => (String.length (user_username usr) < MAX_USERNAME)%nat)
         (users st) ->
  get_session_index st client_fd = Some i ->
  client_sessions st !! i = Some s ->
  user_exists (users st) u = true ->
  is_word u = true ->
  let st' := fst (handle_user_command st client_fd u) in
  let s' := session_at st' i in
  handle_user_command st client_fd u
    = (update_session i (set_username u) st,
       send_response client_fd "331 Username OK, need password.")
  /\ Server.handle_command w cmd0 arg0 st client_fd ("USER " +:+ u)
     = handle_user_command st client_fd u
  /\ s' = set_username u s
  /\ (username s' = u /\ authenticated s' = authenticated s
      /\ root_dir s' = root_dir s /\ current_dir s' = current_dir s
      /\ data_ip s' = data_ip s /\ data_port s' = data_port s
      /\ control_fd s' = control_fd s /\ data_fd s' = data_fd s)
  /\ (forall j, j <> i -> client_sessions st' !! j = client_sessions st !! j)
  /\ (users st' = users st /\ files st' = files st
      /\ rnfr_filename st' = rnfr_filename st)
  /\ handle_pwd_command st' client_fd
     = (st', send_response client_fd
               ("257 " +:+ default (current_dir s) (strstr (current_dir s) u)
                +:+ "/")).
Proof.
  intros Hwf Hi Hs Hex Hword st' s'.
  assert (Hu : handle_user_command st client_fd u
               = (update_session i (set_username u) st,
                  send_response client_fd "331 Username OK, need password.")).
  { unfold handle_user_command. rewrite Hi, Hex.
    rewrite strncpy_short by (eapply user_exists_length; eassumption).
    reflexivity. }
  assert (Hs' : s' = set_username u s).
  { subst s' st'. rewrite Hu. simpl fst. now apply session_at_update. }
  assert (Hi' : get_session_index st' client_fd = Some i).
  { subst st'. rewrite Hu. simpl fst.
    rewrite get_session_index_update; [exact Hi | reflexivity]. }
  split; [exact Hu|]. split.
  { unfold Server.handle_command.
    pose proof (sscanf_two_words EmptyString "USER" " " u EmptyString
                  eq_refl eq_refl eq_refl ltac:(discriminate) Hword eq_refl
                  cmd0 arg0) as H.
    rewrite append_empty_r in H.
    change (EmptyString +:+ "USER" +:+ " " +:+ u) with ("USER " +:+ u) in H.
    rewrite H. cbv beta iota. change (2 <? 1) with false. cbv iota.
    rewrite Hi. reflexivity. }
  split; [exact Hs'|]. split.
  { rewrite Hs'. repeat split. }
  split.
  { intros j Hj. subst st'. rewrite Hu. simpl fst.
    apply lookup_update_ne. congruence. }
  split.
  { subst st'. rewrite Hu. repeat split. }
  unfold handle_pwd_command. rewrite Hi'. fold s'. rewrite Hs'. simpl.
  destruct (strstr (current_dir s) u); reflexivity.
Qed.

(** alice, logged in, sends USER bob: still logged in, now named bob. *)
Lemma user_writes_only_the_username_witness :
  let st := Scenario.server_with Scenario.alice Scenario.files0 in
  (Forall (fun usr => (String.length (user_username usr) < MAX_USERNAME)%nat)
          (users st)
   /\ get_session_index st 5 = Some 0%nat
   /\ client_sessions st !! 0%nat = Some Scenario.alice
   /\ user_exists (users st) "bob" = true
   /\ is_word "bob" = true)
  /\ authenticated (session_at (fst (handle_user_command st 5 "bob")) 0)
     = true
  /\ username (session_at (fst (handle_user_command st 5 "bob")) 0)
     = "bob"%string.
Proof.
  intros st.
  assert (Hwf : Forall (fun usr => (String.length (user_username usr)
                                    < MAX_USERNAME)%nat) (users st)).
  { repeat constructor; vm_compute; lia. }
  split; [repeat split; (reflexivity || exact Hwf)|].
  pose proof (user_writes_only_the_username Scenario.world_ok EmptyString
                EmptyString st 5 0 Scenario.alice "bob" Hwf eq_refl eq_refl
                eq_refl eq_refl) as H.
  cbv zeta in H.
  destruct H as (_ & _ & _ & (Hname & Hauth & _) & _).
  split; [exact Hauth | exact Hname].
Defined.

(** ** The declared data endpoint *)

Section Endpoint.

Variables (w : World) (st : Server) (client_fd : Z) (i : nat) (s : FTPSession).
Hypothesis Hi : get_session_index st client_fd = Some i.
Hypothesis Hs : client_sessions st !! i = Some s.
Hypothesis Hport : data_port s <> -1.

Lemma endpoint_declared :
  pending_data_endpoint (session_at st i) = Some (data_ip s, data_port s).
Proof.
  rewrite (session_at_lookup _ _ _ Hs). unfold pending_data_endpoint.
  destruct (data_port s =? -1) eqn:Ep; [|reflexivity].
  apply Z.eqb_eq in Ep. contradiction.
Qed.

Lemma endpoint_cleared_at :
  let st' := update_session i
               (fun s => set_data_ip EmptyString (set_data_port (-1) s)) st in
  get_session_index st' client_fd = Some i
  /\ pending_data_endpoint (session_at st' i) = None.
Proof.
  split.
  - rewrite get_session_index_update by reflexivity. exact Hi.
  - erewrite session_at_update by exact Hs. reflexivity.
Qed.

Ltac refused :=
  split; [reflexivity|]; split; [exact endpoint_declared|];
  cbn [replies app send_response]; rewrite ?Z.eqb_refl; reflexivity.

Ltac first_phase :=
  rewrite Hi, (session_at_lookup _ _ _ Hs);
  destruct (data_port s =? -1) eqn:Ep;
    [apply Z.eqb_eq in Ep; contradiction|];
  unfold transfer_forked; rewrite !leb_ltb0;
  destruct (w_socket w <? 0); [refused|];
  destruct (w_setsockopt w <? 0); [refused|].

Ltac second_phase :=
  destruct (w_connect w <? 0); [refused|];
  destruct (w_fork w <? 0); [refused|].

Lemma list_endpoint :
  transfer_outcome w st client_fd i s true
    (Server.handle_list_command w st client_fd).
Proof.
  unfold transfer_outcome, refusal, Server.handle_list_command.
  first_phase. second_phase.
  unfold transfer_parent; apply endpoint_cleared_at.
Qed.

Lemma retr_endpoint filename :
  transfer_outcome w st client_fd i s
    (bool_decide (is_Some (files st !! (current_dir s +:+ "/" +:+ filename))))
    (Server.handle_retr_command w st client_fd filename).
Proof.
  unfold transfer_outcome, refusal, Server.handle_retr_command. first_phase.
  destruct (bool_decide _);
    [|simpl negb; cbv iota; rewrite !andb_false_r; refused].
  simpl negb. cbv iota. second_phase.
  unfold transfer_parent; apply endpoint_cleared_at.
Qed.

Lemma stor_endpoint filename :
  transfer_outcome w st client_fd i s true
    (Server.handle_stor_command w st client_fd filename).
Proof.
  unfold transfer_outcome, refusal, Server.handle_stor_command.
  first_phase. second_phase.
  unfold stor_child.
  destruct (w_child_fopen w _); unfold transfer_parent; apply endpoint_cleared_at.
Qed.

End Endpoint.

(** Without a declared endpoint LIST, RETR and STOR are answered 425 and
    do nothing else. *)
Lemma no_endpoint_no_transfer w st client_fd i filename :
  get_session_index st client_fd = Some i ->
  pending_data_endpoint (session_at st i) = None ->
  Server.handle_list_command w st client_fd
    = (st, send_response client_fd "425 Can't open data connection.")
  /\ Server.handle_retr_command w st client_fd filename
     = (st, send_response client_fd "425 Can't open data connection.")
  /\ Server.handle_stor_command w st client_fd filename
     = (st, send_response client_fd "425 Can't open data connection.").
Proof.
  intros Hi Hp. unfold pending_data_endpoint in Hp.
  destruct (data_port (session_at st i) =? -1) eqn:E; [|discriminate].
  unfold Server.handle_list_command, Server.handle_retr_command,
    Server.handle_stor_command.
  rewrite Hi, E. repeat split.
Qed.

(** C3, as stated, fails: a RETR that ends in 550 and a LIST whose data
    connection is refused both leave the declared endpoint in place, and the
    next transfer command connects to it. *)
Lemma failed_transfer_keeps_endpoint :
  let st := Scenario.server_with Scenario.alice_port Scenario.files0 in
  pending_data_endpoint (session_at st 0) = Some ("127.0.0.1"%string, 5000)
  /\ (let '(st', out) :=
        Server.handle_retr_command Scenario.world_ok st 5 "missing.txt" in
      replies 5 out = ["550 No such file or directory." +:+ CRLF]
      /\ pending_data_endpoint (session_at st' 0)
         = Some ("127.0.0.1"%string, 5000)
      /\ In (Connect 7 "127.0.0.1" 5000 0)
            (snd (Server.handle_list_command Scenario.world_ok st' 5)))
  /\ (let '(st', out) :=
        Server.handle_list_command Scenario.world_refused st 5 in
      replies 5 out
        = ["150 File status okay; about to open data connection." +:+ CRLF;
           "425 Can't open data connection." +:+ CRLF]
      /\ pending_data_endpoint (session_at st' 0)
         = Some ("127.0.0.1"%string, 5000)).
Proof. vm_compute. repeat split; auto 10. Qed.

(** C3 (as amended): LIST, RETR and STOR forget the declared endpoint once
    the transfer has been forked, that is after socket, setsockopt, connect
    and fork have all succeeded (and, for RETR, the file has opened).  When
    one of these fails the handler replies 425 (socket, setsockopt or
    connect), 550 (RETR, file not opened) or 451 (fork), after 150 when
    connect or fork is the step that fails, and returns with the server
    state as it was, the endpoint still declared.  With no endpoint
    declared the three commands are answered 425 and nothing else is
    done, so no endpoint serves two forked transfers. *)
Theorem endpoint_forgotten_only_after_fork
    (w : World) (st : Server) (client_fd : Z) (i : nat) (s : FTPSession)
    (filename : string) :
  get_session_index st client_fd = Some i ->
  client_sessions st !! i = Some s ->
  data_port s <> -1 ->
  transfer_outcome w st client_fd i s true
    (Server.handle_list_command w st client_fd)
  /\ transfer_outcome w st client_fd i s
       (bool_decide
          (is_Some (files st !! (current_dir s +:+ "/" +:+ filename))))
       (Server.handle_retr_command w st client_fd filename)
  /\ transfer_outcome w st client_fd i s true
       (Server.handle_stor_command w st client_fd filename)
  /\ (forall w' st' name,
        get_session_index st' client_fd = Some i ->
        pending_data_endpoint (session_at st' i) = None ->
        Server.handle_list_command w' st' client_fd
          = (st', send_response client_fd "425 Can't open data connection.")
        /\ Server.handle_retr_command w' st' client_fd name
           = (st', send_response client_fd "425 Can't open data connection.")
        /\ Server.handle_stor_command w' st' client_fd name
           = (st', send_response client_fd
                     "425 Can't open data connection.")).
Proof.
  intros Hi Hs Hport. split; [|split; [|split]].
  - exact (list_endpoint w st client_fd i s Hi Hs Hport).
  - exact (retr_endpoint w st client_fd i s Hi Hs Hport filename).
  - exact (stor_endpoint w st client_fd i s Hi Hs Hport filename).
  - intros w' st' name. apply no_endpoint_no_transfer.
Qed.

(** A LIST that runs forgets the endpoint and the RETR after it is answered
    425; a RETR of a missing file is answered 550, a LIST whose data
    connection is refused 150 and 425, a STOR whose fork fails 150 and
    451, and all three leave the endpoint declared. *)
Lemma endpoint_forgotten_only_after_fork_witness :
  let st := Scenario.server_with Scenario.alice_port Scenario.files0 in
  (get_session_index st 5 = Some 0%nat
   /\ client_sessions st !! 0%nat = Some Scenario.alice_port
   /\ data_port Scenario.alice_port <> -1)
  /\ (let '(st', _) := Server.handle_list_command Scenario.world_ok st 5 in
      pending_data_endpoint (session_at st' 0) = None
      /\ Server.handle_retr_command Scenario.world_ok st' 5 "hello.txt"
         = (st', send_response 5 "425 Can't open data connection."))
  /\ (let '(st', out) :=
        Server.handle_retr_command Scenario.world_ok st 5 "missing.txt" in
      st' = st
      /\ pending_data_endpoint (session_at st' 0)
         = Some ("127.0.0.1"%string, 5000)
      /\ replies 5 out = ["550 No such file or directory." +:+ CRLF])
  /\ (let '(st', out) :=
        Server.handle_list_command Scenario.world_refused st 5 in
      st' = st
      /\ replies 5 out
         = ["150 File status okay; about to open data connection." +:+ CRLF;
            "425 Can't open data connection." +:+ CRLF])
  /\ (let '(st', out) :=
        Server.handle_stor_command
          (Scenario.world_with 0 (-1) true [REof]) st 5 "doc.bin" in
      st' = st
      /\ replies 5 out
         = ["150 File status okay; about to open data connection." +:+ CRLF;
            "451 Requested action aborted: local error in processing."
            +:+ CRLF]).
Proof.
  intros st.
  assert (Hport : data_port Scenario.alice_port <> -1) by discriminate.
  split; [repeat split; (reflexivity || exact Hport)|].
  pose proof (endpoint_forgotten_only_after_fork Scenario.world_ok st 5 0
                Scenario.alice_port "missing.txt" eq_refl eq_refl Hport)
    as (Hlist & Hretr & _ & Hnone).
  pose proof (endpoint_forgotten_only_after_fork Scenario.world_refused st 5
                0 Scenario.alice_port "missing.txt" eq_refl eq_refl Hport)
    as (Hlist2 & _).
  pose proof (endpoint_forgotten_only_after_fork
                (Scenario.world_with 0 (-1) true [REof]) st 5
                0 Scenario.alice_port "doc.bin" eq_refl eq_refl Hport)
    as (_ & _ & Hstor & _).
  split; [|split; [|split]].
  - destruct (Server.handle_list_command Scenario.world_ok st 5)
      as [st' out].
    destruct Hlist as [Hi' Hp]. split; [exact Hp|].
    exact (proj1 (proj2 (Hnone Scenario.world_ok st' "hello.txt" Hi' Hp))).
  - destruct (Server.handle_retr_command Scenario.world_ok st 5 "missing.txt")
      as [st' out].
    exact Hretr.
  - destruct (Server.handle_list_command Scenario.world_refused st 5)
      as [st' out].
    destruct Hlist2 as (H1 & _ & H3). split; [exact H1 | exact H3].
  - destruct (Server.handle_stor_command _ st 5 "doc.bin") as [st' out].
    destruct Hstor as (H1 & _ & H3). split; [exact H1 | exact H3].
Defined.

(** ** The jail *)

(** C1 on code/server.c: CWD takes any directory that opens.  "CWD ../.."
    is answered 200 and moves the session there; "CWD /etc" moves it
    outside the directory the server runs in, and RETR then sends a file
    from there. *)
Theorem cwd_leaves_the_jail :
  let st := Scenario.server_with Scenario.alice Scenario.files0 in
  (let '(st', out) :=
     Server.handle_command Scenario.world_ok EmptyString EmptyString st 5
       "CWD ../.." in
   replies 5 out = ["200 directory changed to alice/../../." +:+ CRLF]
   /\ current_dir (session_at st 0) = "/srv/alice"%string
   /\ current_dir (session_at st' 0) = "/srv/alice/../.."%string)
  /\ (let '(st1, out1) :=
        Server.handle_command Scenario.world_ok EmptyString EmptyString st 5
          "CWD /etc" in
      let '(st2, _) :=
        Server.handle_command Scenario.world_ok EmptyString EmptyString st1 5
          "PORT 127,0,0,1,19,136" in
      let '(_, out3) :=
        Server.handle_command Scenario.world_ok EmptyString EmptyString st2 5
          "RETR passwd" in
      replies 5 out1 = ["200 directory changed to /etc/." +:+ CRLF]
      /\ current_dir (session_at st1 0) = "/etc"%string
      /\ in_jail (root_dir (session_at st1 0)) "/etc" = false
      /\ in_jail "/srv/alice" "/etc" = false
      /\ In (Fopen "/etc/passwd" "rb" true) out3
      /\ In (DataWrite 7 [Byte.x72; Byte.x6f; Byte.x6f; Byte.x74]) out3
      /\ in_jail (root_dir (session_at st1 0)) "/etc/passwd" = false).
Proof. vm_compute. repeat split; auto 20. Qed.

(** The documented version refuses the same CWD, with 550 and the session
    as it was; its RETR still opens whatever the argument names from the
    current directory. *)
Lemma documented_cwd_refuses_documented_retr_does_not :
  let st := Scenario.server_with Scenario.alice_port Scenario.files0 in
  ServerDoc.handle_command Scenario.world_ok EmptyString EmptyString st 5
    "CWD ../.."
  = (st, [Realpath "/srv/alice/../.." (Some "/"%string);
          Realpath "alice" (Some "/srv/alice"%string)]
           ++ send_response 5 "550 Permission denied.")
  /\ In (DataWrite 7 [Byte.x62; Byte.x6f; Byte.x62])
        (snd (ServerDoc.handle_command Scenario.world_ok EmptyString
                EmptyString st 5 "RETR ../bob/diary.txt")).
Proof. split; [reflexivity | vm_compute; auto 20]. Qed.

Lemma prefix_cons c a c' b :
  String.prefix (String c a) (String c' b)
  = Ascii.eqb c c' && String.prefix a b.
Proof.
  simpl. destruct (ascii_dec c c') as [->|Hne].
  - now rewrite Ascii.eqb_refl.
  - now rewrite (proj2 (Ascii.eqb_neq _ _) Hne).
Qed.

Lemma prefix_nil b : String.prefix EmptyString b = true.
Proof. now destruct b. Qed.




(** ** STOR and the worker's result *)

(** The receiving loop cannot tell a broken connection from its end. *)
Lemma stor_receive_error_as_eof reads :
  stor_receive (reads ++ [RError]) = stor_receive (reads ++ [REof]).
Proof.
  induction reads as [|r reads IH]; [reflexivity|].
  destruct r as [[|b bs]| |]; simpl; try reflexivity. now rewrite IH.
Qed.

(** The child that got its temporary file open renames it whatever the
    reads returned. *)
Lemma stor_child_always_renames w st client_fd dfd temp final :
  w_child_fopen w temp = true ->
  In (Rename temp final (w_rename w temp final))
     (snd (stor_child w st client_fd dfd temp final))
  /\ exit_status (snd (stor_child w st client_fd dfd temp final)) = Some 0.
Proof.
  intros Hopen. unfold stor_child. rewrite Hopen. cbn [snd]. split.
  - apply in_or_app. right. apply in_or_app. right. simpl. auto.
  - cbn [app exit_status].
    induction (stor_reads (w_data_in w)) as [|r l IH]; [reflexivity|exact IH].
Qed.

(** X28.  No path through STOR removes a file. *)
Lemma stor_never_unlinks w st client_fd filename :
  forallb (fun e => negb (is_unlink e))
          (snd (Server.handle_stor_command w st client_fd filename)) = true
  /\ forallb (fun e => negb (is_unlink e))
             (snd (ServerDoc.handle_stor_command w st client_fd filename))
     = true.
Proof.
  assert (Hreads : forall dfd l,
             forallb (fun e => negb (is_unlink e)) (map (DataRead dfd) l)
             = true).
  { intros dfd l. induction l as [|r l IH]; [reflexivity | exact IH]. }
  unfold Server.handle_stor_command, ServerDoc.handle_stor_command,
    stor_child, transfer_parent.
  split;
    (destruct (get_session_index st client_fd); [|reflexivity];
     destruct (data_port _ =? -1); [reflexivity|];
     destruct (w_socket w <? 0); [reflexivity|];
     destruct (w_setsockopt w <? 0); [reflexivity|];
     try (destruct (w_bind w <? 0); [reflexivity|]);
     destruct (w_connect w <? 0); [reflexivity|];
     destruct (w_fork w <? 0); [reflexivity|];
     destruct (w_child_fopen w _); [|reflexivity];
     cbn [snd app send_response];
     rewrite ?forallb_app; cbn [forallb is_unlink negb andb];
     rewrite ?forallb_app, Hreads; reflexivity).
Qed.

(** C2 on the code: the peer sends two bytes and the data connection
    breaks.  The child takes the failed read for the end of the file,
    renames the temporary file to the final name and exits with status 0:
    the two bytes are observable under the final name, no file is removed
    and the reply is 226.  Both versions of the server do so. *)
Theorem broken_upload_is_committed :
  let st := Scenario.server_with Scenario.alice_port Scenario.files0 in
  (let '(st', out) :=
     Server.handle_command Scenario.world_broken_upload EmptyString
       EmptyString st 5 "STOR doc.bin" in
   In (DataRead 7 RError) out
   /\ In (Rename "/srv/alice/tmp_1700000000_doc.bin" "/srv/alice/doc.bin" 0)
         out
   /\ forallb (fun e => negb (is_unlink e)) out = true
   /\ files st !! "/srv/alice/doc.bin" = None
   /\ files st' !! "/srv/alice/doc.bin" = Some [Byte.x61; Byte.x62]
   /\ exit_status out = Some 0
   /\ replies 5 out
      = ["150 File status okay; about to open data connection." +:+ CRLF;
         "226 Transfer complete." +:+ CRLF])
  /\ (let '(st', out) :=
        ServerDoc.handle_command Scenario.world_broken_upload EmptyString
          EmptyString st 5 "STOR doc.bin" in
      In (DataRead 7 RError) out
      /\ files st' !! "/srv/alice/doc.bin" = Some [Byte.x61; Byte.x62]
      /\ replies 5 out
         = ["150 File status okay; about to open data connection." +:+ CRLF;
            "226 Transfer complete." +:+ CRLF]).
Proof. vm_compute. repeat split; auto 20. Qed.

Lemma replies_map_other {A} fd (f : A -> event) l tl :
  (forall x, replies fd [f x] = []) ->
  replies fd (map f l ++ tl) = replies fd tl.
Proof.
  intros Hf. induction l as [|x l IH]; [reflexivity|].
  specialize (Hf x). simpl in *. destruct (f x); try exact IH.
  destruct (_ =? _); [discriminate | exact IH].
Qed.

(** X29.  Once the transfer is forked the last reply is 226, whatever the
    child does and however it exits. *)
Lemma forked_transfer_replies_226 w st client_fd i s filename :
  get_session_index st client_fd = Some i ->
  client_sessions st !! i = Some s ->
  data_port s <> -1 ->
  transfer_forked w = true ->
  last (replies client_fd (snd (Server.handle_list_command w st client_fd)))
  = Some ("226 Transfer complete." +:+ CRLF)
  /\ (is_Some (files st !! (current_dir s +:+ "/" +:+ filename)) ->
      last (replies client_fd
              (snd (Server.handle_retr_command w st client_fd filename)))
      = Some ("226 Transfer complete." +:+ CRLF))
  /\ last (replies client_fd
             (snd (Server.handle_stor_command w st client_fd filename)))
     = Some ("226 Transfer complete." +:+ CRLF).
Proof.
  intros Hi Hs Hport Hforked. unfold transfer_forked in Hforked.
  rewrite !leb_ltb0, !andb_true_iff, !negb_true_iff in Hforked.
  destruct Hforked as [[[H1 H2] H3] H4].
  assert (Ep : (data_port s =? -1) = false) by now apply Z.eqb_neq.
  unfold Server.handle_list_command, Server.handle_retr_command,
    Server.handle_stor_command.
  rewrite Hi, (session_at_lookup _ _ _ Hs), Ep, H1, H2, H3, H4.
  unfold transfer_parent, Server.list_child, retr_child, stor_child.
  split; [|split].
  - destruct (w_opendir w _); cbn [snd app send_response replies];
      rewrite <- ?app_assoc, ?replies_map_other by reflexivity;
      cbn [snd app send_response replies];
      rewrite !Z.eqb_refl; reflexivity.
  - intros Hfile. rewrite (bool_decide_eq_true_2 _ Hfile). cbn [negb].
    destruct Hfile as [content ->].
    destruct (w_child_fopen w _); cbn [snd app send_response replies];
      rewrite <- ?app_assoc, ?replies_map_other by reflexivity;
      cbn [snd app send_response replies];
      rewrite !Z.eqb_refl; reflexivity.
  - destruct (w_child_fopen w _); cbn [snd app send_response replies];
      rewrite <- ?app_assoc, ?replies_map_other by reflexivity;
      cbn [snd app send_response replies];
      rewrite !Z.eqb_refl; reflexivity.
Qed.

(** C4 on the code: the child of STOR cannot create its temporary file and
    exits with status 1, the child of RETR cannot reopen its file and exits
    with status 1; the parent waits without asking for the status and the
    final reply is 226 in both cases, with nothing stored and nothing sent.
    The child of LIST that cannot open the directory even exits with
    status 0. *)
Theorem failed_worker_reported_complete :
  let st := Scenario.server_with Scenario.alice_port Scenario.files0 in
  (let '(st', out) :=
     Server.handle_command Scenario.world_no_temp EmptyString EmptyString
       st 5 "STOR doc.bin" in
   In (Fopen "/srv/alice/tmp_1700000000_doc.bin" "wb" false) out
   /\ exit_status out = Some 1
   /\ files st' !! "/srv/alice/doc.bin" = None
   /\ files st' !! "/srv/alice/tmp_1700000000_doc.bin" = None
   /\ replies 5 out
      = ["150 File status okay; about to open data connection." +:+ CRLF;
         "226 Transfer complete." +:+ CRLF])
  /\ (let '(st', out) :=
        Server.handle_command Scenario.world_no_temp EmptyString EmptyString
          st 5 "RETR hello.txt" in
      In (Fopen "/srv/alice/hello.txt" "rb" false) out
      /\ exit_status out = Some 1
      /\ forallb (fun e => match e with DataWrite _ _ => false | _ => true end)
                 out = true
      /\ replies 5 out
         = ["150 File status okay; about to open data connection." +:+ CRLF;
            "226 Transfer complete." +:+ CRLF])
  /\ (let '(st', out) :=
        Server.handle_command Scenario.world_ok EmptyString EmptyString
          (Scenario.server_with Scenario.alice_lost Scenario.files0) 5
          "LIST" in
      In (Opendir "/srv/alice/gone" false) out
      /\ exit_status out = Some 0
      /\ forallb (fun e => match e with DataWrite _ _ => false | _ => true end)
                 out = true
      /\ replies 5 out
         = ["150 File status okay; about to open data connection." +:+ CRLF;
            "226 Transfer complete." +:+ CRLF]).
Proof. vm_compute. repeat split; auto 20. Qed.

(** ** The source port of the data connection *)

Section SourcePort.

Lemma forallb_map_all {A} (P : event -> bool) (f : A -> event) l :
  (forall x, P (f x) = true) -> forallb P (map f l) = true.
Proof.
  intros H. induction l as [|x l IH]; [reflexivity|].
  simpl. now rewrite H, IH.
Qed.

(** A trace without bind and connect has nothing to check. *)
Lemma connects_from_20_quiet bound tr :
  quiet tr = true -> connects_from_20 bound tr = true.
Proof.
  unfold quiet. induction tr as [|e tr IH]; [reflexivity|].
  simpl. intros H. apply andb_true_iff in H as [He Htr].
  destruct e; simpl in He; try discriminate; simpl; auto.
Qed.

Lemma retr_child_quiet w st client_fd dfd filepath :
  quiet (retr_child w st client_fd dfd filepath) = true.
Proof.
  unfold retr_child, quiet.
  destruct (files st !! filepath); [|reflexivity].
  destruct (w_child_fopen w filepath); [|reflexivity].
  cbn [forallb is_bind is_connect orb negb andb].
  rewrite forallb_app, forallb_map_all by reflexivity. reflexivity.
Qed.

Lemma stor_child_quiet w st client_fd dfd temp final :
  quiet (snd (stor_child w st client_fd dfd temp final)) = true.
Proof.
  unfold stor_child, quiet.
  destruct (w_child_fopen w temp); [|reflexivity].
  cbn [snd app forallb is_bind is_connect orb negb andb].
  rewrite forallb_app, forallb_map_all by reflexivity. reflexivity.
Qed.

Lemma doc_list_child_quiet w client_fd dfd dir :
  quiet (ServerDoc.list_child w client_fd dfd dir) = true.
Proof.
  unfold ServerDoc.list_child, quiet.
  cbn [forallb is_bind is_connect orb negb andb].
  rewrite forallb_app. destruct (w_opendir w dir); [|reflexivity].
  cbn [forallb is_bind is_connect orb negb andb].
  rewrite forallb_map_all by reflexivity. reflexivity.
Qed.

Lemma connects_from_20_quiet_app bound tr1 tr2 :
  quiet tr1 = true ->
  connects_from_20 bound (tr1 ++ tr2) = connects_from_20 bound tr2.
Proof.
  unfold quiet. induction tr1 as [|e tr1 IH]; [reflexivity|].
  simpl. intros H. apply andb_true_iff in H as [He Htr].
  destruct e; simpl in He; try discriminate; simpl; auto.
Qed.

(** The shape of every trace of the documented version that reaches
    connect. *)
Lemma connects_after_bind dfd c r mid ip port ret tl :
  (r <? 0) = false -> quiet mid = true -> quiet tl = true ->
  connects_from_20 []
    (Socket dfd :: Setsockopt dfd c :: Bind dfd 20 r
       :: mid ++ Connect dfd ip port ret :: tl) = true.
Proof.
  intros Hr Hmid Htl. cbn [connects_from_20 Z.eqb Pos.eqb].
  rewrite leb_ltb0, Hr. cbn [negb andb].
  rewrite (connects_from_20_quiet_app _ _ _ Hmid).
  cbn [connects_from_20 existsb]. rewrite Z.eqb_refl.
  now rewrite connects_from_20_quiet.
Qed.

(** X27.  The three transfer handlers of the documented version connect
    from port 20, whatever the system answers. *)
Lemma documented_version_connects_from_20 w st client_fd filename :
  connects_from_20 [] (snd (ServerDoc.handle_list_command w st client_fd))
  = true
  /\ connects_from_20 []
       (snd (ServerDoc.handle_retr_command w st client_fd filename)) = true
  /\ connects_from_20 []
       (snd (ServerDoc.handle_stor_command w st client_fd filename)) = true.
Proof.
  unfold ServerDoc.handle_list_command, ServerDoc.handle_retr_command,
    ServerDoc.handle_stor_command.
  repeat split;
    (destruct (get_session_index st client_fd) as [i|]; [|reflexivity];
     destruct (data_port _ =? -1); [reflexivity|];
     destruct (w_socket w <? 0); [reflexivity|];
     destruct (w_setsockopt w <? 0); [reflexivity|];
     destruct (w_bind w <? 0) eqn:Ebind; [reflexivity|];
     try (destruct (bool_decide _); [|reflexivity]);
     cbn [negb];
     destruct (w_connect w <? 0);
       [cbn [snd app send_response];
        first [apply (connects_after_bind _ _ _ [_])
              | apply (connects_after_bind _ _ _ [_; _])];
        solve [assumption | reflexivity]|];
     destruct (w_fork w <? 0);
       [cbn [snd app send_response];
        first [apply (connects_after_bind _ _ _ [_])
              | apply (connects_after_bind _ _ _ [_; _])];
        solve [assumption | reflexivity]|]).
  - pose proof (doc_list_child_quiet w client_fd (w_socket w)
                  (current_dir (session_at st i))) as Hq.
    unfold transfer_parent. cbn [snd app send_response].
    apply (connects_after_bind _ _ _ [_]); [assumption | reflexivity|].
    unfold quiet in *. cbn [forallb is_bind is_connect orb negb andb].
    rewrite forallb_app, Hq. reflexivity.
  - pose proof (retr_child_quiet w st client_fd (w_socket w)
                  (current_dir (session_at st i) +:+ "/" +:+ filename)) as Hq.
    unfold transfer_parent. cbn [snd app send_response].
    apply (connects_after_bind _ _ _ [_; _]); [assumption | reflexivity|].
    unfold quiet in *. cbn [forallb is_bind is_connect orb negb andb].
    rewrite forallb_app, Hq. reflexivity.
  - pose proof (stor_child_quiet w st client_fd (w_socket w)
                  (current_dir (session_at st i) +:+ "/tmp_"
                   +:+ fmt_d (w_time w) +:+ "_" +:+ filename)
                  (current_dir (session_at st i) +:+ "/" +:+ filename)) as Hq.
    destruct (stor_child _ _ _ _ _ _) as [st1 child].
    unfold transfer_parent. cbn [snd app send_response] in Hq |- *.
    apply (connects_after_bind _ _ _ [_]); [assumption | reflexivity|].
    unfold quiet in *. cbn [forallb is_bind is_connect orb negb andb].
    rewrite forallb_app, Hq. reflexivity.
Qed.

(** code/server.c never binds its data socket. *)
Lemma server_never_binds w st client_fd filename :
  forallb (fun e => negb (is_bind e))
          (snd (Server.handle_list_command w st client_fd)) = true
  /\ forallb (fun e => negb (is_bind e))
             (snd (Server.handle_retr_command w st client_fd filename)) = true
  /\ forallb (fun e => negb (is_bind e))
             (snd (Server.handle_stor_command w st client_fd filename)) = true.
Proof.
  unfold Server.handle_list_command, Server.handle_retr_command,
    Server.handle_stor_command, transfer_parent, stor_child, retr_child,
    Server.list_child.
  repeat split;
    (destruct (get_session_index st client_fd) as [i|]; [|reflexivity];
     destruct (data_port _ =? -1); [reflexivity|];
     destruct (w_socket w <? 0); [reflexivity|];
     destruct (w_setsockopt w <? 0); [reflexivity|];
     try (destruct (bool_decide _); [|reflexivity]);
     cbn [negb];
     destruct (w_connect w <? 0); [reflexivity|];
     destruct (w_fork w <? 0); [reflexivity|]).
  - destruct (w_opendir w _); cbn [snd app send_response forallb is_bind negb andb];
      rewrite ?forallb_app, ?forallb_map_all by reflexivity; reflexivity.
  - destruct (files st !! _); [destruct (w_child_fopen w _)|];
      cbn [snd app send_response forallb is_bind negb andb];
      rewrite ?forallb_app, ?forallb_map_all by reflexivity; reflexivity.
  - destruct (w_child_fopen w _);
      cbn [snd app send_response forallb is_bind negb andb];
      rewrite ?forallb_app, ?forallb_map_all by reflexivity; reflexivity.
Qed.

End SourcePort.

(** C8 on code/server.c: with an endpoint declared and every call
    succeeding, LIST, RETR and STOR connect a socket that was never bound,
    so the connection leaves from a port the system picks.  The documented
    version binds the socket to port 20 first. *)
Theorem data_socket_is_not_bound :
  let st := Scenario.server_with Scenario.alice_port Scenario.files0 in
  let run := fun command =>
    snd (Server.handle_command Scenario.world_ok EmptyString EmptyString
           st 5 command) in
  let run_doc := fun command =>
    snd (ServerDoc.handle_command Scenario.world_ok EmptyString EmptyString
           st 5 command) in
  Forall (fun command =>
            In (Connect 7 "127.0.0.1" 5000 0) (run command)
            /\ forallb (fun e => negb (is_bind e)) (run command) = true
            /\ connects_from_20 [] (run command) = false
            /\ In (Bind 7 20 0) (run_doc command)
            /\ connects_from_20 [] (run_doc command) = true)
         ["LIST"%string; "RETR hello.txt"%string; "STOR doc.bin"%string].
Proof.
  intros st run run_doc.
  repeat (apply List.Forall_cons; [vm_compute; repeat split; auto 20|]).
  apply List.Forall_nil.
Qed.


(** ** A connection without session *)

Section NoSession.

Variable c : Z.
Hypothesis Hc : 0 <= c.

Lemma unknown_update i f st :
  (forall s, control_fd s <> c /\ data_fd s <> c ->
             control_fd (f s) <> c /\ data_fd (f s) <> c) ->
  unknown_fd c st -> unknown_fd c (update_session i f st).
Proof.
  intros Hf H. unfold unknown_fd, update_session in *. simpl.
  apply Forall_alter; [exact H|]. intros s _. apply Hf.
Qed.

Lemma unknown_no_session st :
  unknown_fd c st -> get_session_index st c = None.
Proof.
  intros H. apply find_session_None.
  eapply Forall_impl; [exact H|]. now intros s [? _].
Qed.

Lemma spares_replies r :
  spares c r -> replies c (snd r) = [] /\ ~ In (Close c) (snd r).
Proof.
  intros [_ H]. induction (snd r) as [|e tr IH]; [split; [reflexivity | intros []]|].
  simpl in H. apply andb_true_iff in H as [He Htr].
  destruct (IH Htr) as [IH1 IH2]. split.
  - destruct e; simpl in *; try exact IH1.
    apply negb_true_iff in He. now rewrite He.
  - intros [->|Hin]; [|contradiction].
    simpl in He. now rewrite Z.eqb_refl in He.
Qed.

Variables (w : World) (st : Server) (fd : Z).
Hypothesis Hfd : (fd =? c) = false.
Hypothesis Hsock : (w_socket w =? c) = false.
Hypothesis Hst : unknown_fd c st.

Ltac keep :=
  first
    [ exact Hst
    | apply unknown_update; [intros ? [? ?]; split; simpl; (assumption || lia) | exact Hst] ].

Ltac quiet_out :=
  cbn [snd app send_response forallb touches negb andb];
  rewrite ?forallb_app;
  cbn [snd app send_response forallb touches negb andb];
  rewrite ?Hfd, ?Hsock, ?forallb_map_all by reflexivity;
  cbn [negb andb]; reflexivity.

Ltac spare := split; [cbn [fst]; keep | quiet_out].

Lemma clean_up_session_spares i : spares c (clean_up_session i st).
Proof.
  unfold clean_up_session. split; [cbn [fst]; keep|].
  cbn [snd]. destruct (data_fd (session_at st i) =? -1) eqn:E; [reflexivity|].
  unfold session_at in *.
  destruct (client_sessions st !! i) as [s|] eqn:Es; simpl in *.
  - unfold unknown_fd in Hst. rewrite Forall_lookup in Hst.
    destruct (Hst _ _ Es) as [_ Hd].
    apply Z.eqb_neq in Hd. now rewrite Hd.
  - discriminate.
Qed.

Lemma handle_user_command_spares name :
  spares c (handle_user_command st fd name).
Proof.
  unfold handle_user_command.
  destruct (get_session_index st fd); [destruct (user_exists _ _)|]; spare.
Qed.

Lemma handle_pass_command_spares password :
  spares c (handle_pass_command w st fd password).
Proof.
  unfold handle_pass_command.
  destruct (get_session_index st fd); [|spare].
  destruct (negb _); [|spare].
  destruct (authenticate_user _ _ _); spare.
Qed.

Lemma handle_port_command_spares port_args :
  spares c (handle_port_command st fd port_args).
Proof.
  unfold handle_port_command.
  destruct (get_session_index st fd); [|spare].
  destruct (sscanf_6d port_args) as [|? [|? [|? [|? [|? [|? [|? ?]]]]]]];
    spare.
Qed.

Lemma handle_pwd_command_spares : spares c (handle_pwd_command st fd).
Proof.
  unfold handle_pwd_command.
  destruct (get_session_index st fd); [|spare].
  destruct (strstr _ _); spare.
Qed.

Ltac first_checks :=
  destruct (get_session_index st fd); [|spare];
  destruct (data_port _ =? -1); [spare|];
  destruct (w_socket w <? 0); [spare|];
  destruct (w_setsockopt w <? 0); [spare|].

Lemma handle_list_command_spares :
  spares c (Server.handle_list_command w st fd).
Proof.
  unfold Server.handle_list_command, transfer_parent, Server.list_child.
  first_checks.
  destruct (w_connect w <? 0); [spare|].
  destruct (w_fork w <? 0); [spare|].
  destruct (w_opendir w _); spare.
Qed.

Lemma handle_retr_command_spares filename :
  spares c (Server.handle_retr_command w st fd filename).
Proof.
  unfold Server.handle_retr_command, transfer_parent, retr_child.
  first_checks.
  destruct (bool_decide _); cbn [negb]; [|spare].
  destruct (w_connect w <? 0); [spare|].
  destruct (w_fork w <? 0); [spare|].
  destruct (files st !! _); [destruct (w_child_fopen w _)|]; spare.
Qed.

Lemma handle_stor_command_spares filename :
  spares c (Server.handle_stor_command w st fd filename).
Proof.
  unfold Server.handle_stor_command, transfer_parent, stor_child.
  first_checks.
  destruct (w_connect w <? 0); [spare|].
  destruct (w_fork w <? 0); [spare|].
  destruct (w_child_fopen w _); spare.
Qed.

Lemma handle_cwd_command_spares dir :
  spares c (Server.handle_cwd_command w st fd dir).
Proof.
  unfold Server.handle_cwd_command.
  destruct (get_session_index st fd); [|spare].
  destruct (w_opendir w _); spare.
Qed.

Lemma handle_mkd_command_spares dirname :
  spares c (Server.handle_mkd_command w st fd dirname).
Proof.
  unfold Server.handle_mkd_command.
  destruct (get_session_index st fd); [|spare].
  destruct (w_opendir w _); [spare|].
  destruct (w_mkdir w _ =? 0); spare.
Qed.

Lemma handle_rmd_command_spares dirname :
  spares c (Server.handle_rmd_command w st fd dirname).
Proof.
  unfold Server.handle_rmd_command.
  destruct (get_session_index st fd); [|spare].
  destruct (negb (w_opendir w _)); [spare|].
  destruct (w_rmdir w _ =? 0); spare.
Qed.

Lemma handle_dele_command_spares filename :
  spares c (Server.handle_dele_command w st fd filename).
Proof.
  unfold Server.handle_dele_command.
  destruct (get_session_index st fd); [|spare].
  destruct (files st !! _); [|spare].
  destruct (w_unlink w _ =? 0); spare.
Qed.

Lemma handle_rnfr_command_spares oldname :
  spares c (Server.handle_rnfr_command w st fd oldname).
Proof.
  unfold Server.handle_rnfr_command.
  destruct (get_session_index st fd); [|spare].
  destruct (w_stat w _ =? -1); spare.
Qed.

Lemma handle_rnto_command_spares newname :
  spares c (Server.handle_rnto_command w st fd newname).
Proof.
  unfold Server.handle_rnto_command.
  destruct (get_session_index st fd); [|spare].
  destruct (default _ _); [spare|].
  destruct (w_rename w _ _ =? 0); spare.
Qed.

Lemma handle_quit_command_spares :
  spares c (Server.handle_quit_command st fd).
Proof.
  unfold Server.handle_quit_command.
  destruct (get_session_index st fd) as [i|]; [|spare].
  destruct (clean_up_session_spares i) as [H1 H2].
  destruct (clean_up_session i st) as [st' closed]. split; [exact H1|].
  cbn [fst snd] in *. cbn [snd app send_response forallb touches negb andb].
  rewrite forallb_app, H2, Hfd. cbn [forallb touches negb andb].
  now rewrite Hfd.
Qed.

(** Serving a line of another connection leaves [c] alone. *)
Lemma handle_command_spares cmd0 arg0 command :
  spares c (Server.handle_command w cmd0 arg0 st fd command).
Proof.
  unfold Server.handle_command.
  destruct (sscanf_s_s command cmd0 arg0) as [[n cmd] arg].
  destruct (n <? 1); [spare|].
  destruct (get_session_index st fd) eqn:Ei; [|spare].
  repeat match goal with
         | |- spares c (if ?b then _ else _) => destruct b
         end;
    first [ apply handle_user_command_spares
          | apply handle_pass_command_spares
          | apply handle_quit_command_spares
          | apply handle_port_command_spares
          | apply handle_list_command_spares
          | apply handle_cwd_command_spares
          | apply handle_pwd_command_spares
          | apply handle_retr_command_spares
          | apply handle_stor_command_spares
          | apply handle_mkd_command_spares
          | apply handle_rmd_command_spares
          | apply handle_dele_command_spares
          | apply handle_rnfr_command_spares
          | apply handle_rnto_command_spares
          | spare ].
Qed.

End NoSession.

(** A line on a connection without session is answered 500 and changes
    nothing. *)
Lemma handle_command_no_session w cmd0 arg0 st c command :
  get_session_index st c = None ->
  Server.handle_command w cmd0 arg0 st c command
  = (st, [Write c (reply_without_session command)]).
Proof.
  intros Hnone. unfold Server.handle_command, reply_without_session, sscanf_s_s.
  destruct (scan_s command) as [[cmd rest]|]; [|reflexivity].
  destruct (scan_s (skip_space rest)) as [[arg ?]|];
    cbv beta iota; rewrite Hnone; reflexivity.
Qed.



(** ** The loop of main and the full session table *)

Section FullPool.

Variable c : Z.
Hypothesis Hc : 0 <= c.

Lemma replies_app fd tr1 tr2 :
  replies fd (tr1 ++ tr2) = replies fd tr1 ++ replies fd tr2.
Proof.
  induction tr1 as [|e tr1 IH]; [reflexivity|].
  destruct e; simpl; try exact IH.
  destruct (_ =? _); simpl; now rewrite IH.
Qed.

(** With every slot taken, accept greets the newcomer and allocates
    nothing. *)
Lemma accept_connection_full w m :
  Forall (fun s => control_fd s <> -1) (client_sessions (Server.srv m)) ->
  Server.accept_connection w m c
  = (Server.mkMain (Server.srv m) (Server.server_fd m)
       ({[c]} ∪ Server.master_fds m)
       (if Server.max_fd m <? c then c else Server.max_fd m)
       (Server.closed_fds m ∖ {[c]}),
     send_response c "220 Service ready for new user.").
Proof.
  intros Hfull. unfold Server.accept_connection.
  now rewrite (proj2 (find_session_None _ _ _) Hfull).
Qed.

Lemma kept_spares m st' out mfds cfds :
  standing c m -> spares c (st', out) -> c ∈ mfds ->
  kept c (Server.mkMain st' (Server.server_fd m) mfds (Server.max_fd m) cfds,
        out) [].
Proof.
  intros (_ & _ & Hsrv) Hsp Hm.
  destruct (spares_replies _ _ Hsp) as [Hr Hcl].
  repeat split; try assumption. apply Hsp.
Qed.

Lemma accept_other_kept w m fd :
  standing c m -> fd <> c ->
  kept c (Server.accept_connection w m fd) [].
Proof.
  intros (Hun & Hin & Hsrv) Hfd. unfold Server.accept_connection.
  split; [split; [|split]|split]; cbn [fst snd Server.srv Server.master_fds
                                         Server.server_fd map].
  - destruct (find_session _ _ _); [|exact Hun].
    apply unknown_update; [|exact Hun].
    intros s [? ?]. destruct (w_getcwd _); simpl; split; (assumption || lia).
  - clear -Hin. set_solver.
  - exact Hsrv.
  - simpl. apply Z.eqb_neq in Hfd. now rewrite Hfd.
  - simpl. intros [H|[]]. discriminate.
Qed.

Lemma client_data_kept m t :
  standing c m -> Server.tick_keeps_open c t ->
  kept c (if Server.t_fd t =? Server.server_fd m then (m, [])
        else Server.client_data (Server.t_world t) (Server.t_cmd0 t)
               (Server.t_arg0 t) m (Server.t_fd t) (Server.t_read t))
       (Server.lines_of c [t]).
Proof.
  intros Hm [Hsock Hread]. pose proof Hm as (Hun & Hin & Hsrv).
  apply Z.eqb_neq in Hsock. unfold Server.lines_of.
  destruct (Z.eqb_spec (Server.t_fd t) (Server.server_fd m)) as [E|Hne].
  { assert (E' : (Server.t_fd t =? c) = false)
      by (apply Z.eqb_neq; congruence).
    rewrite E'.
    destruct (Server.t_read t) as [[|b bs]| |];
      (split; [exact Hm | split; [reflexivity | intros []]]). }
  destruct (Z.eqb_spec (Server.t_fd t) c) as [E|Hfd].
  - (* a line on the connection itself *)
    destruct (Hread E) as (b & bs & ->). rewrite E.
    unfold Server.client_data.
    rewrite (handle_command_no_session _ _ _ _ _ _
               (unknown_no_session _ _ Hun)).
    split; [split; [|split]|split];
      cbn [fst snd Server.srv Server.master_fds Server.server_fd map replies];
      try assumption.
    + now rewrite Z.eqb_refl.
    + intros [H|[]]. discriminate.
  - (* input of another connection *)
    apply Z.eqb_neq in Hfd. unfold Server.client_data.
    assert (Hclosed : forall st' closed,
               spares c (st', closed) ->
               kept c (Server.mkMain st' (Server.server_fd m)
                       (Server.master_fds m ∖ {[Server.t_fd t]})
                       (Server.max_fd m)
                       (Server.closed_fds m ∖ {[Server.t_fd t]}),
                     closed ++ [Close (Server.t_fd t)]) []).
    { intros st' closed [H1 H2]. apply kept_spares; [exact Hm| |].
      - split; [exact H1|]. cbn [snd] in *.
        rewrite forallb_app, H2. simpl. now rewrite Hfd.
      - apply Z.eqb_neq in Hfd. clear -Hin Hfd. set_solver. }
    assert (Hcleanup :
              spares c
                match get_session_index (Server.srv m) (Server.t_fd t) with
                | Some session_index =>
                    clean_up_session session_index (Server.srv m)
                | None => (Server.srv m, [])
                end).
    { destruct (get_session_index _ _);
        [now apply clean_up_session_spares | now split]. }
    destruct (Server.t_read t) as [[|b bs]| |].
    + destruct (match get_session_index _ _ with Some _ => _ | None => _ end)
        as [st' closed]. now apply Hclosed.
    + pose proof (handle_command_spares c Hc (Server.t_world t)
                    (Server.srv m) (Server.t_fd t) Hfd Hsock Hun
                    (Server.t_cmd0 t) (Server.t_arg0 t)
                    (Server.c_line (string_of_list_byte (b :: bs)))) as Hsp.
      destruct (Server.handle_command _ _ _ _ _ _) as [st' out].
      now apply kept_spares.
    + destruct (match get_session_index _ _ with Some _ => _ | None => _ end)
        as [st' closed]. now apply Hclosed.
    + destruct (match get_session_index _ _ with Some _ => _ | None => _ end)
        as [st' closed]. now apply Hclosed.
Qed.

Lemma lines_of_cons t ready :
  Server.lines_of c (t :: ready)
  = Server.lines_of c [t] ++ Server.lines_of c ready.
Proof.
  simpl. destruct (Server.t_read t) as [[|b bs]| |]; try reflexivity.
  destruct (_ =? c); reflexivity.
Qed.

Lemma kept_app m1 out1 lines1 r2 lines2 :
  kept c (m1, out1) lines1 -> kept c r2 lines2 ->
  kept c (fst r2, out1 ++ snd r2) (lines1 ++ lines2).
Proof.
  unfold kept. cbn [fst snd].
  intros (_ & Hr1 & Hc1) (Hm2 & Hr2 & Hc2). split; [exact Hm2|]. split.
  - now rewrite replies_app, Hr1, Hr2, map_app.
  - intros Hin. apply in_app_or in Hin as [?|?]; contradiction.
Qed.

Lemma serve_kept ready : forall m,
  standing c m -> Forall (Server.tick_keeps_open c) ready ->
  kept c (Server.serve m ready) (Server.lines_of c ready).
Proof.
  induction ready as [|t ready IH]; intros m Hm Hready.
  - split; [exact Hm | split; [reflexivity | intros []]].
  - apply Forall_cons in Hready as [Ht Hready].
    pose proof (client_data_kept m t Hm Ht) as H1.
    cbn [Server.serve]. destruct (if _ =? _ then _ else _) as [m1 evs1].
    pose proof (IH m1 (proj1 H1) Hready) as H2.
    destruct (Server.serve m1 ready) as [m2 evs2].
    rewrite lines_of_cons. exact (kept_app _ _ _ _ _ H1 H2).
Qed.

Lemma iteration_kept m it r :
  standing c m -> Server.keeps_open c it ->
  Server.iteration m it = Some r ->
  kept c r (Server.lines_of c (Server.served it)).
Proof.
  intros Hm [Hacc Hready]. unfold Server.iteration, Server.served.
  destruct (negb _); [discriminate|].
  destruct (Server.it_select it); [|intros [= <-]|discriminate].
  - destruct (Server.it_accept it) as [fd|].
    + destruct (fd <? 0).
      * intros [= <-]. split; [exact Hm | split; [reflexivity | intros []]].
      * assert (Hfd : fd <> c) by congruence.
        pose proof (accept_other_kept (Server.it_world it) m fd Hm Hfd) as H1.
        destruct (Server.accept_connection _ _ _) as [m1 evs1].
        pose proof (serve_kept (Server.it_ready it) m1 (proj1 H1) Hready)
          as H2.
        destruct (Server.serve m1 _) as [m2 evs2]. intros [= <-].
        exact (kept_app _ _ _ _ _ H1 H2).
    + intros [= <-]. now apply serve_kept.
  - split; [exact Hm | split; [reflexivity | intros []]].
Qed.

Lemma lines_on_cons it its :
  Server.lines_on c (it :: its)
  = Server.lines_of c (Server.served it) ++ Server.lines_on c its.
Proof. reflexivity. Qed.

Lemma run_kept its : forall m,
  standing c m -> Forall (Server.keeps_open c) its ->
  kept c (fst (Server.run m its))
       (Server.lines_on c (take (snd (Server.run m its)) its)).
Proof.
  induction its as [|it its IH]; intros m Hm Hits.
  - split; [exact Hm | split; [reflexivity | intros []]].
  - apply Forall_cons in Hits as [Hit Hits]. cbn [Server.run].
    destruct (Server.iteration m it) as [[m1 evs1]|] eqn:E.
    + pose proof (iteration_kept m it _ Hm Hit E) as H1.
      pose proof (IH m1 (proj1 H1) Hits) as H2.
      destruct (Server.run m1 its) as [[m2 evs2] n]. cbn [fst snd] in *.
      cbn [take]. rewrite lines_on_cons.
      exact (kept_app _ _ _ _ _ H1 H2).
    + split; [exact Hm | split; [reflexivity | intros []]].
Qed.

End FullPool.

(** C10: a connection accepted while every slot is taken is greeted with
    220 and gets no session.  From then on, for as long as the process runs
    and whatever the other connections do (commands, disconnections that
    free slots, new connections), every line that arrives on it is answered
    with reply 500, "Internal server error" when the line has a verb; it
    never gets a session, and the server does not close it nor drop it from
    the descriptors it watches. *)
Theorem full_pool_connection_is_answered_500
    (m : Server.Main) (c : Z) (w : World) (its : list Server.Iteration) :
  0 <= c ->
  c <> Server.server_fd m ->
  Forall (fun s => control_fd s <> -1) (client_sessions (Server.srv m)) ->
  unknown_fd c (Server.srv m) ->
  Forall (Server.keeps_open c) its ->
  let '(m1, out1) := Server.accept_connection w m c in
  let '(m2, out2, n) := Server.run m1 its in
  out1 = send_response c "220 Service ready for new user."
  /\ Server.srv m1 = Server.srv m
  /\ replies c out2
     = map reply_without_session (Server.lines_on c (take n its))
  /\ (forall line, scan_s line <> None ->
        reply_without_session line = "500 Internal server error." +:+ CRLF)
  /\ Forall (fun r => String.prefix "500 " r = true) (replies c out2)
  /\ ~ In (Close c) out2
  /\ c ∈ Server.master_fds m2
  /\ unknown_fd c (Server.srv m2).
Proof.
  intros Hc Hsrv Hfull Hun Hits.
  rewrite (accept_connection_full c w m Hfull).
  assert (Hm1 : standing c
                  (Server.mkMain (Server.srv m) (Server.server_fd m)
                     ({[c]} ∪ Server.master_fds m)
                     (if Server.max_fd m <? c then c else Server.max_fd m)
                     (Server.closed_fds m ∖ {[c]}))).
  { repeat split; [exact Hun | set_solver | exact Hsrv]. }
  destruct (run_kept c Hc its _ Hm1 Hits) as ((Hun2 & Hin2 & _) & Hr & Hcl).
  destruct (Server.run _ its) as [[m2 out2] n]. cbn [fst snd] in *.
  repeat split; try assumption.
  - intros line Hverb. unfold reply_without_session.
    destruct (scan_s line); [reflexivity | contradiction].
  - rewrite Hr. apply Forall_forall. intros r Hin.
    apply list_elem_of_In, in_map_iff in Hin as (line & <- & _).
    unfold reply_without_session. destruct (scan_s line); reflexivity.
Qed.

(** The eleventh client of a full server, over three turns of the loop in
    which another client disconnects and frees its slot. *)
Lemma full_pool_connection_is_answered_500_witness :
  (0 <= 14
   /\ 14 <> Server.server_fd Scenario.main_full
   /\ Forall (fun s => control_fd s <> -1)
             (client_sessions (Server.srv Scenario.main_full))
   /\ unknown_fd 14 (Server.srv Scenario.main_full)
   /\ Forall (Server.keeps_open 14) Scenario.turns0)
  /\ let '(m2, out2, n) :=
       Server.run
         (fst (Server.accept_connection Scenario.world_ok Scenario.main_full
                 14))
         Scenario.turns0 in
     n = 3%nat
     /\ replies 14 out2
        = ["500 Internal server error." +:+ CRLF;
           "500 Syntax error, command unrecognized." +:+ CRLF;
           "500 Internal server error." +:+ CRLF]
     /\ get_session_index (Server.srv m2) 14 = None
     /\ find_session (client_sessions (Server.srv m2)) (-1) 0 = Some 2%nat.
Proof.
  assert (H0 : 0 <= 14) by lia.
  assert (H1 : 14 <> Server.server_fd Scenario.main_full) by discriminate.
  assert (H2 : Forall (fun s => control_fd s <> -1)
                      (client_sessions (Server.srv Scenario.main_full))).
  { repeat (apply List.Forall_cons; [discriminate|]). apply List.Forall_nil. }
  assert (H3 : unknown_fd 14 (Server.srv Scenario.main_full)).
  { repeat (apply List.Forall_cons; [split; discriminate|]).
    apply List.Forall_nil. }
  assert (H4 : Forall (Server.keeps_open 14) Scenario.turns0).
  { repeat (apply List.Forall_cons;
            [split; [discriminate|];
             repeat (apply List.Forall_cons;
                     [split; [discriminate|];
                      simpl; intros H;
                      first [discriminate H
                            | eexists; eexists; reflexivity]|]);
             apply List.Forall_nil|]).
    apply List.Forall_nil. }
  split; [repeat split; assumption|].
  pose proof (full_pool_connection_is_answered_500 Scenario.main_full 14
                Scenario.world_ok Scenario.turns0 H0 H1 H2 H3 H4) as H.
  destruct (Server.accept_connection _ _ _) as [m1 out1] eqn:E1. cbn [fst].
  destruct (Server.run m1 _) as [[m2 out2] n] eqn:E2.
  destruct H as (_ & _ & Hr & _ & _ & _ & _ & Hun).
  assert (Hn : n = 3%nat /\ find_session (client_sessions (Server.srv m2))
                              (-1) 0 = Some 2%nat).
  { vm_compute in E1. injection E1 as <- <-. vm_compute in E2.
    injection E2 as <- <- <-. split; reflexivity. }
  destruct Hn as [Hn Hfree]. subst n.
  split; [reflexivity|]. split; [exact Hr|].
  split; [now apply unknown_no_session | exact Hfree].
Defined.

(** In code/server.c the process does not outlive a QUIT of a client that
    has a session: the handler closes the control socket and leaves it in
    the set select waits on, the next select fails and main exits.  The
    line the newcomer sends after that is never served. *)
Example session_quit_ends_the_process :
  let '(_, out, n) :=
    Server.run
      (fst (Server.accept_connection Scenario.world_ok Scenario.main_full 14))
      Scenario.turns_quit in
  n = 1%nat
  /\ out = send_response 5 "221 Service closing control connection."
           ++ [Close 5].
Proof. vm_compute. split; reflexivity. Qed.

(** ** Tokens, lines and the credential store *)

Section Tokens.

Lemma every_app P a b : every P (a +:+ b) = every P a && every P b.
Proof.
  induction a as [|c a IH]; [reflexivity|].
  simpl. rewrite IH. now rewrite andb_assoc.
Qed.

Lemma every_impl (P Q : ascii -> bool) s :
  (forall c, P c = true -> Q c = true) -> every P s = true -> every Q s = true.
Proof.
  intros HPQ. induction s as [|c s IH]; [reflexivity|].
  simpl. intros H. apply andb_true_iff in H as [Hc Hs].
  now rewrite (HPQ _ Hc), IH.
Qed.

Lemma no_space_every s : no_space s = every (fun c => negb (isspace c)) s.
Proof. induction s as [|c s IH]; [reflexivity|]. simpl. now rewrite IH. Qed.

Lemma no_space_app a b : no_space (a +:+ b) = no_space a && no_space b.
Proof. now rewrite !no_space_every, every_app. Qed.

Lemma length_append a b :
  String.length (a +:+ b) = (String.length a + String.length b)%nat.
Proof. induction a as [|c a IH]; [reflexivity|]. simpl. now rewrite IH. Qed.

Lemma append_assoc a b c : (a +:+ b) +:+ c = a +:+ b +:+ c.
Proof. induction a as [|x a IH]; [reflexivity|]. simpl. now rewrite IH. Qed.

Lemma skip_delims_word d w s :
  w <> EmptyString -> free_of d w = true ->
  skip_delims d (w +:+ s) = w +:+ s.
Proof.
  destruct w as [|c w]; [congruence|]. intros _ H.
  simpl in *. apply andb_true_iff in H as [Hc _].
  apply negb_true_iff in Hc. now rewrite Hc.
Qed.

Lemma scan_token_word d w c s :
  free_of d w = true -> is_delim d c = true ->
  scan_token d (w +:+ String c s) = (w, s).
Proof.
  intros Hw Hc. induction w as [|x w IH]; simpl.
  - now rewrite Hc.
  - simpl in Hw. apply andb_true_iff in Hw as [Hx Hw].
    apply negb_true_iff in Hx. rewrite Hx, (IH Hw). reflexivity.
Qed.

Lemma scan_token_end d w :
  free_of d w = true -> scan_token d w = (w, EmptyString).
Proof.
  intros Hw. induction w as [|x w IH]; [reflexivity|].
  simpl in *. apply andb_true_iff in Hw as [Hx Hw].
  apply negb_true_iff in Hx. rewrite Hx, (IH Hw). reflexivity.
Qed.

Lemma strtok_word d w c s :
  w <> EmptyString -> free_of d w = true -> is_delim d c = true ->
  strtok d (w +:+ String c s) = Some (w, s).
Proof.
  intros Hne Hw Hc. unfold strtok. rewrite (skip_delims_word _ _ _ Hne Hw).
  destruct w as [|x w]; [congruence|].
  change (String x w +:+ String c s) with (String x (w +:+ String c s)).
  cbv iota. change (String x (w +:+ String c s)) with (String x w +:+ String c s).
  now rewrite scan_token_word.
Qed.

Lemma strtok_last d w :
  w <> EmptyString -> free_of d w = true ->
  strtok d w = Some (w, EmptyString).
Proof.
  intros Hne Hw. unfold strtok.
  pose proof (skip_delims_word d w EmptyString Hne Hw) as H.
  rewrite append_empty_r in H. rewrite H.
  destruct w as [|x w]; [congruence|]. now rewrite scan_token_end.
Qed.

Lemma fgets_line n line rest :
  free_of NL line = true -> (String.length line < n)%nat ->
  fgets n (line +:+ String LF rest) = (line +:+ NL, rest).
Proof.
  revert n. induction line as [|c line IH]; intros n Hfree Hlen.
  - destruct n; [simpl in Hlen; lia|]. reflexivity.
  - destruct n; [simpl in Hlen; lia|].
    simpl in Hfree. apply andb_true_iff in Hfree as [Hc Hfree].
    simpl in Hlen.
    change (fgets (S n) (String c line +:+ String LF rest))
      with (if Ascii.eqb c LF then (String c EmptyString, line +:+ String LF rest)
            else let '(l, more) := fgets n (line +:+ String LF rest) in
                 (String c l, more)).
    apply negb_true_iff in Hc. unfold NL in Hc. cbn [is_delim] in Hc.
    rewrite orb_false_r in Hc. rewrite Hc.
    rewrite IH by (assumption || lia). reflexivity.
Qed.

End Tokens.

Section Store.

Lemma csv_field_spec n s :
  csv_field n s = true ->
  s <> EmptyString /\ free_of "," s = true /\ free_of NL s = true
  /\ free_of ("," +:+ NL) s = true /\ (String.length s < n)%nat.
Proof.
  unfold csv_field. intros H.
  apply andb_true_iff in H as [H Hlen]. apply andb_true_iff in H as [Hne Hfree].
  apply negb_true_iff, String.eqb_neq in Hne. apply Nat.ltb_lt in Hlen.
  repeat split; try assumption; revert Hfree; apply every_impl; intros c Hc;
    apply negb_true_iff in Hc; apply negb_true_iff; simpl in *;
    apply orb_false_iff in Hc as [_ Hc].
  - apply orb_false_iff in Hc as [Hc _]. now rewrite Hc.
  - apply orb_false_iff in Hc as [_ Hc]. exact Hc.
  - exact Hc.
Qed.

Lemma csv_field_no_nul n s :
  csv_field n s = true -> free_of (String NUL EmptyString) s = true.
Proof.
  unfold csv_field. intros H.
  apply andb_true_iff in H as [H _]. apply andb_true_iff in H as [_ Hfree].
  revert Hfree. apply every_impl. intros c Hc.
  apply negb_true_iff in Hc. apply negb_true_iff. simpl in *.
  apply orb_false_iff in Hc as [Hc _]. now rewrite Hc.
Qed.

Lemma c_string_whole s :
  free_of (String NUL EmptyString) s = true -> c_string s = s.
Proof.
  unfold c_string. induction s as [|c s IH]; [reflexivity|].
  intros H. cbn [free_of every] in H. apply andb_true_iff in H as [Hc Hs].
  apply negb_true_iff in Hc. cbn [cut_at]. rewrite Hc, (IH Hs). reflexivity.
Qed.

Lemma parse_user_row name password :
  csv_field MAX_USERNAME name = true ->
  csv_field MAX_PASSWORD password = true ->
  parse_user (name +:+ "," +:+ password +:+ NL) = Some (mkUser name password).
Proof.
  intros Hn Hp.
  destruct (csv_field_spec _ _ Hn) as (Hn1 & Hn2 & _ & _ & Hn5).
  destruct (csv_field_spec _ _ Hp) as (Hp1 & _ & _ & Hp4 & Hp5).
  unfold parse_user.
  rewrite c_string_whole.
  2:{ unfold free_of. rewrite !every_app.
      fold (free_of (String NUL EmptyString) name).
      fold (free_of (String NUL EmptyString) password).
      now rewrite (csv_field_no_nul _ _ Hn), (csv_field_no_nul _ _ Hp). }
  change (name +:+ "," +:+ password +:+ NL)
    with (name +:+ String "," (password +:+ NL)).
  rewrite (strtok_word "," name "," _ Hn1 Hn2 eq_refl).
  pose proof (strtok_word _ password LF EmptyString Hp1 Hp4 eq_refl) as H2.
  unfold NL in H2 |- *. rewrite H2.
  now rewrite !strncpy_short by assumption.
Qed.

Lemma row_is_line u :
  csv_user u = true ->
  exists line,
    csv_row NL u = line +:+ NL /\ free_of NL line = true
    /\ (String.length line < BUFFER_SIZE - 1)%nat.
Proof.
  unfold csv_user. intros H. apply andb_true_iff in H as [Hn Hp].
  destruct (csv_field_spec _ _ Hn) as (_ & _ & Hn3 & _ & Hn5).
  destruct (csv_field_spec _ _ Hp) as (_ & _ & Hp3 & _ & Hp5).
  exists (user_username u +:+ "," +:+ user_password u). split; [|split].
  - unfold csv_row. now rewrite !append_assoc.
  - unfold free_of in *. rewrite !every_app, Hn3, Hp3. reflexivity.
  - rewrite !length_append. simpl String.length.
    unfold MAX_USERNAME, MAX_PASSWORD, BUFFER_SIZE in *. lia.
Qed.

Lemma read_lines_csv us fuel :
  forallb csv_user us = true ->
  (String.length (csv NL us) <= fuel)%nat ->
  read_lines fuel (csv NL us) = map (csv_row NL) us.
Proof.
  revert fuel. induction us as [|u us IH]; intros fuel Hus Hfuel.
  - destruct fuel; reflexivity.
  - simpl in Hus. apply andb_true_iff in Hus as [Hu Hus].
    destruct (row_is_line u Hu) as (line & Erow & Hfree & Hlen).
    cbn [csv fold_right map] in *. fold (csv NL us) in *.
    rewrite Erow in *.
    assert (Ecat : (line +:+ NL) +:+ csv NL us
                   = line +:+ String LF (csv NL us)).
    { unfold NL at 1. now rewrite append_assoc. }
    rewrite Ecat in *. clear Ecat.
    assert (Hk : (String.length line + S (String.length (csv NL us))
                  <= fuel)%nat).
    { rewrite length_append in Hfuel. exact Hfuel. }
    clear Hfuel. revert Hk IH.
    generalize (String.length (csv NL us)) (String.length line).
    intros k n Hk IH.
    destruct fuel as [|fuel]; [exfalso; lia|].
    destruct (line +:+ String LF (csv NL us)) as [|c0 s0] eqn:E.
    { destruct line; discriminate. }
    cbn [read_lines]. rewrite <- E.
    rewrite (fgets_line _ line _ Hfree Hlen).
    rewrite IH by (assumption || lia). reflexivity.
Qed.

Lemma omap_cons {A B} (f : A -> option B) x l :
  omap f (x :: l)
  = match f x with Some y => y :: omap f l | None => omap f l end.
Proof. reflexivity. Qed.

End Store.

Lemma load_users_csv (us : list User) :
  forallb csv_user us = true ->
  load_users (csv NL us) = us.
Proof.
  intros Hus. unfold load_users.
  rewrite read_lines_csv by (assumption || lia).
  induction us as [|u us IH]; [reflexivity|].
  simpl in Hus. apply andb_true_iff in Hus as [Hu Hus].
  cbn [map]. rewrite omap_cons.
  unfold csv_user in Hu. apply andb_true_iff in Hu as [Hn Hp].
  unfold csv_row at 1. rewrite (parse_user_row _ _ Hn Hp).
  destruct u as [n p]. cbn [user_username user_password].
  now rewrite (IH Hus).
Qed.

Lemma csv_crlf us :
  csv CRLF us
  = csv NL (map (fun u => mkUser (user_username u)
                                 (user_password u +:+ String CR EmptyString))
                us).
Proof.
  induction us as [|u us IH]; [reflexivity|].
  cbn [csv fold_right map]. fold (csv CRLF us).
  fold (csv NL (map (fun u => mkUser (user_username u)
                                     (user_password u +:+ String CR EmptyString))
                    us)).
  rewrite IH. f_equal. unfold csv_row.
  cbn [user_username user_password].
  now rewrite !append_assoc.
Qed.

Lemma ends_with_cr_differs p password :
  no_space password = true ->
  String.eqb (p +:+ String CR EmptyString) password = false.
Proof.
  intros Hns. apply String.eqb_neq. intros <-.
  rewrite no_space_app in Hns. apply andb_true_iff in Hns as [_ H].
  discriminate.
Qed.

(** X1.  load_users reads back the table a users.csv was written from: a
    file with one line "name,password" and a line feed per user, for at
    most MAX_USERS users, each field non-empty, without NUL, comma and
    line feed and shorter than its 50-byte buffer, loads as exactly these
    users in the order of the file; so authenticate_user accepts a pair
    exactly when the file has its line. *)
Theorem load_users_reads_back (us : list User) :
  (length us <= MAX_USERS)%nat ->
  forallb csv_user us = true ->
  load_users (csv NL us) = us
  /\ forall name password,
       authenticate_user (load_users (csv NL us)) name password = true
       <-> In (mkUser name password) us.
Proof.
  intros _ Hus. rewrite (load_users_csv us Hus). split; [reflexivity|].
  intros name password. unfold authenticate_user. split.
  - intros Ex. apply existsb_exists in Ex as (u & Hin & Hu).
    apply andb_true_iff in Hu as [H1 H2].
    apply String.eqb_eq in H1, H2. destruct u as [n p]. simpl in *.
    now subst.
  - intros Hin. apply existsb_exists.
    exists (mkUser name password). split; [exact Hin|].
    cbn [user_username user_password]. unfold streq.
    now rewrite !String.eqb_refl.
Qed.

Lemma load_users_reads_back_witness :
  ((length Scenario.users0 <= MAX_USERS)%nat
   /\ forallb csv_user Scenario.users0 = true)
  /\ load_users (csv NL Scenario.users0) = Scenario.users0.
Proof.
  assert (Hn : (length Scenario.users0 <= MAX_USERS)%nat)
    by (unfold MAX_USERS; simpl; lia).
  split; [split; [exact Hn | reflexivity]|].
  apply (load_users_reads_back Scenario.users0 Hn). reflexivity.
Defined.

(** X2.  A users.csv with CR LF line ends (fields as in X1: non-empty,
    without NUL, comma and line feed, the password with its carriage
    return shorter than its buffer) locks every user out: strtok ends the
    password at the line feed only, so each stored password keeps the
    carriage return, and no password that reaches authenticate_user, a
    token without white space, is equal to one. *)
Theorem crlf_store_locks_everyone_out (us : list User)
    (name password : string) :
  (length us <= MAX_USERS)%nat ->
  forallb csv_user
    (map (fun u => mkUser (user_username u)
                          (user_password u +:+ String CR EmptyString)) us)
  = true ->
  no_space password = true ->
  load_users (csv CRLF us)
  = map (fun u => mkUser (user_username u)
                         (user_password u +:+ String CR EmptyString)) us
  /\ authenticate_user (load_users (csv CRLF us)) name password = false.
Proof.
  intros _ Hus Hns. rewrite csv_crlf, (load_users_csv _ Hus).
  split; [reflexivity|].
  unfold authenticate_user. clear Hus.
  induction us as [|u us IH]; [reflexivity|].
  cbn [map existsb user_username user_password].
  unfold streq at 2. rewrite (ends_with_cr_differs _ _ Hns).
  now rewrite andb_false_r.
Qed.

Lemma crlf_store_locks_everyone_out_witness :
  load_users (csv CRLF Scenario.users0)
  = [mkUser "alice" ("wonderland" +:+ String CR EmptyString);
     mkUser "bob" ("donuts" +:+ String CR EmptyString)]
  /\ authenticate_user (load_users (csv CRLF Scenario.users0))
       "alice" "wonderland" = false.
Proof.
  apply (crlf_store_locks_everyone_out Scenario.users0 "alice" "wonderland");
    [unfold MAX_USERS; simpl; lia | reflexivity | reflexivity].
Defined.

(** ** The client's side of the control connection *)

Section ClientLines.

Lemma scan_word_no_space s w r : scan_word s = (w, r) -> no_space w = true.
Proof.
  revert w r. induction s as [|c s IH]; intros w r H; simpl in H.
  - now inversion H.
  - destruct (isspace c) eqn:Ec; [now inversion H|].
    destruct (scan_word s) as [w' r']. specialize (IH _ _ eq_refl).
    inversion H; subst. simpl. rewrite Ec. exact IH.
Qed.

Lemma scan_s_no_space s w r : scan_s s = Some (w, r) -> no_space w = true.
Proof.
  unfold scan_s. destruct (scan_word (skip_space s)) as [w' r'] eqn:E.
  intros H. destruct w'; [discriminate|]. inversion H; subst.
  exact (scan_word_no_space _ _ _ E).
Qed.

Lemma sscanf_s_s_no_space command cmd0 arg0 n cmd arg :
  no_space cmd0 = true -> no_space arg0 = true ->
  sscanf_s_s command cmd0 arg0 = (n, cmd, arg) ->
  no_space cmd = true /\ no_space arg = true.
Proof.
  intros H0 H1. unfold sscanf_s_s.
  destruct (scan_s command) as [[c r]|] eqn:E1.
  - destruct (scan_s (skip_space r)) as [[a r2]|] eqn:E2;
      intros H; inversion H; subst;
      eauto using scan_s_no_space.
  - intros H; inversion H; subst. auto.
Qed.

Lemma no_space_free_of_blank s :
  no_space s = true ->
  free_of (" " +:+ String (ascii_of_nat 9) EmptyString) s = true.
Proof.
  rewrite no_space_every. apply every_impl. intros c Hc.
  apply negb_true_iff in Hc. apply negb_true_iff.
  cbn [String.append is_delim].
  destruct (Ascii.eqb c " ") eqn:E1.
  { apply Ascii.eqb_eq in E1. subst. discriminate. }
  destruct (Ascii.eqb c (ascii_of_nat 9)) eqn:E2.
  { apply Ascii.eqb_eq in E2. subst. discriminate. }
  reflexivity.
Qed.

Lemma is_word_spec s :
  is_word s = true -> s <> EmptyString /\ no_space s = true.
Proof. destruct s; [discriminate|]. intros H. split; [discriminate|exact H]. Qed.

Lemma count_tokens_end fuel : Client.count_tokens fuel EmptyString = 0.
Proof. destruct fuel; reflexivity. Qed.

Lemma cut_at_line d l c rest :
  free_of d l = true -> is_delim d c = true ->
  cut_at d (l +:+ String c rest) = l.
Proof.
  intros Hl Hc. induction l as [|x l IH]; simpl.
  - now rewrite Hc.
  - simpl in Hl. apply andb_true_iff in Hl as [Hx Hl].
    apply negb_true_iff in Hx. now rewrite Hx, (IH Hl).
Qed.

Lemma c_line_line l rest :
  one_line l = true -> Server.c_line (l +:+ CRLF +:+ rest) = l.
Proof.
  intros Hl. induction l as [|x l IH].
  - reflexivity.
  - unfold one_line in Hl. simpl in Hl. apply andb_true_iff in Hl as [Hx Hl].
    apply negb_true_iff in Hx.
    apply orb_false_iff in Hx as [H1 Hx].
    apply orb_false_iff in Hx as [H2 Hx].
    apply orb_false_iff in Hx as [H3 _].
    change (Server.c_line (String x l +:+ CRLF +:+ rest))
      with (if Ascii.eqb x NUL || Ascii.eqb x LF || Ascii.eqb x CR
            then EmptyString
            else String x (Server.c_line (l +:+ CRLF +:+ rest))).
    rewrite H1, H2, H3. cbn [orb]. now rewrite (IH Hl).
Qed.

Variables (verb arg : string).
Hypothesis Hverb : is_word verb = true.
Hypothesis Harg : is_word arg = true.

Lemma count_arguments_two :
  Client.count_arguments (verb +:+ " " +:+ arg) = 2.
Proof.
  destruct (is_word_spec _ Hverb) as [Hv1 Hv2].
  destruct (is_word_spec _ Harg) as [Ha1 Ha2].
  unfold Client.count_arguments.
  assert (Hlen : (2 <= String.length (verb +:+ " " +:+ arg))%nat).
  { rewrite length_append. destruct verb; [congruence|]. simpl. lia. }
  revert Hlen. generalize (String.length (verb +:+ " " +:+ arg)).
  intros [|[|fuel]] Hlen; try lia.
  cbn [Client.count_tokens].
  change (verb +:+ " " +:+ arg) with (verb +:+ String " " arg).
  rewrite (strtok_word _ verb " " arg Hv1 (no_space_free_of_blank _ Hv2)
             eq_refl).
  rewrite (strtok_last _ arg Ha1 (no_space_free_of_blank _ Ha2)).
  now rewrite count_tokens_end.
Qed.

Lemma sscanf_verb_arg cmd0 arg0 :
  sscanf_s_s (verb +:+ " " +:+ arg) cmd0 arg0 = (2, verb, arg).
Proof.
  pose proof (sscanf_two_words EmptyString verb " " arg EmptyString
                eq_refl Hverb eq_refl ltac:(discriminate) Harg eq_refl
                cmd0 arg0) as H.
  rewrite append_empty_r in H. exact H.
Qed.

Lemma line_of_verb_arg :
  one_line verb = true -> one_line arg = true ->
  Server.c_line (Client.send_command (verb +:+ " " +:+ arg))
  = verb +:+ " " +:+ arg.
Proof.
  intros H1 H2. unfold Client.send_command.
  pose proof (c_line_line (verb +:+ " " +:+ arg) EmptyString) as H.
  rewrite append_empty_r in H. apply H.
  unfold one_line, free_of in *. rewrite !every_app, H1, H2. reflexivity.
Qed.

End ClientLines.

Lemma typed_login_lines
    (w : World) (cmd0 arg0 name password : string) (st : Server)
    (client_fd : Z) (i : nat) :
  is_word name = true -> one_line name = true ->
  is_word password = true -> one_line password = true ->
  get_session_index st client_fd = Some i ->
  Server.handle_command w cmd0 arg0 st client_fd
    (Server.c_line (Client.handle_user_command name))
  = handle_user_command st client_fd name
  /\ Server.handle_command w cmd0 arg0 st client_fd
       (Server.c_line (Client.handle_pass_command password))
     = handle_pass_command w st client_fd password.
Proof.
  intros Hn Hn1 Hp Hp1 Hi. split.
  - unfold Client.handle_user_command.
    change ("USER " +:+ name) with ("USER" +:+ " " +:+ name).
    rewrite (line_of_verb_arg "USER" name eq_refl Hn1).
    unfold Server.handle_command.
    rewrite (sscanf_verb_arg "USER" name eq_refl Hn).
    cbv beta iota. change (2 <? 1) with false. cbv iota.
    rewrite Hi. reflexivity.
  - unfold Client.handle_pass_command.
    change ("PASS " +:+ password) with ("PASS" +:+ " " +:+ password).
    rewrite (line_of_verb_arg "PASS" password eq_refl Hp1).
    unfold Server.handle_command.
    rewrite (sscanf_verb_arg "PASS" password eq_refl Hp).
    cbv beta iota. change (2 <? 1) with false. cbv iota.
    rewrite Hi. reflexivity.
Qed.

Lemma one_line_app a b : one_line (a +:+ b) = one_line a && one_line b.
Proof. apply every_app. Qed.

Lemma one_line_free l :
  one_line l = true ->
  free_of (String NUL EmptyString) l = true /\ free_of NL l = true.
Proof.
  unfold one_line. intros H.
  split; revert H; apply every_impl; intros c Hc;
    apply negb_true_iff in Hc; apply negb_true_iff;
    cbn [CRLF NL is_delim] in *;
    apply orb_false_iff in Hc as [H1 Hc];
    apply orb_false_iff in Hc as [H2 Hc];
    apply orb_false_iff in Hc as [H3 _].
  - now rewrite H1.
  - now rewrite H3.
Qed.

(** A typed line as the loop of main sees it after strcspn. *)
Lemma typed_line_cut l :
  one_line l = true -> cut_at NL (c_string (l +:+ NL)) = l.
Proof.
  intros Hl. destruct (one_line_free l Hl) as [H0 Hn].
  rewrite c_string_whole.
  - apply (cut_at_line NL l LF EmptyString Hn eq_refl).
  - unfold free_of in *. rewrite every_app, H0. reflexivity.
Qed.

Lemma count_arguments_three verb a b :
  is_word verb = true -> is_word a = true -> is_word b = true ->
  Client.count_arguments (verb +:+ " " +:+ a +:+ " " +:+ b) = 3.
Proof.
  intros Hv Ha Hb.
  destruct (is_word_spec _ Hv) as [Hv1 Hv2].
  destruct (is_word_spec _ Ha) as [Ha1 Ha2].
  destruct (is_word_spec _ Hb) as [Hb1 Hb2].
  unfold Client.count_arguments.
  assert (Hlen : (3 <= String.length (verb +:+ " " +:+ a +:+ " " +:+ b))%nat).
  { rewrite !length_append. destruct verb; [congruence|].
    destruct a; [congruence|]. simpl. lia. }
  revert Hlen.
  generalize (String.length (verb +:+ " " +:+ a +:+ " " +:+ b)).
  intros [|[|[|fuel]]] Hlen; try lia.
  cbn [Client.count_tokens].
  change (verb +:+ " " +:+ a +:+ " " +:+ b)
    with (verb +:+ String " " (a +:+ String " " b)).
  rewrite (strtok_word _ verb " " _ Hv1 (no_space_free_of_blank _ Hv2)
             eq_refl).
  rewrite (strtok_word _ a " " b Ha1 (no_space_free_of_blank _ Ha2) eq_refl).
  rewrite (strtok_last _ b Hb1 (no_space_free_of_blank _ Hb2)).
  now rewrite count_tokens_end.
Qed.

Lemma dispatch_verb_arg verb arg :
  is_word verb = true -> one_line verb = true ->
  is_word arg = true -> one_line arg = true ->
  existsb (String.eqb verb) Client.verbs_with_argument = true ->
  Client.dispatch (verb +:+ " " +:+ arg +:+ NL) = Client.Call verb arg.
Proof.
  intros Hv Hv1 Ha Ha1 Hin. unfold Client.dispatch.
  pose proof (typed_line_cut (verb +:+ " " +:+ arg)) as Hcut.
  rewrite !append_assoc in Hcut. unfold NL in Hcut |- *. rewrite Hcut.
  2:{ rewrite !one_line_app, Hv1, Ha1. reflexivity. }
  destruct (verb +:+ " " +:+ arg) as [|c0 s0] eqn:E.
  { destruct verb; [discriminate Hv | discriminate]. }
  rewrite <- E. rewrite (sscanf_verb_arg verb arg Hv Ha).
  cbv beta iota. change (2 <? 1) with false. cbv iota.
  rewrite Hin, (count_arguments_two verb arg Hv Ha). reflexivity.
Qed.

Lemma dispatch_three_tokens verb a b :
  is_word verb = true -> one_line verb = true ->
  is_word a = true -> one_line a = true ->
  is_word b = true -> one_line b = true ->
  existsb (String.eqb verb) Client.verbs_with_argument = true ->
  Client.dispatch (verb +:+ " " +:+ a +:+ " " +:+ b +:+ NL)
  = Client.Usage verb.
Proof.
  intros Hv Hv1 Ha Ha1 Hb Hb1 Hin. unfold Client.dispatch.
  pose proof (typed_line_cut (verb +:+ " " +:+ a +:+ " " +:+ b)) as Hcut.
  rewrite !append_assoc in Hcut. unfold NL in Hcut |- *. rewrite Hcut.
  2:{ rewrite !one_line_app, Hv1, Ha1, Hb1. reflexivity. }
  destruct (verb +:+ " " +:+ a +:+ " " +:+ b) as [|c0 s0] eqn:E.
  { destruct verb; [discriminate Hv | discriminate]. }
  rewrite <- E.
  pose proof (sscanf_two_words EmptyString verb " " a (" " +:+ b)
                eq_refl Hv eq_refl ltac:(discriminate) Ha eq_refl
                EmptyString EmptyString) as Hscan.
  change (EmptyString +:+ verb +:+ " " +:+ a +:+ " " +:+ b)
    with (verb +:+ " " +:+ a +:+ " " +:+ b) in Hscan.
  rewrite Hscan.
  cbv beta iota. change (2 <? 1) with false. cbv iota.
  rewrite Hin, (count_arguments_three verb a b Hv Ha Hb). reflexivity.
Qed.

(** X3.  Whatever the user types, the handler the client calls is one of
    the eleven verbs in capitals and its argument holds no white space; and
    a line of a verb that takes an argument followed by a name with a
    blank in it, as RETR my file.txt, calls no handler: it gets the usage
    message of the verb, so that such a name is never sent. *)
Theorem client_calls_with_single_tokens (typed verb arg : string) :
  (Client.dispatch typed = Client.Call verb arg ->
   In verb (Client.verbs_with_argument ++ Client.verbs_alone)
   /\ no_space arg = true)
  /\ (forall v a b,
        In v Client.verbs_with_argument ->
        is_word a = true -> one_line a = true ->
        is_word b = true -> one_line b = true ->
        Client.dispatch (v +:+ " " +:+ a +:+ " " +:+ b +:+ NL)
        = Client.Usage v).
Proof.
  split.
  - unfold Client.dispatch.
    destruct (cut_at _ (c_string typed)) as [|c0 s0]; [discriminate|].
    destruct (sscanf_s_s _ _ _) as [[n cmd] a] eqn:E.
    destruct (sscanf_s_s_no_space _ EmptyString EmptyString _ _ _
                eq_refl eq_refl E) as [_ Ha].
    destruct (n <? 1); [discriminate|].
    destruct (existsb _ Client.verbs_with_argument) eqn:E1.
    + destruct (_ =? 2); [|discriminate]. intros H; inversion H; subst.
      split; [|exact Ha]. apply in_or_app. left.
      apply existsb_exists in E1 as (v & Hin & Hv).
      apply String.eqb_eq in Hv. now subst.
    + destruct (existsb _ Client.verbs_alone) eqn:E2; [|discriminate].
      destruct (_ =? 1); [|discriminate]. intros H; inversion H; subst.
      split; [|exact Ha]. apply in_or_app. right.
      apply existsb_exists in E2 as (v & Hin & Hv).
      apply String.eqb_eq in Hv. now subst.
  - intros v a b Hin Ha Ha1 Hb Hb1.
    assert (Hv : is_word v = true /\ one_line v = true
                 /\ existsb (String.eqb v) Client.verbs_with_argument = true).
    { unfold Client.verbs_with_argument in Hin. simpl in Hin.
      repeat (destruct Hin as [<- | Hin]; [repeat split|]).
      contradiction. }
    destruct Hv as (Hv & Hv1 & Hex).
    now apply dispatch_three_tokens.
Qed.

Lemma client_calls_with_single_tokens_witness :
  Client.dispatch ("RETR hello.txt" +:+ NL) = Client.Call "RETR" "hello.txt"
  /\ (In "RETR"%string (Client.verbs_with_argument ++ Client.verbs_alone)
      /\ no_space "hello.txt" = true)
  /\ Client.dispatch ("RETR my file.txt" +:+ NL) = Client.Usage "RETR".
Proof.
  split; [reflexivity|].
  destruct (client_calls_with_single_tokens ("RETR hello.txt" +:+ NL)
              "RETR" "hello.txt") as [H1 H2].
  split; [exact (H1 eq_refl)|].
  apply (H2 "RETR" "my" "file.txt"); [simpl; tauto | reflexivity ..].
Defined.

(** X4.  A login typed at the client arrives at the server's handlers as
    typed: for a name and a password without white space, the lines
    "USER name" and "PASS password" are dispatched to the client's USER and
    PASS handlers, and what these write to the control socket is served
    by the server, for a connection with a session, as
    handle_user_command with that name and handle_pass_command with that
    password. *)
Theorem typed_login_reaches_the_handlers
    (w : World) (cmd0 arg0 name password : string) (st : Server)
    (client_fd : Z) (i : nat) :
  is_word name = true -> one_line name = true ->
  is_word password = true -> one_line password = true ->
  get_session_index st client_fd = Some i ->
  Client.dispatch ("USER " +:+ name +:+ NL) = Client.Call "USER" name
  /\ Client.dispatch ("PASS " +:+ password +:+ NL)
     = Client.Call "PASS" password
  /\ Server.handle_command w cmd0 arg0 st client_fd
       (Server.c_line (Client.handle_user_command name))
     = handle_user_command st client_fd name
  /\ Server.handle_command w cmd0 arg0 st client_fd
       (Server.c_line (Client.handle_pass_command password))
     = handle_pass_command w st client_fd password.
Proof.
  intros Hn Hn1 Hp Hp1 Hi.
  destruct (typed_login_lines w cmd0 arg0 name password st client_fd i
              Hn Hn1 Hp Hp1 Hi) as [E1 E2].
  split; [|split; [|split]].
  - apply (dispatch_verb_arg "USER" name); (reflexivity || assumption).
  - apply (dispatch_verb_arg "PASS" password); (reflexivity || assumption).
  - exact E1.
  - exact E2.
Qed.

Lemma typed_login_reaches_the_handlers_witness :
  (is_word "alice" = true /\ one_line "alice" = true
   /\ is_word "wonderland" = true /\ one_line "wonderland" = true
   /\ get_session_index
        (Scenario.server_with Scenario.alice_named Scenario.files0) 5
      = Some 0%nat)
  /\ Client.dispatch ("USER alice" +:+ NL) = Client.Call "USER" "alice"
  /\ Server.handle_command Scenario.world_ok EmptyString EmptyString
       (Scenario.server_with Scenario.alice_named Scenario.files0) 5
       (Server.c_line (Client.handle_pass_command "wonderland"))
     = handle_pass_command Scenario.world_ok
         (Scenario.server_with Scenario.alice_named Scenario.files0) 5
         "wonderland".
Proof.
  split; [repeat split; reflexivity|].
  pose proof (typed_login_reaches_the_handlers Scenario.world_ok EmptyString
                EmptyString "alice" "wonderland"
                (Scenario.server_with Scenario.alice_named Scenario.files0)
                5 0 eq_refl eq_refl eq_refl eq_refl eq_refl)
    as (H1 & _ & _ & H4).
  split; [exact H1 | exact H4].
Defined.

(** ** PORT as the client writes it *)

Section Port.

Lemma fmt_d_plain z :
  every (fun c => isdigit c || Ascii.eqb c "-") (fmt_d z) = true.
Proof.
  assert (Hu : forall d,
             every (fun c => isdigit c || Ascii.eqb c "-")
                   (NilEmpty.string_of_uint d) = true).
  { induction d; simpl; try exact IHd; reflexivity. }
  assert (Hz : forall d,
             every (fun c => isdigit c || Ascii.eqb c "-")
                   (NilZero.string_of_uint d) = true).
  { intros d. destruct d; try exact (Hu _); reflexivity. }
  unfold fmt_d. destruct (Z.to_int z) as [d|d]; simpl.
  - apply Hz.
  - apply Hz.
Qed.

Lemma fmt_d_not_empty z : fmt_d z <> EmptyString.
Proof.
  assert (Hu : forall d, d <> Decimal.Nil ->
                         NilEmpty.string_of_uint d <> EmptyString).
  { intros d Hd. destruct d; simpl; congruence. }
  unfold fmt_d. destruct (Z.to_int z) as [d|d]; simpl; [|discriminate].
  destruct d; simpl; discriminate.
Qed.

Lemma plain_no_space s :
  every (fun c => isdigit c || Ascii.eqb c "-") s = true ->
  no_space s = true.
Proof.
  rewrite no_space_every. apply every_impl. intros c Hc.
  destruct (isspace c) eqn:E; [|reflexivity].
  unfold isspace, isdigit in *.
  destruct (Ascii.eqb c "-") eqn:E2.
  { apply Ascii.eqb_eq in E2. subst. discriminate. }
  rewrite orb_false_r in Hc. apply andb_true_iff in Hc as [H1 H2].
  apply Nat.leb_le in H1.
  apply orb_true_iff in E as [E|E].
  - apply Nat.eqb_eq in E. lia.
  - apply andb_true_iff in E as [_ E]. apply Nat.leb_le in E. lia.
Qed.

Lemma plain_one_line s :
  every (fun c => isdigit c || Ascii.eqb c "-") s = true ->
  one_line s = true.
Proof.
  apply every_impl. intros c Hc. apply negb_true_iff.
  cbn [is_delim CRLF]. rewrite orb_false_r.
  destruct (Ascii.eqb c NUL) eqn:E1.
  { apply Ascii.eqb_eq in E1. subst. discriminate. }
  destruct (Ascii.eqb c CR) eqn:E2.
  { apply Ascii.eqb_eq in E2. subst. discriminate. }
  destruct (Ascii.eqb c LF) eqn:E3.
  { apply Ascii.eqb_eq in E3. subst. discriminate. }
  reflexivity.
Qed.

End Port.

Ltac eval_streq :=
  repeat match goal with
         | |- context [streq ?a ?b] =>
             let v := eval vm_compute in (streq a b) in
             change (streq a b) with v
         end;
  cbv iota.

Section PortLine.

Variables (w : World) (cmd0 arg0 : string) (st : Server) (client_fd : Z)
          (i : nat) (p : Z).
Hypothesis Hi : get_session_index st client_fd = Some i.
Hypothesis Hauth : authenticated (session_at st i) = true.
Hypothesis Hp : 0 <= p < 65536.

Lemma port_args_word :
  is_word (port_arguments p) = true /\ one_line (port_arguments p) = true.
Proof.
  split.
  - assert (Hns : no_space (port_arguments p) = true).
    { unfold port_arguments.
      rewrite !no_space_app, !(plain_no_space _ (fmt_d_plain _)).
      reflexivity. }
    unfold is_word. rewrite Hns. unfold port_arguments. now cbn [String.append].
  - unfold port_arguments. rewrite !one_line_app, !(plain_one_line _ (fmt_d_plain _)).
    reflexivity.
Qed.

Lemma port_args_read :
  sscanf_6d (port_arguments p) = [127; 0; 0; 1; Z.quot p 256; Z.rem p 256].
Proof.
  pose proof (sscanf_6d_print 127 0 0 1 (Z.quot p 256) (Z.rem p 256)
                EmptyString eq_refl) as H.
  rewrite append_empty_r in H.
  change (fmt_d 127 +:+ "," +:+ fmt_d 0 +:+ "," +:+ fmt_d 0 +:+ ","
          +:+ fmt_d 1 +:+ "," +:+ fmt_d (Z.quot p 256) +:+ ","
          +:+ fmt_d (Z.rem p 256)) with (port_arguments p) in H.
  rewrite H. cbn [map].
  pose proof (Z.quot_rem p 256 ltac:(lia)) as Hqr.
  assert (0 <= Z.quot p 256 < 256).
  { split; [apply Z.quot_pos; lia|].
    apply Z.quot_lt_upper_bound; lia. }
  assert (0 <= Z.rem p 256 < 256) by (apply Z.rem_bound_pos; lia).
  rewrite !scan_int_small by (unfold fits_int, INT_MIN, INT_MAX; lia).
  reflexivity.
Qed.

Lemma port_line_served :
  Server.handle_command w cmd0 arg0 st client_fd
    (Server.c_line (Client.setup_data_connection p))
  = (update_session i
       (fun s => set_data_port p (set_data_ip "127.0.0.1" s)) st,
     send_response client_fd "200 PORT command successful.").
Proof.
  destruct port_args_word as [Hw Hl].
  unfold Client.setup_data_connection, Client.port_command.
  change ("PORT 127,0,0,1," +:+ fmt_d (Z.quot p 256) +:+ ","
          +:+ fmt_d (Z.rem p 256)) with ("PORT" +:+ " " +:+ (port_arguments p)).
  rewrite (line_of_verb_arg "PORT" (port_arguments p) eq_refl Hl).
  unfold Server.handle_command.
  rewrite (sscanf_verb_arg "PORT" (port_arguments p) eq_refl Hw).
  cbv beta iota. change (2 <? 1) with false. cbv iota.
  rewrite Hi. eval_streq. rewrite Hauth. cbn [negb].
  unfold handle_port_command. rewrite Hi, port_args_read.
  pose proof (Z.quot_rem p 256 ltac:(lia)) as Hqr.
  replace (Z.quot p 256 * 256 + Z.rem p 256) with p by lia.
  rewrite wrap_int_small by (unfold fits_int, INT_MIN, INT_MAX; lia).
  reflexivity.
Qed.

End PortLine.

(** X5.  The PORT command of the client and the PORT handler of the server
    agree: for a listening port p in 0..65535 the client writes
    "PORT 127,0,0,1,p/256,p%256"; served on an authenticated session this
    is answered 200 and declares the endpoint 127.0.0.1, port p, and p is
    the port the transfer handlers then connect to. *)
Theorem client_port_is_the_declared_endpoint
    (w : World) (cmd0 arg0 : string) (st : Server) (client_fd : Z)
    (i : nat) (p : Z) :
  get_session_index st client_fd = Some i ->
  authenticated (session_at st i) = true ->
  0 <= p < 65536 ->
  let '(st', out) :=
    Server.handle_command w cmd0 arg0 st client_fd
      (Server.c_line (Client.setup_data_connection p)) in
  out = send_response client_fd "200 PORT command successful."
  /\ data_ip (session_at st' i) = "127.0.0.1"%string
  /\ data_port (session_at st' i) = p
  /\ htons (data_port (session_at st' i)) = p.
Proof.
  intros Hi Hauth Hp.
  rewrite (port_line_served w cmd0 arg0 st client_fd i p Hi Hauth Hp).
  destruct (get_session_index_Some _ _ _ Hi) as (s & Hs & _).
  rewrite (session_at_update _ _ _ _ Hs). cbn [data_ip data_port set_data_port set_data_ip].
  repeat split. unfold htons. apply Z.mod_small. lia.
Qed.

Lemma client_port_is_the_declared_endpoint_witness :
  let st := Scenario.server_with Scenario.alice Scenario.files0 in
  (get_session_index st 5 = Some 0%nat
   /\ authenticated (session_at st 0) = true
   /\ 0 <= 5000 < 65536)
  /\ let '(st', out) :=
       Server.handle_command Scenario.world_ok EmptyString EmptyString st 5
         (Server.c_line (Client.setup_data_connection 5000)) in
     out = send_response 5 "200 PORT command successful."
     /\ data_ip (session_at st' 0) = "127.0.0.1"%string
     /\ data_port (session_at st' 0) = 5000
     /\ htons (data_port (session_at st' 0)) = 5000.
Proof.
  split; [repeat split; (reflexivity || lia)|].
  apply (client_port_is_the_declared_endpoint Scenario.world_ok EmptyString
           EmptyString (Scenario.server_with Scenario.alice Scenario.files0)
           5 0 5000); [reflexivity | reflexivity | lia].
Defined.

(** ** Transfers that go through *)

Section DataSent.

Lemma data_sent_app a b : data_sent (a ++ b) = data_sent a ++ data_sent b.
Proof.
  induction a as [|e a IH]; [reflexivity|].
  destruct e; simpl; try exact IH. now rewrite IH, app_assoc.
Qed.

Lemma data_sent_writes dfd chunks :
  data_sent (map (DataWrite dfd) chunks) = concat chunks.
Proof. induction chunks as [|c l IH]; [reflexivity|]. simpl. now rewrite IH. Qed.

Lemma data_sent_reads dfd rs : data_sent (map (DataRead dfd) rs) = [].
Proof. induction rs as [|r l IH]; [reflexivity|]. exact IH. Qed.

Lemma concat_fread_chunks fuel content :
  (length content <= fuel)%nat -> concat (fread_chunks fuel content) = content.
Proof.
  revert content. induction fuel as [|fuel IH]; intros content Hlen.
  - destruct content; [reflexivity | simpl in Hlen; lia].
  - destruct content as [|b bs]; [reflexivity|].
    change (fread_chunks (S fuel) (b :: bs))
      with (take BUFFER_SIZE (b :: bs)
              :: fread_chunks fuel (drop BUFFER_SIZE (b :: bs))).
    cbn [concat]. rewrite IH.
    + apply take_drop.
    + rewrite length_drop. cbn [length] in *.
      assert (1 <= BUFFER_SIZE)%nat by (unfold BUFFER_SIZE; lia). lia.
Qed.

Lemma fread_chunks_fit fuel content :
  Forall (fun chunk => (0 < length chunk <= BUFFER_SIZE)%nat)
         (fread_chunks fuel content).
Proof.
  revert content. induction fuel as [|fuel IH]; intros content.
  - apply List.Forall_nil.
  - destruct content as [|b bs]; [apply List.Forall_nil|].
    change (fread_chunks (S fuel) (b :: bs))
      with (take BUFFER_SIZE (b :: bs)
              :: fread_chunks fuel (drop BUFFER_SIZE (b :: bs))).
    apply List.Forall_cons; [|apply IH].
    rewrite length_take. cbn [length].
    assert (1 <= BUFFER_SIZE)%nat by (unfold BUFFER_SIZE; lia). lia.
Qed.

Lemma stor_receive_sends chunks :
  Forall (fun chunk => chunk <> []) chunks ->
  stor_receive (sends chunks) = concat chunks.
Proof.
  unfold sends. induction chunks as [|c l IH]; intros H; [reflexivity|].
  apply Forall_cons in H as [Hc Hl]. destruct c as [|b bs]; [congruence|].
  cbn [map app stor_receive concat]. now rewrite (IH Hl).
Qed.


Lemma update_lookup st i f s :
  client_sessions st !! i = Some s ->
  client_sessions (update_session i f st) !! i = Some (f s).
Proof.
  intros Hs. unfold update_session. simpl.
  rewrite list_lookup_alter_eq, Hs. reflexivity.
Qed.

Lemma forked_calls w :
  transfer_forked w = true ->
  (w_socket w <? 0) = false /\ (w_setsockopt w <? 0) = false
  /\ (w_connect w <? 0) = false /\ (w_fork w <? 0) = false.
Proof.
  unfold transfer_forked. rewrite !leb_ltb0, !andb_true_iff, !negb_true_iff.
  tauto.
Qed.

End DataSent.

Section Transfers.

Variables (w : World) (st : Server) (client_fd : Z) (i : nat) (s : FTPSession)
          (filename : string).
Hypothesis Hi : get_session_index st client_fd = Some i.
Hypothesis Hs : client_sessions st !! i = Some s.
Hypothesis Hport : data_port s <> -1.
Hypothesis Hfork : transfer_forked w = true.

Lemma retr_goes_through content :
  files st !! final_path (current_dir s) filename = Some content ->
  w_child_fopen w (final_path (current_dir s) filename) = true ->
  Server.handle_retr_command w st client_fd filename
  = (update_session i forget_endpoint st,
     [Socket (w_socket w); Setsockopt (w_socket w) (w_setsockopt w);
      Fopen (final_path (current_dir s) filename) "rb" true]
       ++ send_response client_fd
            "150 File status okay; about to open data connection."
       ++ [Connect (w_socket w) (data_ip s) (htons (data_port s))
             (w_connect w);
           Fork (w_fork w); Close client_fd;
           Fopen (final_path (current_dir s) filename) "rb" true]
       ++ map (DataWrite (w_socket w))
              (fread_chunks (length content) content)
       ++ [Close (w_socket w); Exit 0; Close (w_socket w);
           Waitpid (w_fork w)]
       ++ send_response client_fd "226 Transfer complete.").
Proof.
  intros Hfile Hopen. unfold final_path in *.
  destruct (forked_calls w Hfork) as (H1 & H2 & H3 & H4).
  unfold Server.handle_retr_command.
  rewrite Hi, (session_at_lookup _ _ _ Hs).
  apply Z.eqb_neq in Hport. rewrite Hport, H1, H2, Hfile.
  rewrite bool_decide_true by eauto. cbn [negb].
  rewrite H3, H4. unfold transfer_parent, retr_child.
  rewrite Hfile, Hopen. cbn [app send_response].
  rewrite <- !app_assoc. reflexivity.
Qed.

Lemma stor_goes_through chunks :
  w_data_in w = sends chunks ->
  w_child_fopen w (temp_path w (current_dir s) filename) = true ->
  w_rename w (temp_path w (current_dir s) filename)
             (final_path (current_dir s) filename) = 0 ->
  Server.handle_stor_command w st client_fd filename
  = (update_session i forget_endpoint
       (set_files
          (<[final_path (current_dir s) filename := stor_receive (sends chunks)]>
             (delete (temp_path w (current_dir s) filename) (files st)))
          st),
     [Socket (w_socket w); Setsockopt (w_socket w) (w_setsockopt w)]
       ++ send_response client_fd
            "150 File status okay; about to open data connection."
       ++ [Connect (w_socket w) (data_ip s) (htons (data_port s))
             (w_connect w);
           Fork (w_fork w); Close client_fd;
           Fopen (temp_path w (current_dir s) filename) "wb" true]
       ++ map (DataRead (w_socket w)) (stor_reads (sends chunks))
       ++ [Close (w_socket w);
           Rename (temp_path w (current_dir s) filename)
                  (final_path (current_dir s) filename) 0;
           Exit 0; Close (w_socket w); Waitpid (w_fork w)]
       ++ send_response client_fd "226 Transfer complete.").
Proof.
  intros Hin Hopen Hren. unfold final_path, temp_path in *.
  destruct (forked_calls w Hfork) as (H1 & H2 & H3 & H4).
  unfold Server.handle_stor_command.
  rewrite Hi, (session_at_lookup _ _ _ Hs).
  apply Z.eqb_neq in Hport. rewrite Hport, H1, H2, H3, H4.
  unfold stor_child. rewrite Hopen, Hren, Hin. cbn [Z.eqb].
  unfold transfer_parent. cbn [app send_response].
  rewrite <- !app_assoc. reflexivity.
Qed.

End Transfers.

(** ** Transfers under the answers of write() *)

Section UnderWrites.

Variable answer : nat -> write_result.

Lemma under_writes_parent k l tl :
  forallb parent_event l = true ->
  under_writes answer k false (l ++ tl) = l ++ under_writes answer k false tl.
Proof.
  induction l as [|e l IH]; [reflexivity|].
  cbn [forallb]. intros H. apply andb_true_iff in H as [He Hl].
  cbn [app under_writes]. rewrite (IH Hl).
  destruct e; (discriminate He || reflexivity).
Qed.

Lemma under_writes_parent_only k l :
  forallb parent_event l = true -> under_writes answer k false l = l.
Proof.
  intros H. rewrite <- (app_nil_r l) at 1.
  rewrite (under_writes_parent _ _ _ H). cbn [under_writes].
  apply app_nil_r.
Qed.

Lemma under_writes_killed k dfd chunks status tl :
  under_writes answer k true
    (map (DataWrite dfd) chunks ++ Close dfd :: Exit status :: tl)
  = under_writes answer k false tl.
Proof. induction chunks as [|c l IH]; [reflexivity | exact IH]. Qed.

Lemma under_writes_chunks k dfd chunks tl :
  (forall j, (j < length chunks)%nat -> answer (k + j)%nat <> WSigpipe) ->
  under_writes answer k false (map (DataWrite dfd) chunks ++ tl)
  = map (DataWrite dfd) chunks
      ++ under_writes answer (k + length chunks) false tl.
Proof.
  revert k. induction chunks as [|c l IH]; intros k H.
  - cbn [map app length]. now rewrite Nat.add_0_r.
  - cbn [map app under_writes length].
    assert (H0 : is_sigpipe (answer k) = false).
    { specialize (H 0%nat ltac:(cbn [length]; lia)).
      rewrite Nat.add_0_r in H. destruct (answer k); (reflexivity || congruence). }
    rewrite H0, IH.
    + now rewrite Nat.add_succ_r.
    + intros j Hj. rewrite Nat.add_succ_l, <- Nat.add_succ_r. apply H.
      cbn [length]. lia.
Qed.

Lemma under_writes_cut k j dfd chunks status tl :
  (j < length chunks)%nat ->
  answer (k + j)%nat = WSigpipe ->
  (forall j', (j' < j)%nat -> answer (k + j')%nat <> WSigpipe) ->
  under_writes answer k false
    (map (DataWrite dfd) chunks ++ Close dfd :: Exit status :: tl)
  = map (DataWrite dfd) (take (S j) chunks)
      ++ under_writes answer (k + S j) false tl.
Proof.
  revert k j. induction chunks as [|c l IH]; intros k j Hj Hk Hlt.
  - cbn [length] in Hj. lia.
  - cbn [map app under_writes]. destruct j as [|j].
    + rewrite Nat.add_0_r in Hk. rewrite Hk. cbn [is_sigpipe].
      rewrite under_writes_killed. cbn [take map app].
      rewrite take_0. cbn [map app]. now rewrite Nat.add_1_r.
    + assert (H0 : is_sigpipe (answer k) = false).
      { specialize (Hlt 0%nat ltac:(lia)). rewrite Nat.add_0_r in Hlt.
        destruct (answer k); (reflexivity || congruence). }
      rewrite H0. cbn [length] in Hj.
      rewrite (IH (S k) j); [| lia | | ].
      * change (take (S (S j)) (c :: l)) with (c :: take (S j) l).
        cbn [map app]. f_equal. f_equal. f_equal. lia.
      * rewrite Nat.add_succ_l, <- Nat.add_succ_r. exact Hk.
      * intros j' Hj'. rewrite Nat.add_succ_l, <- Nat.add_succ_r.
        apply Hlt. lia.
Qed.

(** A transfer whose child writes [chunks]: the whole trace when no write
    is answered by SIGPIPE, and the trace cut after the write that is. *)
Lemma transfer_under_writes pre dfd chunks post :
  forallb parent_event pre = true ->
  forallb parent_event post = true ->
  let out := pre ++ map (DataWrite dfd) chunks
                 ++ Close dfd :: Exit 0 :: post in
  ((forall j, (j < length chunks)%nat -> answer j <> WSigpipe) ->
   under_writes answer 0 false out = out)
  /\ (forall k, (k < length chunks)%nat -> first_sigpipe answer k ->
      under_writes answer 0 false out
      = pre ++ map (DataWrite dfd) (take (S k) chunks) ++ post).
Proof.
  intros Hpre Hpost out. unfold out. split.
  - intros Hok. rewrite (under_writes_parent _ _ _ Hpre).
    rewrite (under_writes_chunks 0 dfd chunks _ Hok).
    cbn [under_writes].
    now rewrite (under_writes_parent_only _ _ Hpost).
  - intros k Hk [Hsig Hfirst]. rewrite (under_writes_parent _ _ _ Hpre).
    rewrite (under_writes_cut 0 k dfd chunks 0 post Hk Hsig Hfirst).
    now rewrite (under_writes_parent_only _ _ Hpost).
Qed.

Lemma taken_in_full_no_sigpipe chunks :
  taken_in_full answer chunks ->
  forall j, (j < length chunks)%nat -> answer j <> WSigpipe.
Proof.
  intros H j Hj. destruct (lookup_lt_is_Some_2 chunks j Hj) as [c Hc].
  destruct (H j c Hc) as (n & -> & _). discriminate.
Qed.

Lemma data_received_parent k l tl :
  forallb parent_event l = true ->
  data_received answer k (l ++ tl) = data_received answer k tl.
Proof.
  induction l as [|e l IH]; [reflexivity|].
  cbn [forallb]. intros H. apply andb_true_iff in H as [He Hl].
  cbn [app data_received]. rewrite (IH Hl).
  destruct e; (discriminate He || reflexivity).
Qed.

Lemma data_received_parent_only k l :
  forallb parent_event l = true -> data_received answer k l = [].
Proof.
  intros H. rewrite <- (app_nil_r l).
  now rewrite (data_received_parent _ _ _ H).
Qed.

Lemma data_received_whole k dfd chunks tl :
  (forall j chunk, chunks !! j = Some chunk ->
     exists n, answer (k + j)%nat = WTaken n /\ (length chunk <= n)%nat) ->
  data_received answer k (map (DataWrite dfd) chunks ++ tl)
  = concat chunks ++ data_received answer (k + length chunks) tl.
Proof.
  revert k. induction chunks as [|c l IH]; intros k H.
  - cbn [map app concat length]. now rewrite Nat.add_0_r.
  - cbn [map app data_received concat length].
    destruct (H 0%nat c eq_refl) as (n & Hn & Hle).
    rewrite Nat.add_0_r in Hn. rewrite Hn, take_ge by exact Hle.
    rewrite IH.
    + now rewrite Nat.add_succ_r, app_assoc.
    + intros j chunk Hj. rewrite Nat.add_succ_l, <- Nat.add_succ_r.
      now apply (H (S j)).
Qed.

Lemma data_received_writes k dfd chunks tl :
  data_received answer k (map (DataWrite dfd) chunks ++ tl)
  = data_received answer k (map (DataWrite dfd) chunks)
      ++ data_received answer (k + length chunks) tl.
Proof.
  revert k. induction chunks as [|c l IH]; intros k.
  - cbn [map app length data_received]. now rewrite Nat.add_0_r.
  - cbn [map app data_received length]. rewrite IH.
    now rewrite Nat.add_succ_r, app_assoc.
Qed.

Lemma data_received_bound k dfd chunks :
  (length (data_received answer k (map (DataWrite dfd) chunks))
   <= length (concat chunks))%nat.
Proof.
  revert k. induction chunks as [|c l IH]; intros k; [reflexivity|].
  cbn [map data_received concat]. rewrite !length_app.
  specialize (IH (S k)).
  assert (Hc : (length match answer k with
                       | WTaken n => take n c
                       | _ => []
                       end <= length c)%nat).
  { destruct (answer k); cbn [length]; try lia. rewrite length_take. lia. }
  revert IH Hc. generalize (data_received answer (S k) (map (DataWrite dfd) l)).
  generalize (match answer k with
              | WTaken n => take n c
              | _ => []
              end).
  intros l1 l2 IH Hc. lia.
Qed.

(** What the peer has of a transfer that SIGPIPE ends at its k-th write:
    no more than the pieces before that one. *)
Lemma data_received_cut k dfd chunks pre post :
  forallb parent_event pre = true ->
  forallb parent_event post = true ->
  (k < length chunks)%nat ->
  answer k = WSigpipe ->
  (length (data_received answer 0
             (pre ++ map (DataWrite dfd) (take (S k) chunks) ++ post))
   <= length (concat (take k chunks)))%nat.
Proof.
  intros Hpre Hpost Hk Hsig.
  rewrite (data_received_parent _ _ _ Hpre).
  destruct (lookup_lt_is_Some_2 chunks k Hk) as [c Hc].
  rewrite (take_S_r _ _ _ Hc), map_app, <- app_assoc.
  rewrite data_received_writes. cbn [Nat.add].
  rewrite length_take, Nat.min_l by lia.
  cbn [map app data_received]. rewrite Hsig. cbn [app].
  rewrite (data_received_parent_only _ _ Hpost), app_nil_r.
  apply data_received_bound.
Qed.

End UnderWrites.

Lemma sigpipe_or_not (answer : nat -> write_result) n :
  (forall j, (j < n)%nat -> answer j <> WSigpipe)
  \/ exists k, (k < n)%nat /\ first_sigpipe answer k.
Proof.
  induction n as [|n [IH | (k & Hk & Hf)]].
  - left. intros j Hj. lia.
  - destruct (answer n) eqn:E.
    + left. intros j Hj. destruct (decide (j = n)) as [-> | Hne];
        [congruence | apply IH; lia].
    + left. intros j Hj. destruct (decide (j = n)) as [-> | Hne];
        [congruence | apply IH; lia].
    + right. exists n. split; [lia|]. split; [exact E | exact IH].
  - right. exists k. split; [lia | exact Hf].
Qed.

Lemma exit_status_writes dfd chunks tl :
  exit_status (map (DataWrite dfd) chunks ++ tl) = exit_status tl.
Proof. induction chunks as [|c l IH]; [reflexivity | exact IH]. Qed.

Lemma exit_status_parent l tl :
  forallb parent_event l = true -> exit_status (l ++ tl) = exit_status tl.
Proof.
  induction l as [|e l IH]; [reflexivity|].
  cbn [forallb]. intros H. apply andb_true_iff in H as [He Hl].
  cbn [app]. destruct e; try discriminate He; exact (IH Hl).
Qed.

Lemma data_sent_parent l :
  forallb parent_event l = true -> data_sent l = [].
Proof.
  induction l as [|e l IH]; [reflexivity|].
  cbn [forallb]. intros H. apply andb_true_iff in H as [He Hl].
  destruct e; try discriminate He; exact (IH Hl).
Qed.

(** A transfer whose child writes [chunks] and exits with 0, under the
    answers of write(): the replies are those of the parent; when every
    write is taken whole the trace is as it stands and the peer has all the
    pieces; when the k-th write is the first answered by SIGPIPE, the
    writes up to that one are made, the peer has no more than the pieces
    before it, and the child does not exit. *)
Lemma transfer_under_answers answer client_fd pre dfd chunks post :
  forallb parent_event pre = true ->
  forallb parent_event post = true ->
  let out := pre ++ map (DataWrite dfd) chunks
                 ++ Close dfd :: Exit 0 :: post in
  let tr := under_writes answer 0 false out in
  replies client_fd tr = replies client_fd pre ++ replies client_fd post
  /\ (taken_in_full answer chunks ->
      tr = out
      /\ data_sent tr = concat chunks
      /\ data_received answer 0 tr = concat chunks
      /\ exit_status tr = Some 0)
  /\ (forall k, (k < length chunks)%nat -> first_sigpipe answer k ->
      data_sent tr = concat (take (S k) chunks)
      /\ (length (data_received answer 0 tr)
          <= length (concat (take k chunks)))%nat
      /\ exit_status tr = None).
Proof.
  intros Hpre Hpost out tr.
  destruct (transfer_under_writes answer pre dfd chunks post Hpre Hpost)
    as [Hwhole Hcut].
  fold out in Hwhole, Hcut. fold tr in Hwhole, Hcut.
  assert (Hrw : forall l tl,
             replies client_fd (map (DataWrite dfd) l ++ tl)
             = replies client_fd tl).
  { intros l tl. apply replies_map_other. reflexivity. }
  split; [|split].
  - destruct (sigpipe_or_not answer (length chunks)) as [Hok | (k & Hk & Hf)].
    + rewrite (Hwhole Hok). unfold out.
      rewrite replies_app, Hrw. reflexivity.
    + rewrite (Hcut k Hk Hf). now rewrite replies_app, Hrw.
  - intros Hfull.
    rewrite (Hwhole (taken_in_full_no_sigpipe answer chunks Hfull)).
    unfold out. split; [reflexivity|]. split; [|split].
    + rewrite data_sent_app, data_sent_app, data_sent_writes.
      rewrite (data_sent_parent _ Hpre). cbn [data_sent app].
      now rewrite (data_sent_parent _ Hpost), app_nil_r.
    + rewrite (data_received_parent _ _ _ _ Hpre).
      rewrite data_received_whole by exact Hfull.
      cbn [data_received].
      now rewrite (data_received_parent_only _ _ _ Hpost), app_nil_r.
    + now rewrite (exit_status_parent _ _ Hpre), exit_status_writes.
  - intros k Hk Hf. rewrite (Hcut k Hk Hf). split; [|split].
    + rewrite data_sent_app, data_sent_app, data_sent_writes.
      now rewrite (data_sent_parent _ Hpre), (data_sent_parent _ Hpost),
        app_nil_r.
    + apply data_received_cut; [assumption .. | exact (proj1 Hf)].
    + rewrite (exit_status_parent _ _ Hpre), exit_status_writes.
      rewrite <- (app_nil_r post). now rewrite (exit_status_parent _ _ Hpost).
Qed.

Lemma transfer_sends_under answer client_fd pre dfd chunks pid :
  forallb parent_event pre = true ->
  replies client_fd pre
  = ["150 File status okay; about to open data connection." +:+ CRLF] ->
  sends_under answer client_fd
    (pre ++ map (DataWrite dfd) chunks
         ++ Close dfd :: Exit 0
            :: [Close dfd; Waitpid pid]
                 ++ send_response client_fd "226 Transfer complete.")
    chunks.
Proof.
  intros Hpre Hrep.
  destruct (transfer_under_answers answer client_fd pre dfd chunks
              ([Close dfd; Waitpid pid]
                 ++ send_response client_fd "226 Transfer complete.")
              Hpre eq_refl) as (Hr & Hwhole & Hcut).
  split; [|split; [exact Hwhole | exact Hcut]].
  rewrite Hr, Hrep. cbn [app send_response replies].
  now rewrite Z.eqb_refl.
Qed.

(** X6.  RETR hands the file to write() piece by piece and drops what
    write() returns.  With an endpoint declared, the file present, and
    socket, setsockopt, connect, fork and the child's fopen succeeding,
    the pieces are the content of the file in order, none empty and none
    longer than BUFFER_SIZE, and no file is changed.  The replies are 150
    and 226 however the writes are answered.  When every write is taken
    whole, the peer receives the file byte for byte and the child exits
    with 0.  When the k-th write is the first that meets a connection the
    peer has closed, SIGPIPE ends the child there: the pieces up to that
    one have been handed to write(), the peer has no more than the pieces
    before it, and the child does not exit. *)
Theorem retr_sends_the_file
    (w : World) (st : Server) (client_fd : Z) (i : nat) (s : FTPSession)
    (filename : string) (content : list Byte.byte)
    (answer : nat -> write_result) :
  get_session_index st client_fd = Some i ->
  client_sessions st !! i = Some s ->
  data_port s <> -1 ->
  transfer_forked w = true ->
  files st !! final_path (current_dir s) filename = Some content ->
  w_child_fopen w (final_path (current_dir s) filename) = true ->
  let '(st', out) := Server.handle_retr_command w st client_fd filename in
  let chunks := fread_chunks (length content) content in
  concat chunks = content
  /\ Forall (fun chunk => (0 < length chunk <= BUFFER_SIZE)%nat) chunks
  /\ files st' = files st
  /\ sends_under answer client_fd out chunks.
Proof.
  intros Hi Hs Hport Hfork Hfile Hopen.
  rewrite (retr_goes_through w st client_fd i s filename Hi Hs Hport Hfork
             content Hfile Hopen).
  intros chunks.
  split; [exact (concat_fread_chunks (length content) content (le_n _))|].
  split; [apply fread_chunks_fit|]. split; [reflexivity|].
  apply (transfer_sends_under answer client_fd
           [Socket (w_socket w); Setsockopt (w_socket w) (w_setsockopt w);
            Fopen (final_path (current_dir s) filename) "rb" true;
            Write client_fd
              ("150 File status okay; about to open data connection."
               +:+ CRLF);
            Connect (w_socket w) (data_ip s) (htons (data_port s))
              (w_connect w);
            Fork (w_fork w); Close client_fd;
            Fopen (final_path (current_dir s) filename) "rb" true]
           (w_socket w) chunks (w_fork w) eq_refl).
  cbn [replies]. now rewrite Z.eqb_refl.
Qed.

(** hello.txt, two bytes in one piece: taken whole, the peer has both
    bytes and the child exits with 0; with the connection closed by the
    peer, the peer has nothing, the child does not exit, and the replies
    are 150 and 226. *)
Lemma retr_sends_the_file_witness :
  let st := Scenario.server_with Scenario.alice_port Scenario.files0 in
  let taken := fun _ : nat => WTaken BUFFER_SIZE in
  let closed := fun _ : nat => WSigpipe in
  (get_session_index st 5 = Some 0%nat
   /\ client_sessions st !! 0%nat = Some Scenario.alice_port
   /\ data_port Scenario.alice_port <> -1
   /\ transfer_forked Scenario.world_ok = true
   /\ files st !! final_path "/srv/alice" "hello.txt"
      = Some [Byte.x68; Byte.x69]
   /\ w_child_fopen Scenario.world_ok (final_path "/srv/alice" "hello.txt")
      = true)
  /\ (taken_in_full taken [[Byte.x68; Byte.x69]]
      /\ (0 < length [[Byte.x68; Byte.x69]])%nat
      /\ first_sigpipe closed 0)
  /\ (let out :=
        snd (Server.handle_retr_command Scenario.world_ok st 5 "hello.txt") in
      data_received taken 0 (under_writes taken 0 false out)
      = [Byte.x68; Byte.x69]
      /\ exit_status (under_writes taken 0 false out) = Some 0
      /\ (length (data_received closed 0 (under_writes closed 0 false out))
          <= 0)%nat
      /\ exit_status (under_writes closed 0 false out) = None
      /\ replies 5 (under_writes closed 0 false out)
         = ["150 File status okay; about to open data connection." +:+ CRLF;
            "226 Transfer complete." +:+ CRLF]).
Proof.
  intros st taken closed.
  assert (H : get_session_index st 5 = Some 0%nat
              /\ client_sessions st !! 0%nat = Some Scenario.alice_port
              /\ data_port Scenario.alice_port <> -1
              /\ transfer_forked Scenario.world_ok = true
              /\ files st !! final_path "/srv/alice" "hello.txt"
                 = Some [Byte.x68; Byte.x69]
              /\ w_child_fopen Scenario.world_ok
                   (final_path "/srv/alice" "hello.txt") = true).
  { repeat split; try reflexivity. simpl. lia. }
  assert (Ht : taken_in_full taken [[Byte.x68; Byte.x69]]).
  { intros k chunk Hk. exists BUFFER_SIZE. split; [reflexivity|].
    destruct k as [|k]; [|discriminate Hk].
    injection Hk as <-. unfold BUFFER_SIZE. cbn [length]. lia. }
  assert (Hc : first_sigpipe closed 0).
  { split; [reflexivity|]. intros j Hj. lia. }
  assert (H0 : (0 < length [[Byte.x68; Byte.x69]])%nat) by (cbn [length]; lia).
  split; [exact H|]. split; [split; [exact Ht | split; [exact H0 | exact Hc]]|].
  destruct H as (H1 & H2 & H3 & H4 & H5 & H6).
  pose proof (retr_sends_the_file Scenario.world_ok st 5 0 Scenario.alice_port
                "hello.txt" [Byte.x68; Byte.x69] taken H1 H2 H3 H4 H5 H6)
    as Ha.
  pose proof (retr_sends_the_file Scenario.world_ok st 5 0 Scenario.alice_port
                "hello.txt" [Byte.x68; Byte.x69] closed H1 H2 H3 H4 H5 H6)
    as Hb.
  destruct (Server.handle_retr_command _ _ _ _) as [st' out].
  cbv zeta in Ha, Hb. cbn [snd].
  destruct Ha as (_ & _ & _ & _ & Ha & _).
  destruct Hb as (_ & _ & _ & Hr & _ & Hb).
  destruct (Ha Ht) as (_ & _ & Ha3 & Ha4).
  destruct (Hb 0%nat H0 Hc) as (_ & Hb2 & Hb3).
  split; [exact Ha3|]. split; [exact Ha4|]. split; [exact Hb2|].
  split; [exact Hb3 | exact Hr].
Defined.



(** ** A client's upload and download, end to end *)

Section Conversation.

Variables (cmd0 arg0 : string) (client_fd : Z) (i : nat).

Lemma transfer_lines_served w st filename :
  get_session_index st client_fd = Some i ->
  authenticated (session_at st i) = true ->
  is_word filename = true -> one_line filename = true ->
  Server.handle_command w cmd0 arg0 st client_fd
    (Server.c_line (Client.send_command ("STOR " +:+ filename)))
  = Server.handle_stor_command w st client_fd filename
  /\ Server.handle_command w cmd0 arg0 st client_fd
       (Server.c_line (Client.send_command ("RETR " +:+ filename)))
     = Server.handle_retr_command w st client_fd filename.
Proof.
  intros Hi Hauth Hw Hl. split.
  - change ("STOR " +:+ filename) with ("STOR" +:+ " " +:+ filename).
    rewrite (line_of_verb_arg "STOR" filename eq_refl Hl).
    unfold Server.handle_command.
    rewrite (sscanf_verb_arg "STOR" filename eq_refl Hw).
    cbv beta iota. change (2 <? 1) with false. cbv iota.
    rewrite Hi. eval_streq. rewrite Hauth. reflexivity.
  - change ("RETR " +:+ filename) with ("RETR" +:+ " " +:+ filename).
    rewrite (line_of_verb_arg "RETR" filename eq_refl Hl).
    unfold Server.handle_command.
    rewrite (sscanf_verb_arg "RETR" filename eq_refl Hw).
    cbv beta iota. change (2 <? 1) with false. cbv iota.
    rewrite Hi. eval_streq. rewrite Hauth. reflexivity.
Qed.

Lemma index_after_update st f :
  (forall s, control_fd (f s) = control_fd s) ->
  get_session_index st client_fd = Some i ->
  get_session_index (update_session i f st) client_fd = Some i.
Proof. intros Hf Hi. now rewrite get_session_index_update. Qed.

End Conversation.

(** X8.  What a client uploads it downloads again.  The client's STOR
    writes PORT and STOR to the control connection, its RETR writes PORT
    and RETR; served in this order on an authenticated session, with the
    system calls of both transfers succeeding and the client sending
    non-empty chunks on the data connection of the upload, the bytes the
    server writes to the data connection of the download are the chunks
    of the upload in order, the file is stored under the final name, and
    the replies are 200, 150, 226, 200, 150, 226. *)
Theorem client_upload_then_download
    (cmd0 arg0 : string) (st : Server) (client_fd : Z) (i : nat)
    (s : FTPSession) (filename : string) (chunks : list (list Byte.byte))
    (p1 p2 : Z) (w1 wu w2 wd : World) :
  get_session_index st client_fd = Some i ->
  client_sessions st !! i = Some s ->
  authenticated s = true ->
  is_word filename = true -> one_line filename = true ->
  0 <= p1 < 65536 -> 0 <= p2 < 65536 ->
  transfer_forked wu = true ->
  w_data_in wu = sends chunks ->
  Forall (fun chunk => chunk <> []) chunks ->
  w_child_fopen wu (temp_path wu (current_dir s) filename) = true ->
  w_rename wu (temp_path wu (current_dir s) filename)
              (final_path (current_dir s) filename) = 0 ->
  transfer_forked wd = true ->
  w_child_fopen wd (final_path (current_dir s) filename) = true ->
  let '(st', out) :=
    serve_lines cmd0 arg0 client_fd st
      (zip [w1; wu; w2; wd]
           (Client.handle_stor_command true p1 filename
            ++ Client.handle_retr_command true p2 filename)) in
  data_sent out = concat chunks
  /\ files st' !! final_path (current_dir s) filename = Some (concat chunks)
  /\ replies client_fd out
     = map (fun r => r +:+ CRLF)
           ["200 PORT command successful.";
            "150 File status okay; about to open data connection.";
            "226 Transfer complete.";
            "200 PORT command successful.";
            "150 File status okay; about to open data connection.";
            "226 Transfer complete."].
Proof.
  intros Hi Hs Hauth Hw Hl Hp1 Hp2 Hfu Hin Hchunks Hopenu Hren Hfd Hopend.
  set (g1 := fun s => set_data_port p1 (set_data_ip "127.0.0.1" s)).
  set (g2 := fun s => set_data_port p2 (set_data_ip "127.0.0.1" s)).
  set (F := <[final_path (current_dir s) filename
              := stor_receive (sends chunks)]>
              (delete (temp_path wu (current_dir s) filename) (files st))).
  set (st1 := update_session i g1 st).
  set (st2 := update_session i forget_endpoint (set_files F st1)).
  set (st3 := update_session i g2 st2).
  assert (Hi1 : get_session_index st1 client_fd = Some i)
    by (apply index_after_update; [reflexivity | exact Hi]).
  assert (Hs1 : client_sessions st1 !! i = Some (g1 s))
    by (apply update_lookup, Hs).
  assert (Hi2 : get_session_index st2 client_fd = Some i)
    by (apply index_after_update; [reflexivity | exact Hi1]).
  assert (Hs2 : client_sessions st2 !! i = Some (forget_endpoint (g1 s))).
  { apply (update_lookup (set_files F st1)). exact Hs1. }
  assert (Hi3 : get_session_index st3 client_fd = Some i)
    by (apply index_after_update; [reflexivity | exact Hi2]).
  assert (Hs3 : client_sessions st3 !! i = Some (g2 (forget_endpoint (g1 s))))
    by (apply update_lookup, Hs2).
  cbn [Client.handle_stor_command Client.handle_retr_command app zip zip_with
       serve_lines].
  (* PORT *)
  rewrite (port_line_served w1 cmd0 arg0 st client_fd i p1 Hi
             ltac:(now rewrite (session_at_lookup _ _ _ Hs)) Hp1).
  fold g1. fold st1.
  (* STOR *)
  rewrite (proj1 (transfer_lines_served cmd0 arg0 client_fd i wu st1 filename
                    Hi1 ltac:(now rewrite (session_at_lookup _ _ _ Hs1))
                    Hw Hl)).
  rewrite (stor_goes_through wu st1 client_fd i (g1 s) filename Hi1 Hs1
             ltac:(simpl; lia) Hfu chunks Hin Hopenu Hren).
  change (files st1) with (files st). change (current_dir (g1 s)) with (current_dir s).
  fold F.  fold st2.
  (* PORT *)
  rewrite (port_line_served w2 cmd0 arg0 st2 client_fd i p2 Hi2
             ltac:(now rewrite (session_at_lookup _ _ _ Hs2)) Hp2).
  fold g2. fold st3.
  (* RETR *)
  rewrite (proj2 (transfer_lines_served cmd0 arg0 client_fd i wd st3 filename
                    Hi3 ltac:(now rewrite (session_at_lookup _ _ _ Hs3))
                    Hw Hl)).
  assert (Hfile : files st3 !! final_path (current_dir s) filename
                  = Some (concat chunks)).
  { change (files st3) with F. unfold F.
    rewrite lookup_insert_eq. now rewrite stor_receive_sends. }
  rewrite (retr_goes_through wd st3 client_fd i (g2 (forget_endpoint (g1 s))) filename
             Hi3 Hs3 ltac:(simpl; lia) Hfd (concat chunks) Hfile Hopend).
  split; [|split].
  - rewrite !data_sent_app. cbn [app send_response data_sent].
    rewrite data_sent_reads, data_sent_writes, !app_nil_r.
    now apply concat_fread_chunks.
  - exact Hfile.
  - assert (Hr : forall A (f : A -> event) l,
               (forall x, replies client_fd [f x] = []) ->
               replies client_fd (map f l) = []).
    { intros A f l Hf. rewrite <- (app_nil_r (map f l)).
      now rewrite replies_map_other. }
    rewrite !replies_app. cbn [send_response replies app map].
    rewrite !Z.eqb_refl, !Hr by reflexivity. reflexivity.
Qed.

Lemma client_upload_then_download_witness :
  let st := Scenario.server_with Scenario.alice Scenario.files0 in
  let wu := Scenario.world_with 0 4242 true
              (sends [[Byte.x61; Byte.x62]; [Byte.x63]]) in
  data_sent
    (snd (serve_lines EmptyString EmptyString 5 st
            (zip [Scenario.world_ok; wu; Scenario.world_ok; Scenario.world_ok]
                 (Client.handle_stor_command true 5000 "doc.bin"
                  ++ Client.handle_retr_command true 5001 "doc.bin"))))
  = [Byte.x61; Byte.x62; Byte.x63].
Proof.
  intros st wu.
  assert (Hc : Forall (fun chunk : list Byte.byte => chunk <> [])
                      [[Byte.x61; Byte.x62]; [Byte.x63]]).
  { repeat (apply List.Forall_cons; [discriminate|]). apply List.Forall_nil. }
  pose proof (client_upload_then_download EmptyString EmptyString st 5 0
                Scenario.alice "doc.bin" [[Byte.x61; Byte.x62]; [Byte.x63]]
                5000 5001 Scenario.world_ok wu Scenario.world_ok
                Scenario.world_ok eq_refl eq_refl eq_refl eq_refl eq_refl
                ltac:(lia) ltac:(lia) eq_refl eq_refl Hc eq_refl eq_refl
                eq_refl eq_refl) as H.
  destruct (serve_lines _ _ _ _ _) as [st' out].
  exact (proj1 H).
Defined.

(** ** Before and at login *)

Section Login.

Variables (w : World) (st : Server) (client_fd : Z) (i : nat) (s : FTPSession).
Hypothesis Hi : get_session_index st client_fd = Some i.
Hypothesis Hs : client_sessions st !! i = Some s.

Lemma user_keeps_flag name :
  authenticated (session_at (fst (handle_user_command st client_fd name)) i)
  = authenticated s.
Proof.
  unfold handle_user_command. rewrite Hi.
  destruct (user_exists _ _); cbn [fst].
  - now rewrite (session_at_update _ _ _ _ Hs).
  - now rewrite (session_at_lookup _ _ _ Hs).
Qed.

Lemma clean_up_clears_flag :
  authenticated (session_at (fst (clean_up_session i st)) i) = false.
Proof.
  unfold clean_up_session. cbn [fst].
  now rewrite (session_at_update _ _ _ _ Hs).
Qed.

Lemma pass_sets_flag password :
  authenticated s = false ->
  authenticated
    (session_at (fst (handle_pass_command w st client_fd password)) i) = true ->
  username s <> EmptyString
  /\ authenticate_user (users st) (username s) password = true.
Proof.
  intros Hoff. unfold handle_pass_command.
  rewrite Hi, (session_at_lookup _ _ _ Hs).
  destruct (String.eqb (username s) EmptyString) eqn:En; cbn [negb fst].
  - rewrite (session_at_lookup _ _ _ Hs). congruence.
  - destruct (authenticate_user _ _ _) eqn:Ea; cbn [fst].
    + intros _. split; [now apply String.eqb_neq | reflexivity].
    + rewrite (session_at_lookup _ _ _ Hs). congruence.
Qed.

Lemma clean_up_quiet_state :
  users (fst (clean_up_session i st)) = users st
  /\ files (fst (clean_up_session i st)) = files st
  /\ rnfr_filename (fst (clean_up_session i st)) = rnfr_filename st
  /\ forallb pre_login_event (snd (clean_up_session i st)) = true.
Proof.
  unfold clean_up_session. cbn [fst snd].
  repeat split. now destruct (_ =? _).
Qed.

End Login.

(** X9.  Only PASS with the right password logs a session in.  If a
    session that is not authenticated is authenticated after a line has
    been served, in either version of the server, then the verb of the
    line was PASS, a user name had been given before, and the password
    handed over (the second word of the line, or what the argument buffer
    held when the line has one word) is that user's password in the
    store. *)
Theorem only_pass_authenticates
    (w : World) (cmd0 arg0 : string) (st : Server) (client_fd : Z) (i : nat)
    (s : FTPSession) (command : string) :
  get_session_index st client_fd = Some i ->
  client_sessions st !! i = Some s ->
  authenticated s = false ->
  authenticated
    (session_at (fst (Server.handle_command w cmd0 arg0 st client_fd command))
                i) = true
  \/ authenticated
       (session_at
          (fst (ServerDoc.handle_command w cmd0 arg0 st client_fd command))
          i) = true ->
  exists n password,
    sscanf_s_s command cmd0 arg0 = (n, "PASS"%string, password)
    /\ 1 <= n
    /\ username s <> EmptyString
    /\ authenticate_user (users st) (username s) password = true.
Proof.
  intros Hi Hs Hoff.
  unfold Server.handle_command, ServerDoc.handle_command.
  destruct (sscanf_s_s command cmd0 arg0) as [[n cmd] arg].
  destruct (n <? 1) eqn:En.
  { cbn [fst]. rewrite (session_at_lookup _ _ _ Hs). intros [H|H]; congruence. }
  rewrite Hi.
  destruct (streq cmd "USER").
  { rewrite (user_keeps_flag st client_fd i s Hi Hs).
    intros [H|H]; congruence. }
  destruct (streq cmd "PASS") eqn:Ep.
  { apply String.eqb_eq in Ep. subst cmd. intros H.
    assert (H' : authenticated
                   (session_at (fst (handle_pass_command w st client_fd arg)) i)
                 = true) by tauto.
    destruct (pass_sets_flag w st client_fd i s Hi Hs arg Hoff H') as [H1 H2].
    exists n, arg. apply Z.ltb_ge in En. auto. }
  destruct (streq cmd "QUIT").
  { unfold Server.handle_quit_command, ServerDoc.handle_quit_command.
    rewrite Hi.
    pose proof (clean_up_clears_flag st i s Hs) as Hc.
    destruct (clean_up_session i st) as [st' closed]. cbn [fst] in *.
    intros [H|H]; congruence. }
  rewrite (session_at_lookup _ _ _ Hs), Hoff. cbn [negb fst].
  rewrite (session_at_lookup _ _ _ Hs). intros [H|H]; congruence.
Qed.

Lemma only_pass_authenticates_witness :
  let st := Scenario.server_with Scenario.alice_named Scenario.files0 in
  exists n password,
    sscanf_s_s "PASS wonderland" EmptyString EmptyString
    = (n, "PASS"%string, password)
    /\ 1 <= n
    /\ username Scenario.alice_named <> EmptyString
    /\ authenticate_user (users st) (username Scenario.alice_named) password
       = true.
Proof.
  intros st.
  apply (only_pass_authenticates Scenario.world_ok EmptyString EmptyString st 5
           0 Scenario.alice_named "PASS wonderland");
    [reflexivity | reflexivity | reflexivity | left; reflexivity].
Defined.

(** X10.  Before login a connection reaches nothing but the login itself:
    whatever line a session that is not authenticated sends, in either
    version of the server, the files, the pending renames and the user
    table are as before, and the server writes replies, makes the mkdir
    of a successful login, closes descriptors in QUIT, and does nothing
    else: no socket, no connect, no fork, no open, no unlink, no
    rename. *)
Theorem nothing_before_login
    (w : World) (cmd0 arg0 : string) (st : Server) (client_fd : Z) (i : nat)
    (s : FTPSession) (command : string) :
  get_session_index st client_fd = Some i ->
  client_sessions st !! i = Some s ->
  authenticated s = false ->
  (let '(st', out) := Server.handle_command w cmd0 arg0 st client_fd command in
   users st' = users st /\ files st' = files st
   /\ rnfr_filename st' = rnfr_filename st
   /\ forallb pre_login_event out = true)
  /\ (let '(st', out) :=
        ServerDoc.handle_command w cmd0 arg0 st client_fd command in
      users st' = users st /\ files st' = files st
      /\ rnfr_filename st' = rnfr_filename st
      /\ forallb pre_login_event out = true).
Proof.
  intros Hi Hs Hoff.
  unfold Server.handle_command, ServerDoc.handle_command.
  destruct (sscanf_s_s command cmd0 arg0) as [[n cmd] arg].
  destruct (n <? 1); [repeat split|].
  rewrite Hi.
  destruct (streq cmd "USER").
  { unfold handle_user_command. rewrite Hi.
    destruct (user_exists _ _); repeat split. }
  destruct (streq cmd "PASS").
  { unfold handle_pass_command. rewrite Hi.
    destruct (negb _); [|repeat split].
    destruct (authenticate_user _ _ _); repeat split. }
  destruct (streq cmd "QUIT").
  { unfold Server.handle_quit_command, ServerDoc.handle_quit_command.
    rewrite Hi.
    destruct (clean_up_quiet_state st i) as (H1 & H2 & H3 & H4).
    destruct (clean_up_session i st) as [st' closed]. cbn [fst snd] in *.
    repeat split; try assumption.
    cbn [send_response app forallb pre_login_event andb].
    rewrite forallb_app, H4. reflexivity. }
  rewrite (session_at_lookup _ _ _ Hs), Hoff. repeat split.
Qed.

Lemma nothing_before_login_witness :
  let st := Scenario.server_with Scenario.alice_named Scenario.files0 in
  let '(st', out) :=
    Server.handle_command Scenario.world_ok EmptyString EmptyString st 5
      "DELE hello.txt" in
  users st' = users st /\ files st' = files st
  /\ rnfr_filename st' = rnfr_filename st
  /\ forallb pre_login_event out = true.
Proof.
  intros st.
  apply (nothing_before_login Scenario.world_ok EmptyString EmptyString st 5 0
           Scenario.alice_named "DELE hello.txt"); reflexivity.
Defined.

Lemma serve_lines_app cmd0 arg0 fd st l1 l2 :
  serve_lines cmd0 arg0 fd st (l1 ++ l2)
  = (let '(st1, out1) := serve_lines cmd0 arg0 fd st l1 in
     let '(st2, out2) := serve_lines cmd0 arg0 fd st1 l2 in
     (st2, out1 ++ out2)).
Proof.
  revert st. induction l1 as [|[w bytes] l1 IH]; intros st.
  - cbn [app serve_lines]. now destruct (serve_lines _ _ _ _ _).
  - cbn [app serve_lines].
    destruct (Server.handle_command _ _ _ _ _ _) as [sta outa].
    rewrite IH. destruct (serve_lines cmd0 arg0 fd sta l1) as [stb outb].
    destruct (serve_lines cmd0 arg0 fd stb l2) as [stc outc].
    now rewrite app_assoc.
Qed.

Lemma login_served
    (w1 w2 : World) (cmd0 arg0 : string) (st : Server) (client_fd : Z)
    (i : nat) (s : FTPSession) (name password : string) :
  get_session_index st client_fd = Some i ->
  client_sessions st !! i = Some s ->
  Forall (fun usr => (String.length (user_username usr) < MAX_USERNAME)%nat)
         (users st) ->
  authenticate_user (users st) name password = true ->
  is_word name = true -> one_line name = true ->
  is_word password = true -> one_line password = true ->
  serve_lines cmd0 arg0 client_fd st
    [(w1, Client.handle_user_command name);
     (w2, Client.handle_pass_command password)]
  = (update_session i
       (fun s0 => set_current_dir (root_dir s +:+ "/" +:+ name)
                    (set_authenticated true s0))
       (update_session i (set_username name) st),
     send_response client_fd "331 Username OK, need password."
     ++ Mkdir (root_dir s +:+ "/" +:+ name)
              (w_mkdir w2 (root_dir s +:+ "/" +:+ name))
        :: send_response client_fd "230 User logged in, proceed.").
Proof.
  intros Hi Hs Hlen Hauth Hn Hn1 Hp Hp1.
  assert (Hex : user_exists (users st) name = true).
  { unfold authenticate_user, user_exists in *.
    apply existsb_exists in Hauth as (u & Hin & Hu).
    apply andb_true_iff in Hu as [Hu _].
    apply existsb_exists. now exists u. }
  pose proof (user_exists_length _ _ Hlen Hex) as Hshort.
  destruct (is_word_spec _ Hn) as [Hne _].
  set (st1 := update_session i (set_username name) st).
  assert (Hi1 : get_session_index st1 client_fd = Some i)
    by (apply index_after_update; [reflexivity | exact Hi]).
  assert (Hs1 : client_sessions st1 !! i = Some (set_username name s))
    by (apply update_lookup, Hs).
  cbn [serve_lines].
  destruct (typed_login_lines w1 cmd0 arg0 name password st client_fd i
              Hn Hn1 Hp Hp1 Hi) as [E1 _].
  rewrite E1. unfold handle_user_command at 1.
  rewrite Hi, Hex, (strncpy_short _ _ Hshort). fold st1.
  destruct (typed_login_lines w2 cmd0 arg0 name password st1 client_fd i
              Hn Hn1 Hp Hp1 Hi1) as [_ E2].
  rewrite E2. unfold handle_pass_command.
  rewrite Hi1, (session_at_lookup _ _ _ Hs1).
  cbn [username set_username root_dir].
  apply String.eqb_neq in Hne. rewrite Hne. cbn [negb].
  change (users st1) with (users st). rewrite Hauth.
  now rewrite app_nil_r.
Qed.

(** X11.  USER then PASS, as the client writes them, log in: for a user
    of the store whose name fits its field, on any session, the replies
    are 331 and 230, the session is authenticated under that name, its
    current directory is root_dir/name, which the server tries to create,
    and no file is touched. *)
Theorem user_then_pass_logs_in
    (w1 w2 : World) (cmd0 arg0 : string) (st : Server) (client_fd : Z)
    (i : nat) (s : FTPSession) (name password : string) :
  get_session_index st client_fd = Some i ->
  client_sessions st !! i = Some s ->
  Forall (fun usr => (String.length (user_username usr) < MAX_USERNAME)%nat)
         (users st) ->
  authenticate_user (users st) name password = true ->
  is_word name = true -> one_line name = true ->
  is_word password = true -> one_line password = true ->
  let '(st', out) :=
    serve_lines cmd0 arg0 client_fd st
      [(w1, Client.handle_user_command name);
       (w2, Client.handle_pass_command password)] in
  replies client_fd out
  = ["331 Username OK, need password." +:+ CRLF;
     "230 User logged in, proceed." +:+ CRLF]
  /\ auth_state_of (session_at st' i) = Authenticated name
  /\ current_dir (session_at st' i) = root_dir s +:+ "/" +:+ name
  /\ In (Mkdir (root_dir s +:+ "/" +:+ name)
               (w_mkdir w2 (root_dir s +:+ "/" +:+ name))) out
  /\ files st' = files st.
Proof.
  intros Hi Hs Hlen Hauth Hn Hn1 Hp Hp1.
  rewrite (login_served w1 w2 cmd0 arg0 st client_fd i s name password
             Hi Hs Hlen Hauth Hn Hn1 Hp Hp1).
  assert (Hs1 : client_sessions (update_session i (set_username name) st) !! i
                = Some (set_username name s)) by (apply update_lookup, Hs).
  rewrite (session_at_update _ _ _ _ Hs1).
  cbn [send_response app replies]. rewrite !Z.eqb_refl.
  repeat split.
  right. left. reflexivity.
Qed.

Lemma user_then_pass_logs_in_witness :
  let st := Scenario.server_with Scenario.alice Scenario.files0 in
  auth_state_of
    (session_at
       (fst (serve_lines EmptyString EmptyString 5 st
               [(Scenario.world_ok, Client.handle_user_command "bob");
                (Scenario.world_ok, Client.handle_pass_command "donuts")]))
       0)
  = Authenticated "bob".
Proof.
  intros st.
  assert (Hlen : Forall (fun usr =>
                           (String.length (user_username usr)
                            < MAX_USERNAME)%nat) (users st)).
  { repeat (apply List.Forall_cons; [unfold MAX_USERNAME; simpl; lia|]).
    apply List.Forall_nil. }
  pose proof (user_then_pass_logs_in Scenario.world_ok Scenario.world_ok
                EmptyString EmptyString st 5 0 Scenario.alice "bob" "donuts"
                eq_refl eq_refl Hlen eq_refl eq_refl eq_refl eq_refl eq_refl)
    as H.
  destruct (serve_lines _ _ _ _ _) as [st' out].
  exact (proj1 (proj2 H)).
Defined.

(** ** One connection at a time *)

Section OwnSlot.

Variables (w : World) (st : Server) (fd : Z) (i : nat).
Hypothesis Hi : get_session_index st fd = Some i.

Ltac same :=
  split; [reflexivity
         | exists (fun s => s); split;
           [reflexivity | symmetry; apply list_alter_id; reflexivity]].

Ltac changed :=
  split; [reflexivity
         | eexists; split; [|reflexivity]; intros; reflexivity].

Ltac own := cbn [fst]; first [same | changed].






Ltac first_checks :=
  rewrite Hi;
  destruct (data_port _ =? -1); [own|];
  destruct (w_socket w <? 0); [own|];
  destruct (w_setsockopt w <? 0); [own|].









End OwnSlot.



(** ** What the loop of main hands to handle_command *)

Lemma bytes_of_line s :
  s <> EmptyString ->
  exists b bs, list_byte_of_string s = b :: bs.
Proof. destruct s as [|c s]; [congruence|]. intros _. simpl. eauto. Qed.

(** X13.  Of the bytes one read returns on a control connection only the
    first line is served: what follows the first line end is dropped
    without reply, so a second command sent in the same segment is
    lost. *)
Theorem only_the_first_line_is_served
    (w : World) (cmd0 arg0 : string) (m : Server.Main) (fd : Z)
    (line rest : string) :
  one_line line = true ->
  Server.client_data w cmd0 arg0 m fd
    (RBytes (list_byte_of_string (line +:+ CRLF +:+ rest)))
  = Server.client_data w cmd0 arg0 m fd
      (RBytes (list_byte_of_string (line +:+ CRLF)))
  /\ snd (Server.client_data w cmd0 arg0 m fd
            (RBytes (list_byte_of_string (line +:+ CRLF +:+ rest))))
     = snd (Server.handle_command w cmd0 arg0 (Server.srv m) fd line).
Proof.
  intros Hl.
  assert (H : forall tail,
             Server.client_data w cmd0 arg0 m fd
               (RBytes (list_byte_of_string (line +:+ CRLF +:+ tail)))
             = (let '(st', evs) :=
                  Server.handle_command w cmd0 arg0 (Server.srv m) fd line in
                (Server.mkMain st' (Server.server_fd m) (Server.master_fds m)
                   (Server.max_fd m)
                   (if Server.closes fd evs
                    then {[fd]} ∪ Server.closed_fds m
                    else Server.closed_fds m), evs))).
  { intros tail.
    destruct (bytes_of_line (line +:+ CRLF +:+ tail)) as (b & bs & E).
    { destruct line; discriminate. }
    rewrite E. unfold Server.client_data. rewrite <- E.
    rewrite string_of_list_byte_of_string, (c_line_line _ _ Hl).
    reflexivity. }
  split.
  - rewrite (H rest). pose proof (H EmptyString) as H0.
    rewrite append_empty_r in H0. now rewrite H0.
  - rewrite (H rest).
    now destruct (Server.handle_command w cmd0 arg0 (Server.srv m) fd line).
Qed.

Lemma only_the_first_line_is_served_witness :
  one_line "USER alice" = true
  /\ Server.client_data Scenario.world_ok EmptyString EmptyString
       Scenario.main_full 5
       (RBytes (list_byte_of_string
                  ("USER alice" +:+ CRLF +:+ "PASS wonderland" +:+ CRLF)))
     = Server.client_data Scenario.world_ok EmptyString EmptyString
         Scenario.main_full 5
         (RBytes (list_byte_of_string ("USER alice" +:+ CRLF))).
Proof.
  split; [reflexivity|].
  apply (only_the_first_line_is_served Scenario.world_ok EmptyString
           EmptyString Scenario.main_full 5 "USER alice"
           ("PASS wonderland" +:+ CRLF)).
  reflexivity.
Defined.

(** X14.  In code/server.c a QUIT of a connection that has a session ends
    the process: the handler replies 221 and closes the control socket,
    which the loop leaves in the set it selects on, so that whatever the
    next turn brings, select fails and main exits. *)
Theorem quit_ends_the_process
    (w : World) (cmd0 arg0 : string) (m : Server.Main) (fd : Z) (i : nat)
    (b : Byte.byte) (bs : list Byte.byte) (n : Z) (arg : string) :
  get_session_index (Server.srv m) fd = Some i ->
  sscanf_s_s (Server.c_line (string_of_list_byte (b :: bs))) cmd0 arg0
  = (n, "QUIT"%string, arg) ->
  1 <= n ->
  let '(m', out) := Server.client_data w cmd0 arg0 m fd (RBytes (b :: bs)) in
  hd_error out
  = Some (Write fd ("221 Service closing control connection." +:+ CRLF))
  /\ last out = Some (Close fd)
  /\ Server.master_fds m' = Server.master_fds m
  /\ forall it, Server.iteration m' it = None.
Proof.
  intros Hi Hscan Hn.
  unfold Server.client_data, Server.handle_command.
  rewrite Hscan. cbv beta iota.
  apply Z.ltb_ge in Hn. rewrite Hn, Hi. eval_streq.
  unfold Server.handle_quit_command. rewrite Hi.
  unfold clean_up_session.
  set (closed := if data_fd (session_at (Server.srv m) i) =? -1
                 then [] else [Close (data_fd (session_at (Server.srv m) i))]).
  assert (Hc : Server.closes fd
                 (send_response fd "221 Service closing control connection."
                  ++ closed ++ [Close fd]) = true).
  { unfold Server.closes, closed.
    destruct (_ =? -1);
      cbn [send_response app Server.parent_events existsb];
      rewrite Z.eqb_refl; now rewrite ?orb_true_r. }
  rewrite Hc. split; [reflexivity|]. split; [|split; [reflexivity|]].
  - unfold closed. now destruct (_ =? -1).
  - intros it. unfold Server.iteration. cbn [Server.closed_fds].
    rewrite bool_decide_false; [reflexivity|]. set_solver.
Qed.

Lemma quit_ends_the_process_witness :
  let '(m', out) :=
    Server.client_data Scenario.world_ok EmptyString EmptyString
      Scenario.main_full 5 (RBytes (list_byte_of_string ("QUIT" +:+ CRLF))) in
  hd_error out
  = Some (Write 5 ("221 Service closing control connection." +:+ CRLF))
  /\ last out = Some (Close 5)
  /\ Server.master_fds m' = Server.master_fds Scenario.main_full
  /\ forall it, Server.iteration m' it = None.
Proof.
  apply (quit_ends_the_process Scenario.world_ok EmptyString EmptyString
           Scenario.main_full 5 1 Byte.x51
           (list_byte_of_string ("UIT" +:+ CRLF)) 1 EmptyString);
    [reflexivity | reflexivity | lia].
Defined.

(** X15.  In the documented version QUIT frees the session and leaves the
    control socket open: for a descriptor that only one slot holds, and
    that is not also the data descriptor of that slot, the handler
    replies 221 and does not close the descriptor, where the QUIT of
    code/server.c closes it; every line that arrives on the descriptor
    afterwards finds no session and is answered 500 without effect. *)
Theorem documented_quit_keeps_the_connection
    (st : Server) (fd : Z) (i : nat) (s : FTPSession) :
  get_session_index st fd = Some i ->
  client_sessions st !! i = Some s ->
  fd <> -1 ->
  data_fd s <> fd ->
  (forall j s', j <> i -> client_sessions st !! j = Some s' ->
                control_fd s' <> fd) ->
  let '(st1, out1) := ServerDoc.handle_quit_command st fd in
  replies fd out1 = ["221 Service closing control connection." +:+ CRLF]
  /\ ~ In (Close fd) out1
  /\ In (Close fd) (snd (Server.handle_quit_command st fd))
  /\ get_session_index st1 fd = None
  /\ forall w cmd0 arg0 command,
       ServerDoc.handle_command w cmd0 arg0 st1 fd command
       = (st1, [Write fd (reply_without_session command)]).
Proof.
  intros Hi Hs Hfd Hdata Huniq.
  unfold ServerDoc.handle_quit_command, Server.handle_quit_command.
  rewrite Hi.
  unfold clean_up_session. rewrite (session_at_lookup _ _ _ Hs).
  set (st1 := update_session i _ st).
  assert (Hnone : get_session_index st1 fd = None).
  { apply find_session_None. unfold st1, update_session.
    cbn [client_sessions set_sessions].
    apply Forall_lookup. intros j s' Hj.
    destruct (decide (j = i)) as [->|Hne].
    - rewrite list_lookup_alter_eq, Hs in Hj.
      inversion Hj; subst. cbn. lia.
    - rewrite list_lookup_alter_ne in Hj by congruence.
      exact (Huniq j s' Hne Hj). }
  split; [|split; [|split; [|split; [exact Hnone|]]]].
  - cbn [send_response app replies]. rewrite Z.eqb_refl.
    destruct (_ =? -1); reflexivity.
  - cbn [send_response app]. intros [H | H]; [discriminate H|].
    destruct (data_fd s =? -1); [exact H|].
    destruct H as [H | H]; [|exact H]. inversion H. contradiction.
  - cbn [snd]. apply in_or_app. right. apply in_or_app. right.
    left. reflexivity.
  - intros w cmd0 arg0 command.
    unfold ServerDoc.handle_command, reply_without_session, sscanf_s_s.
    destruct (scan_s command) as [[cmd rest]|]; [|reflexivity].
    destruct (scan_s (skip_space rest)) as [[arg ?]|];
      cbv beta iota; rewrite Hnone; reflexivity.
Qed.

Lemma documented_quit_keeps_the_connection_witness :
  let st := Scenario.server_with Scenario.alice Scenario.files0 in
  let '(st1, out1) := ServerDoc.handle_quit_command st 5 in
  replies 5 out1 = ["221 Service closing control connection." +:+ CRLF]
  /\ ~ In (Close 5) out1
  /\ In (Close 5) (snd (Server.handle_quit_command st 5))
  /\ get_session_index st1 5 = None
  /\ forall w cmd0 arg0 command,
       ServerDoc.handle_command w cmd0 arg0 st1 5 command
       = (st1, [Write 5 (reply_without_session command)]).
Proof.
  intros st.
  apply (documented_quit_keeps_the_connection st 5 0 Scenario.alice);
    [reflexivity | reflexivity | lia | simpl; lia |].
  intros j s Hj Hs. destruct j as [|j]; [congruence|].
  change (client_sessions st !! S j) with (replicate 9 free_slot !! j) in Hs.
  apply lookup_replicate in Hs as [-> _]. simpl. lia.
Defined.

(** X16.  A PORT whose last two numbers give p1 * 256 + p2 = -1 is
    answered 200 and declares nothing: -1 is the mark of an undeclared
    endpoint, the session has no pending endpoint afterwards and the next
    LIST is refused with 425. *)
Theorem port_minus_one_declares_nothing
    (w : World) (st : Server) (client_fd : Z) (i : nat)
    (h1 h2 h3 h4 p1 p2 : Z) :
  get_session_index st client_fd = Some i ->
  Forall fits_int [h1; h2; h3; h4; p1; p2] ->
  p1 * 256 + p2 = -1 ->
  let '(st', out) :=
    handle_port_command st client_fd
      (fmt_d h1 +:+ "," +:+ fmt_d h2 +:+ "," +:+ fmt_d h3 +:+ ","
       +:+ fmt_d h4 +:+ "," +:+ fmt_d p1 +:+ "," +:+ fmt_d p2) in
  out = send_response client_fd "200 PORT command successful."
  /\ pending_data_endpoint (session_at st' i) = None
  /\ Server.handle_list_command w st' client_fd
     = (st', send_response client_fd "425 Can't open data connection.").
Proof.
  intros Hi Hfit Hsum.
  destruct (get_session_index_Some _ _ _ Hi) as (s & Hs & _).
  pose proof (sscanf_6d_print h1 h2 h3 h4 p1 p2 EmptyString eq_refl) as H6.
  rewrite append_empty_r in H6.
  unfold handle_port_command. rewrite Hi, H6. cbn [map].
  apply Forall_cons in Hfit as [F1 Hfit]. apply Forall_cons in Hfit as [F2 Hfit].
  apply Forall_cons in Hfit as [F3 Hfit]. apply Forall_cons in Hfit as [F4 Hfit].
  apply Forall_cons in Hfit as [F5 Hfit]. apply Forall_cons in Hfit as [F6 _].
  rewrite (scan_int_small p1 F5), (scan_int_small p2 F6), Hsum.
  change (wrap_int (-1)) with (-1).
  set (st' := update_session i _ st).
  assert (Hi' : get_session_index st' client_fd = Some i)
    by (apply index_after_update; [reflexivity | exact Hi]).
  assert (Hp : data_port (session_at st' i) = -1).
  { unfold st'. now rewrite (session_at_update _ _ _ _ Hs). }
  split; [reflexivity|]. split.
  - unfold pending_data_endpoint. now rewrite Hp.
  - unfold Server.handle_list_command. now rewrite Hi', Hp.
Qed.

Lemma port_minus_one_declares_nothing_witness :
  let st := Scenario.server_with Scenario.alice Scenario.files0 in
  let '(st', out) := handle_port_command st 5 "127,0,0,1,0,-1" in
  out = send_response 5 "200 PORT command successful."
  /\ pending_data_endpoint (session_at st' 0) = None
  /\ Server.handle_list_command Scenario.world_ok st' 5
     = (st', send_response 5 "425 Can't open data connection.").
Proof.
  intros st.
  assert (Hfit : Forall fits_int [127; 0; 0; 1; 0; -1]).
  { repeat (apply List.Forall_cons;
            [unfold fits_int, INT_MIN, INT_MAX; lia|]).
    apply List.Forall_nil. }
  apply (port_minus_one_declares_nothing Scenario.world_ok st 5 0
           127 0 0 1 0 (-1) eq_refl Hfit eq_refl).
Defined.

(** ** Renames, and what a slot keeps of its last connection *)

Section MoreLines.

Variables (w : World) (cmd0 arg0 : string) (st : Server) (client_fd : Z)
          (i : nat) (arg : string).
Hypothesis Hi : get_session_index st client_fd = Some i.
Hypothesis Hauth : authenticated (session_at st i) = true.
Hypothesis Hw : is_word arg = true.
Hypothesis Hl : one_line arg = true.

Ltac served verb_sp verb :=
  change (verb_sp +:+ arg) with (verb +:+ " " +:+ arg);
  rewrite (line_of_verb_arg verb arg eq_refl Hl);
  unfold Server.handle_command;
  rewrite (sscanf_verb_arg verb arg eq_refl Hw);
  cbv beta iota; change (2 <? 1) with false; cbv iota;
  rewrite Hi; eval_streq; rewrite Hauth; reflexivity.

Lemma more_lines_served :
  Server.handle_command w cmd0 arg0 st client_fd
    (Server.c_line (Client.send_command ("CWD " +:+ arg)))
  = Server.handle_cwd_command w st client_fd arg
  /\ Server.handle_command w cmd0 arg0 st client_fd
       (Server.c_line (Client.send_command ("DELE " +:+ arg)))
     = Server.handle_dele_command w st client_fd arg
  /\ Server.handle_command w cmd0 arg0 st client_fd
       (Server.c_line (Client.send_command ("RNFR " +:+ arg)))
     = Server.handle_rnfr_command w st client_fd arg
  /\ Server.handle_command w cmd0 arg0 st client_fd
       (Server.c_line (Client.send_command ("RNTO " +:+ arg)))
     = Server.handle_rnto_command w st client_fd arg.
Proof.
  split; [|split; [|split]].
  - served "CWD " "CWD".
  - served "DELE " "DELE".
  - served "RNFR " "RNFR".
  - served "RNTO " "RNTO".
Qed.

End MoreLines.

Lemma find_session_first l fd i s k :
  l !! i = Some s -> control_fd s = fd ->
  (forall j s', (j < i)%nat -> l !! j = Some s' -> control_fd s' <> fd) ->
  find_session l fd k = Some (k + i)%nat.
Proof.
  revert i k. induction l as [|x l IH]; intros i k Hs Hfd Hbefore.
  - discriminate.
  - destruct i as [|i].
    + inversion Hs; subst. cbn [find_session]. rewrite Z.eqb_refl.
      f_equal. lia.
    + cbn [find_session].
      assert (Hx : control_fd x <> fd)
        by (apply (Hbefore 0%nat x); [lia | reflexivity]).
      apply Z.eqb_neq in Hx. rewrite Hx.
      rewrite (IH i (S k) Hs Hfd).
      * f_equal. lia.
      * intros j s' Hj Hl. apply (Hbefore (S j) s'); [lia | exact Hl].
Qed.

Lemma path_not_empty dir name : dir +:+ "/" +:+ name <> EmptyString.
Proof. destruct dir; discriminate. Qed.

(** X17.  RNFR followed by RNTO renames the file: for a session in
    directory d, with stat and rename succeeding, RNTO calls rename with
    the path RNFR stored, d/old, and d/new; the replies are 350 and 250,
    the content that was under d/old is under d/new, the pending name of
    the slot is cleared, and, when there was no file under d/new before,
    nothing is left under d/old. *)
Theorem rnfr_then_rnto_moves_the_file
    (w1 w2 : World) (st : Server) (client_fd : Z) (i : nat) (s : FTPSession)
    (old new : string) (content : list Byte.byte) :
  get_session_index st client_fd = Some i ->
  client_sessions st !! i = Some s ->
  (i < length (rnfr_filename st))%nat ->
  w_stat w1 (final_path (current_dir s) old) <> -1 ->
  w_rename w2 (final_path (current_dir s) old)
              (final_path (current_dir s) new) = 0 ->
  files st !! final_path (current_dir s) old = Some content ->
  let '(st1, out1) := Server.handle_rnfr_command w1 st client_fd old in
  let '(st2, out2) := Server.handle_rnto_command w2 st1 client_fd new in
  rnfr_filename st1 !! i = Some (final_path (current_dir s) old)
  /\ In (Rename (final_path (current_dir s) old)
                (final_path (current_dir s) new) 0) out2
  /\ replies client_fd (out1 ++ out2)
     = ["350 Requested file action pending further information." +:+ CRLF;
        "250 File successfully renamed." +:+ CRLF]
  /\ files st2 !! final_path (current_dir s) new = Some content
  /\ rnfr_filename st2 !! i = Some EmptyString
  /\ (files st !! final_path (current_dir s) new = None ->
      files st2 !! final_path (current_dir s) old = None).
Proof.
  intros Hi Hs Hlen Hstat Hren Hfile. unfold final_path in *.
  unfold Server.handle_rnfr_command.
  rewrite Hi, (session_at_lookup _ _ _ Hs).
  apply Z.eqb_neq in Hstat. rewrite Hstat.
  unfold Server.handle_rnto_command.
  change (get_session_index (set_rnfr _ st) client_fd)
    with (get_session_index st client_fd).
  rewrite Hi. cbn [rnfr_filename set_rnfr].
  rewrite list_lookup_insert_eq by exact Hlen. cbn [default from_option].
  unfold id.
  change (session_at (set_rnfr _ st) i) with (session_at st i).
  rewrite (session_at_lookup _ _ _ Hs).
  destruct (current_dir s +:+ "/" +:+ old) as [|c0 p0] eqn:Eold.
  { now apply path_not_empty in Eold. }
  rewrite <- Eold in *. rewrite Hren. cbn [Z.eqb files set_files set_rnfr].
  rewrite Hfile.
  split; [reflexivity|]. split; [left; reflexivity|].
  split; [|split; [|split]].
  - cbn [send_response app replies]. now rewrite !Z.eqb_refl.
  - apply lookup_insert_eq.
  - cbn [rnfr_filename set_rnfr set_files].
    rewrite list_lookup_insert_eq; [reflexivity|].
    now rewrite length_insert.
  - intros Hnew. rewrite lookup_insert_ne.
    + apply lookup_delete_eq.
    + intros E. rewrite E, Hfile in Hnew. discriminate.
Qed.

Lemma rnfr_then_rnto_moves_the_file_witness :
  let st := Scenario.server_with Scenario.alice Scenario.files0 in
  let '(st1, out1) :=
    Server.handle_rnfr_command Scenario.world_ok st 5 "hello.txt" in
  let '(st2, out2) :=
    Server.handle_rnto_command Scenario.world_ok st1 5 "bye.txt" in
  files st2 !! final_path "/srv/alice" "bye.txt" = Some [Byte.x68; Byte.x69]
  /\ files st2 !! final_path "/srv/alice" "hello.txt" = None.
Proof.
  intros st.
  pose proof (rnfr_then_rnto_moves_the_file Scenario.world_ok Scenario.world_ok
                st 5 0 Scenario.alice "hello.txt" "bye.txt"
                [Byte.x68; Byte.x69] eq_refl eq_refl
                ltac:(simpl; lia) ltac:(simpl; lia) eq_refl eq_refl) as H.
  destruct (Server.handle_rnfr_command _ _ _ _) as [st1 out1].
  destruct (Server.handle_rnto_command _ _ _ _) as [st2 out2].
  destruct H as (_ & _ & _ & H4 & _ & H6).
  split; [exact H4 | exact (H6 eq_refl)].
Defined.

(** X18.  The pending name of RNFR belongs to the slot, not to the
    connection: neither the cleanup of a closed connection nor the
    accept of a new one clears it.  When a client that has sent RNFR
    disconnects and the next client is given the same slot, logs in and
    sends RNTO with no RNFR of its own, the server renames the file the
    first client named, into the newcomer's directory. *)
Theorem pending_rename_outlives_the_session
    (w wa w1 w2 w3 : World) (cmd0 arg0 : string) (m : Server.Main)
    (fd fd2 : Z) (i : nat) (s : FTPSession)
    (old cwd name password new : string) :
  get_session_index (Server.srv m) fd = Some i ->
  client_sessions (Server.srv m) !! i = Some s ->
  rnfr_filename (Server.srv m) !! i = Some old ->
  old <> EmptyString ->
  (forall j s', (j < i)%nat -> client_sessions (Server.srv m) !! j = Some s' ->
                control_fd s' <> -1 /\ control_fd s' <> fd2) ->
  fd2 <> -1 ->
  w_getcwd wa = Some cwd ->
  Forall (fun usr => (String.length (user_username usr) < MAX_USERNAME)%nat)
         (users (Server.srv m)) ->
  authenticate_user (users (Server.srv m)) name password = true ->
  is_word name = true -> one_line name = true ->
  is_word password = true -> one_line password = true ->
  is_word new = true -> one_line new = true ->
  let m1 := fst (Server.client_data w cmd0 arg0 m fd REof) in
  let m2 := fst (Server.accept_connection wa m1 fd2) in
  let target := final_path (final_path cwd name) new in
  let '(st', out) :=
    serve_lines cmd0 arg0 fd2 (Server.srv m2)
      [(w1, Client.handle_user_command name);
       (w2, Client.handle_pass_command password);
       (w3, Client.send_command ("RNTO " +:+ new))] in
  get_session_index (Server.srv m2) fd2 = Some i
  /\ auth_state_of (session_at (Server.srv m2) i) = Unauth
  /\ In (Rename old target (w_rename w3 old target)) out
  /\ (w_rename w3 old target = 0 ->
      last (replies fd2 out)
      = Some ("250 File successfully renamed." +:+ CRLF)
      /\ forall content,
           files (Server.srv m) !! old = Some content ->
           files st' !! target = Some content).
Proof.
  intros Hi Hs Hold Hne Hbefore Hfd2 Hcwd Hlen Hauth Hn Hn1 Hp Hp1 Hw Hl.
  intros m1 m2 target.
  set (fc := fun s0 =>
               set_data_ip EmptyString
                 (set_username EmptyString
                    (set_authenticated false
                       (set_data_port (-1)
                          (set_data_fd (-1) (set_control_fd (-1) s0)))))).
  set (fa := fun s0 =>
               set_current_dir cwd
                 (set_root_dir cwd
                    (set_data_ip EmptyString
                       (set_data_port (-1)
                          (set_data_fd (-1)
                             (set_authenticated false
                                (set_control_fd fd2 s0))))))).
  set (st1 := update_session i fc (Server.srv m)).
  set (st2 := update_session i fa st1).
  assert (E1 : Server.srv m1 = st1).
  { unfold m1, Server.client_data. rewrite Hi. reflexivity. }
  assert (Hs1 : client_sessions st1 !! i = Some (fc s))
    by (apply update_lookup, Hs).
  assert (Hfree : find_session (client_sessions st1) (-1) 0 = Some i).
  { apply (find_session_first _ _ i (fc s) 0 Hs1 eq_refl).
    intros j s' Hj Hl'. unfold st1, update_session in Hl'.
    cbn [client_sessions set_sessions] in Hl'.
    rewrite list_lookup_alter_ne in Hl' by lia.
    exact (proj1 (Hbefore j s' Hj Hl')). }
  assert (E2 : Server.srv m2 = st2).
  { unfold m2, Server.accept_connection. rewrite E1, Hfree, Hcwd.
    reflexivity. }
  assert (Hs2 : client_sessions st2 !! i = Some (fa (fc s)))
    by (apply update_lookup, Hs1).
  assert (Hi2 : get_session_index st2 fd2 = Some i).
  { apply (find_session_first _ _ i (fa (fc s)) 0 Hs2 eq_refl).
    intros j s' Hj Hl'. unfold st2, st1, update_session in Hl'.
    cbn [client_sessions set_sessions] in Hl'.
    rewrite !list_lookup_alter_ne in Hl' by lia.
    exact (proj2 (Hbefore j s' Hj Hl')). }
  rewrite E2.
  change [(w1, Client.handle_user_command name);
          (w2, Client.handle_pass_command password);
          (w3, Client.send_command ("RNTO " +:+ new))]
    with ([(w1, Client.handle_user_command name);
           (w2, Client.handle_pass_command password)]
          ++ [(w3, Client.send_command ("RNTO " +:+ new))]).
  rewrite serve_lines_app.
  rewrite (login_served w1 w2 cmd0 arg0 st2 fd2 i (fa (fc s)) name password
             Hi2 Hs2 Hlen Hauth Hn Hn1 Hp Hp1).
  change (root_dir (fa (fc s))) with cwd.
  set (st3 := update_session i _ (update_session i (set_username name) st2)).
  assert (Hi3 : get_session_index st3 fd2 = Some i).
  { apply index_after_update; [reflexivity|].
    apply index_after_update; [reflexivity | exact Hi2]. }
  assert (Hs3 : client_sessions st3 !! i
                = Some (set_current_dir (cwd +:+ "/" +:+ name)
                          (set_authenticated true
                             (set_username name (fa (fc s)))))).
  { unfold st3.
    apply (update_lookup _ i
             (fun s0 => set_current_dir (cwd +:+ "/" +:+ name)
                          (set_authenticated true s0))
             (set_username name (fa (fc s)))).
    apply update_lookup, Hs2. }
  cbn [serve_lines].
  destruct (more_lines_served w3 cmd0 arg0 st3 fd2 i new Hi3
              ltac:(now rewrite (session_at_lookup _ _ _ Hs3)) Hw Hl)
    as (_ & _ & _ & E).
  rewrite E. unfold Server.handle_rnto_command.
  rewrite Hi3, (session_at_lookup _ _ _ Hs3).
  change (rnfr_filename st3) with (rnfr_filename (Server.srv m)).
  rewrite Hold. cbn [default from_option]. unfold id.
  destruct old as [|c0 r0]; [congruence|].
  cbv beta iota zeta. cbn [current_dir set_current_dir].
  change (cwd +:+ "/" +:+ name +:+ "/" +:+ new) with target.
  change ((cwd +:+ "/" +:+ name) +:+ "/" +:+ new) with target.
  change (files st3) with (files (Server.srv m)).
  assert (Hun : auth_state_of (session_at st2 i) = Unauth)
    by now rewrite (session_at_lookup _ _ _ Hs2).
  destruct (w_rename w3 (String c0 r0) target =? 0) eqn:Er;
    cbv beta iota zeta; (split; [exact Hi2|]); (split; [exact Hun|]).
  - split.
    + apply in_or_app. right. rewrite app_nil_r. left. reflexivity.
    + intros _. split.
      * rewrite !replies_app. cbn [send_response replies app].
        rewrite !Z.eqb_refl. reflexivity.
      * intros content Hc. cbn [files set_rnfr set_files]. rewrite Hc.
        apply lookup_insert_eq.
  - split.
    + apply in_or_app. right. rewrite app_nil_r. left. reflexivity.
    + intros H0. rewrite H0 in Er. discriminate.
Qed.

Lemma pending_rename_outlives_the_session_witness :
  let m :=
    Server.mkMain
      (mkServer Scenario.users0 Scenario.full_house
                ("/srv/alice/hello.txt" :: replicate 9 EmptyString)
                Scenario.files0)
      3 (list_to_set [3; 4; 5; 6; 7; 8; 9; 10; 11; 12; 13]) 13 ∅ in
  let m1 :=
    fst (Server.client_data Scenario.world_ok EmptyString EmptyString m 4
           REof) in
  let m2 := fst (Server.accept_connection Scenario.world_ok m1 14) in
  In (Rename "/srv/alice/hello.txt" "/srv/bob/mine.txt" 0)
     (snd (serve_lines EmptyString EmptyString 14 (Server.srv m2)
             [(Scenario.world_ok, Client.handle_user_command "bob");
              (Scenario.world_ok, Client.handle_pass_command "donuts");
              (Scenario.world_ok, Client.send_command "RNTO mine.txt")])).
Proof.
  intros m m1 m2.
  assert (Hlen : Forall (fun usr =>
                           (String.length (user_username usr)
                            < MAX_USERNAME)%nat) (users (Server.srv m))).
  { repeat (apply List.Forall_cons; [unfold MAX_USERNAME; simpl; lia|]).
    apply List.Forall_nil. }
  pose proof (pending_rename_outlives_the_session Scenario.world_ok
                Scenario.world_ok Scenario.world_ok Scenario.world_ok
                Scenario.world_ok EmptyString EmptyString m 4 14 0
                (mkSession 4 (-1) EmptyString false "/srv" "/srv"
                           EmptyString (-1))
                "/srv/alice/hello.txt" "/srv" "bob" "donuts" "mine.txt"
                eq_refl eq_refl eq_refl ltac:(discriminate)
                ltac:(intros j s' Hj; lia) ltac:(lia) eq_refl Hlen eq_refl
                eq_refl eq_refl eq_refl eq_refl eq_refl eq_refl) as H.
  cbv zeta in H. fold m1 m2 in H.
  destruct (serve_lines _ _ _ _ _) as [st' out].
  exact (proj1 (proj2 (proj2 H))).
Defined.

(** ** Listings, PWD and DELE *)

Lemma prefix_append needle rest : String.prefix needle (needle +:+ rest) = true.
Proof.
  induction needle as [|c n IH]; [apply prefix_nil|].
  change (String c n +:+ rest) with (String c (n +:+ rest)).
  now rewrite prefix_cons, Ascii.eqb_refl, IH.
Qed.

Lemma prefix_rest needle s :
  String.prefix needle s = true -> exists rest, s = needle +:+ rest.
Proof.
  revert s. induction needle as [|c n IH]; intros s H.
  - now exists s.
  - destruct s as [|c' s']; [discriminate H|].
    rewrite prefix_cons in H. apply andb_true_iff in H as [Hc Hn].
    apply Ascii.eqb_eq in Hc. subst c'.
    destruct (IH _ Hn) as [rest ->]. now exists rest.
Qed.

(** strstr finds the first occurrence: what it returns starts with the
    needle, and the needle occurs nowhere further to the left. *)
Lemma strstr_first haystack needle shown :
  strstr haystack needle = Some shown ->
  exists before after,
    haystack = before +:+ shown
    /\ shown = needle +:+ after
    /\ forall before' after',
         haystack = before' +:+ needle +:+ after' ->
         (String.length before <= String.length before')%nat.
Proof.
  revert shown. induction haystack as [|c h IH]; intros shown.
  - cbn [strstr]. destruct (String.prefix needle EmptyString) eqn:E;
      [|discriminate].
    intros H; inversion H; subst.
    destruct (prefix_rest _ _ E) as [after Ha].
    exists EmptyString, after. split; [reflexivity|]. split; [exact Ha|].
    intros; cbn; lia.
  - cbn [strstr]. destruct (String.prefix needle (String c h)) eqn:E.
    + intros H; inversion H; subst.
      destruct (prefix_rest _ _ E) as [after Ha].
      exists EmptyString, after. split; [reflexivity|]. split; [exact Ha|].
      intros; cbn; lia.
    + intros H. destruct (IH _ H) as (before & after & Hb & Hs & Hfirst).
      exists (String c before), after. split; [cbn; now rewrite <- Hb|].
      split; [exact Hs|].
      intros before' after' Hocc. destruct before' as [|c' b'].
      * cbn [String.append] in Hocc. rewrite Hocc, prefix_append in E.
        discriminate.
      * change (String c' b' +:+ needle +:+ after')
          with (String c' (b' +:+ needle +:+ after')) in Hocc.
        injection Hocc as _ Hh. cbn [String.length].
        specialize (Hfirst b' after' Hh). lia.
Qed.

(** When strstr returns NULL the needle does not occur. *)
Lemma strstr_none haystack needle :
  strstr haystack needle = None ->
  forall before after, haystack <> before +:+ needle +:+ after.
Proof.
  induction haystack as [|c h IH].
  - cbn [strstr]. destruct (String.prefix needle EmptyString) eqn:E;
      [discriminate|].
    intros _ before after Hocc. destruct before; [|discriminate Hocc].
    cbn [String.append] in Hocc. rewrite Hocc, prefix_append in E.
    discriminate.
  - cbn [strstr]. destruct (String.prefix needle (String c h)) eqn:E;
      [discriminate|].
    intros H before after Hocc. destruct before as [|c' b'].
    + cbn [String.append] in Hocc. rewrite Hocc, prefix_append in E.
      discriminate.
    + change (String c' b' +:+ needle +:+ after)
        with (String c' (b' +:+ needle +:+ after)) in Hocc.
      injection Hocc as _ Hh. exact (IH H b' after Hh).
Qed.

(** X19.  PWD shows the current directory from the first place where the
    user name occurs in it: what is shown starts with the name, and the
    name occurs nowhere further to the left.  When the name occurs
    nowhere in the current directory, all of it is shown.  A slash is
    added in both cases and nothing is changed.  The current directory is
    taken short enough for the reply to fit its buffer. *)
Theorem pwd_reply_is_a_suffix
    (st : Server) (client_fd : Z) (i : nat) (s : FTPSession) :
  get_session_index st client_fd = Some i ->
  client_sessions st !! i = Some s ->
  (String.length (current_dir s) + 8 <= BUFFER_SIZE)%nat ->
  exists before shown,
    current_dir s = before +:+ shown
    /\ handle_pwd_command st client_fd
       = (st, send_response client_fd ("257 " +:+ shown +:+ "/"))
    /\ ((exists after,
           shown = username s +:+ after
           /\ forall before' after',
                current_dir s = before' +:+ username s +:+ after' ->
                (String.length before <= String.length before')%nat)
        \/ (before = EmptyString
            /\ forall before' after',
                 current_dir s <> before' +:+ username s +:+ after')).
Proof.
  intros Hi Hs _. unfold handle_pwd_command.
  rewrite Hi, (session_at_lookup _ _ _ Hs).
  destruct (strstr (current_dir s) (username s)) as [shown|] eqn:E.
  - destruct (strstr_first _ _ _ E) as (before & after & Hb & Ha & Hfirst).
    exists before, shown. split; [exact Hb|]. split; [reflexivity|].
    left. exists after. split; [exact Ha | exact Hfirst].
  - exists EmptyString, (current_dir s). split; [reflexivity|].
    split; [reflexivity|]. right. split; [reflexivity|].
    exact (strstr_none _ _ E).
Qed.

(** alice in /srv/alice: the reply is 257 alice/. *)
Lemma pwd_reply_is_a_suffix_witness :
  let st := Scenario.server_with Scenario.alice Scenario.files0 in
  (get_session_index st 5 = Some 0%nat
   /\ client_sessions st !! 0%nat = Some Scenario.alice
   /\ (String.length (current_dir Scenario.alice) + 8 <= BUFFER_SIZE)%nat)
  /\ exists before shown,
       current_dir Scenario.alice = before +:+ shown
       /\ handle_pwd_command st 5
          = (st, send_response 5 ("257 " +:+ shown +:+ "/"))
       /\ ((exists after,
              shown = username Scenario.alice +:+ after
              /\ forall before' after',
                   current_dir Scenario.alice
                   = before' +:+ username Scenario.alice +:+ after' ->
                   (String.length before <= String.length before')%nat)
           \/ (before = EmptyString
               /\ forall before' after',
                    current_dir Scenario.alice
                    <> before' +:+ username Scenario.alice +:+ after')).
Proof.
  intros st.
  assert (Hfit : (String.length (current_dir Scenario.alice) + 8
                  <= BUFFER_SIZE)%nat) by (vm_compute; lia).
  split; [split; [reflexivity | split; [reflexivity | exact Hfit]]|].
  apply (pwd_reply_is_a_suffix st 5 0 Scenario.alice);
    [reflexivity | reflexivity | exact Hfit].
Defined.

Lemma list_lines_writes dfd (l : list string) :
  map (fun name => DataWrite dfd (list_byte_of_string (name +:+ CRLF))) l
  = map (DataWrite dfd)
        (map (fun name => list_byte_of_string (name +:+ CRLF)) l).
Proof. induction l as [|x l IH]; [reflexivity|]. cbn [map]. now rewrite IH. Qed.

(** X20.  LIST hands one line per directory entry, name and CR LF, to
    write() and drops what write() returns: code/server.c leaves out "."
    and ".." only, the documented version every name that starts with a
    dot; when the directory does not open in the child there is no line.
    The replies are 150 and 226 however the writes are answered.  When
    every write is taken whole the peer receives the lines and the child
    exits with 0.  When the k-th write is the first that meets a
    connection the peer has closed, SIGPIPE ends the child there: the
    lines up to that one have been handed to write(), the peer has no
    more than the lines before it, and the child does not exit. *)
Theorem list_sends_one_line_per_entry
    (w : World) (st : Server) (client_fd : Z) (i : nat) (s : FTPSession)
    (answer : nat -> write_result) :
  get_session_index st client_fd = Some i ->
  client_sessions st !! i = Some s ->
  data_port s <> -1 ->
  transfer_forked w = true ->
  forallb entry_name (w_readdir w (current_dir s)) = true ->
  let lines := fun keep : string -> bool =>
    if w_opendir w (current_dir s)
    then map (fun name => list_byte_of_string (name +:+ CRLF))
             (List.filter keep (w_readdir w (current_dir s)))
    else [] in
  sends_under answer client_fd
    (snd (Server.handle_list_command w st client_fd))
    (lines (fun name => negb (streq name "." || streq name "..")))
  /\ (0 <= w_bind w ->
      sends_under answer client_fd
        (snd (ServerDoc.handle_list_command w st client_fd))
        (lines (fun name => match name with
                            | String "." _ => false
                            | _ => true
                            end))).
Proof.
  intros Hi Hs Hport Hfork _ lines. unfold lines.
  destruct (forked_calls w Hfork) as (H1 & H2 & H3 & H4).
  apply Z.eqb_neq in Hport.
  unfold Server.handle_list_command, ServerDoc.handle_list_command.
  rewrite Hi, (session_at_lookup _ _ _ Hs), Hport, H1, H2, H3, H4.
  unfold transfer_parent, Server.list_child, ServerDoc.list_child.
  cbn [snd].
  assert (Hshape : forall pre0 child0 chunks,
             forallb parent_event (pre0 ++ child0) = true ->
             replies client_fd (pre0 ++ child0)
             = ["150 File status okay; about to open data connection."
                +:+ CRLF] ->
             sends_under answer client_fd
               (pre0 ++ Fork (w_fork w)
                  :: (Close client_fd
                        :: (child0 ++ map (DataWrite (w_socket w)) chunks)
                        ++ [Close (w_socket w); Exit 0])
                  ++ [Close (w_socket w); Waitpid (w_fork w)]
                  ++ send_response client_fd "226 Transfer complete.")
               chunks).
  { intros pre0 child0 chunks Hp Hr.
    pose proof (transfer_sends_under answer client_fd
                  (pre0 ++ Fork (w_fork w) :: Close client_fd :: child0)
                  (w_socket w) chunks (w_fork w)) as H.
    replace ((pre0 ++ Fork (w_fork w) :: Close client_fd :: child0)
             ++ map (DataWrite (w_socket w)) chunks
             ++ Close (w_socket w) :: Exit 0
                :: [Close (w_socket w); Waitpid (w_fork w)]
                     ++ send_response client_fd "226 Transfer complete.")
      with (pre0 ++ Fork (w_fork w)
              :: (Close client_fd
                    :: (child0 ++ map (DataWrite (w_socket w)) chunks)
                    ++ [Close (w_socket w); Exit 0])
              ++ [Close (w_socket w); Waitpid (w_fork w)]
              ++ send_response client_fd "226 Transfer complete.") in H.
    2:{ cbn [app]. rewrite <- !app_assoc. cbn [app]. reflexivity. }
    apply H.
    - rewrite forallb_app in Hp |- *. apply andb_true_iff in Hp as [Hp1 Hp2].
      rewrite Hp1. cbn [forallb parent_event andb]. exact Hp2.
    - rewrite replies_app in Hr |- *. cbn [replies]. exact Hr. }
  split.
  - destruct (w_opendir w (current_dir s)).
    + rewrite list_lines_writes.
      apply (Hshape ([Socket (w_socket w);
                      Setsockopt (w_socket w) (w_setsockopt w)]
                       ++ send_response client_fd
                            "150 File status okay; about to open data connection."
                       ++ [Connect (w_socket w) (data_ip s)
                             (htons (data_port s)) (w_connect w)])
                    [Opendir (current_dir s) true]); [reflexivity|].
      cbn [app send_response replies]. now rewrite Z.eqb_refl.
    + apply (Hshape ([Socket (w_socket w);
                      Setsockopt (w_socket w) (w_setsockopt w)]
                       ++ send_response client_fd
                            "150 File status okay; about to open data connection."
                       ++ [Connect (w_socket w) (data_ip s)
                             (htons (data_port s)) (w_connect w)])
                    [Opendir (current_dir s) false] []); [reflexivity|].
      cbn [app send_response replies]. now rewrite Z.eqb_refl.
  - intros Hb. apply Z.ltb_ge in Hb. rewrite Hb. cbn [snd].
    destruct (w_opendir w (current_dir s)).
    + rewrite list_lines_writes.
      apply (Hshape ([Socket (w_socket w);
                      Setsockopt (w_socket w) (w_setsockopt w);
                      Bind (w_socket w) 20 (w_bind w)]
                       ++ send_response client_fd
                            "150 File status okay; about to open data connection."
                       ++ [Connect (w_socket w) (data_ip s)
                             (htons (data_port s)) (w_connect w)])
                    [Opendir (current_dir s) true]); [reflexivity|].
      cbn [app send_response replies]. now rewrite Z.eqb_refl.
    + apply (Hshape ([Socket (w_socket w);
                      Setsockopt (w_socket w) (w_setsockopt w);
                      Bind (w_socket w) 20 (w_bind w)]
                       ++ send_response client_fd
                            "150 File status okay; about to open data connection."
                       ++ [Connect (w_socket w) (data_ip s)
                             (htons (data_port s)) (w_connect w)])
                    [Opendir (current_dir s) false] []); [reflexivity|].
      cbn [app send_response replies]. now rewrite Z.eqb_refl.
Qed.

(** alice's directory holds hello.txt: its line reaches a peer that takes
    it, and the child exits with 0; in a directory that has been removed
    there is no line, and the replies are 150 and 226 all the same; a peer
    that has closed the connection gets nothing and the child does not
    exit. *)
Lemma list_sends_one_line_per_entry_witness :
  let st := Scenario.server_with Scenario.alice_port Scenario.files0 in
  let lost := Scenario.server_with Scenario.alice_lost Scenario.files0 in
  let taken := fun _ : nat => WTaken BUFFER_SIZE in
  let closed := fun _ : nat => WSigpipe in
  let line := list_byte_of_string ("hello.txt" +:+ CRLF) in
  (taken_in_full taken [line] /\ taken_in_full taken []
   /\ first_sigpipe closed 0)
  /\ (let out := snd (Server.handle_list_command Scenario.world_ok st 5) in
      data_received taken 0 (under_writes taken 0 false out) = line
      /\ exit_status (under_writes taken 0 false out) = Some 0
      /\ (length (data_received closed 0 (under_writes closed 0 false out))
          <= 0)%nat
      /\ exit_status (under_writes closed 0 false out) = None)
  /\ (let out := snd (Server.handle_list_command Scenario.world_ok lost 5) in
      data_received taken 0 (under_writes taken 0 false out) = []
      /\ replies 5 (under_writes taken 0 false out)
         = ["150 File status okay; about to open data connection." +:+ CRLF;
            "226 Transfer complete." +:+ CRLF]).
Proof.
  intros st lost taken closed line.
  assert (Ht : taken_in_full taken [line]).
  { intros k chunk Hk. exists BUFFER_SIZE. split; [reflexivity|].
    destruct k as [|k]; [|discriminate Hk].
    injection Hk as <-. vm_compute. lia. }
  assert (Ht0 : taken_in_full taken []).
  { intros k chunk Hk. discriminate Hk. }
  assert (Hc : first_sigpipe closed 0).
  { split; [reflexivity|]. intros j Hj. lia. }
  split; [split; [exact Ht | split; [exact Ht0 | exact Hc]]|].
  pose proof (list_sends_one_line_per_entry Scenario.world_ok st 5 0
                Scenario.alice_port taken eq_refl eq_refl
                ltac:(discriminate) eq_refl eq_refl) as [(_ & Ha & _) _].
  pose proof (list_sends_one_line_per_entry Scenario.world_ok st 5 0
                Scenario.alice_port closed eq_refl eq_refl
                ltac:(discriminate) eq_refl eq_refl) as [(_ & _ & Hb) _].
  pose proof (list_sends_one_line_per_entry Scenario.world_ok lost 5 0
                Scenario.alice_lost taken eq_refl eq_refl
                ltac:(discriminate) eq_refl eq_refl) as [(Hr & Hl & _) _].
  destruct (Ha Ht) as (_ & _ & Ha3 & Ha4).
  destruct (Hb 0%nat ltac:(vm_compute; lia) Hc) as (_ & Hb2 & Hb3).
  destruct (Hl Ht0) as (_ & _ & Hl3 & _).
  split; [|split; [exact Hl3 | exact Hr]].
  split; [exact Ha3|]. split; [exact Ha4|]. split; [exact Hb2 | exact Hb3].
Defined.

(** X21.  DELE is held back by nothing but the current directory, and CWD
    of code/server.c moves that anywhere: for an authenticated session,
    any absolute directory that opens and any file in it (the names short
    enough for the buffers the two handlers print them into), CWD to the
    directory and DELE of the name make the directory the current one and
    unlink the file, so that nothing is left under its path; the replies
    are 200 and 250, whatever the session's root directory is. *)
Theorem cwd_then_dele_reaches_any_directory
    (w1 w2 : World) (cmd0 arg0 : string) (st : Server) (client_fd : Z)
    (i : nat) (s : FTPSession) (rest filename : string)
    (content : list Byte.byte) :
  let dir := String "/" rest in
  get_session_index st client_fd = Some i ->
  client_sessions st !! i = Some s ->
  authenticated s = true ->
  is_word dir = true -> one_line dir = true ->
  is_word filename = true -> one_line filename = true ->
  (String.length dir + String.length filename + 32 <= BUFFER_SIZE)%nat ->
  w_opendir w1 dir = true ->
  files st !! final_path dir filename = Some content ->
  w_unlink w2 (final_path dir filename) = 0 ->
  let '(st', out) :=
    serve_lines cmd0 arg0 client_fd st
      [(w1, Client.send_command ("CWD " +:+ dir));
       (w2, Client.send_command ("DELE " +:+ filename))] in
  current_dir (session_at st' i) = dir
  /\ files st' !! final_path dir filename = None
  /\ In (Unlink (final_path dir filename) 0) out
  /\ replies client_fd out
     = [("200 directory changed to "
         +:+ match strstr dir (username s) with
             | Some username_pos => username_pos
             | None => dir
             end +:+ "/.") +:+ CRLF;
        ("250 " +:+ DQUOTE +:+ filename +:+ DQUOTE +:+ " file deleted.")
        +:+ CRLF].
Proof.
  intros dir Hi Hs Hauth Hd Hd1 Hf Hf1 _ Hopen Hfile Hunlink.
  unfold final_path in *.
  cbn [serve_lines].
  destruct (more_lines_served w1 cmd0 arg0 st client_fd i dir Hi
              ltac:(now rewrite (session_at_lookup _ _ _ Hs)) Hd Hd1)
    as (E & _).
  rewrite E. unfold Server.handle_cwd_command.
  rewrite Hi, (session_at_lookup _ _ _ Hs). cbv beta zeta.
  change (match dir with
          | String "/"%char _ => dir
          | _ => current_dir s +:+ "/" +:+ dir
          end) with dir.
  rewrite Hopen.
  set (st1 := update_session i (set_current_dir dir) st).
  assert (Hi1 : get_session_index st1 client_fd = Some i)
    by (apply index_after_update; [reflexivity | exact Hi]).
  assert (Hs1 : client_sessions st1 !! i = Some (set_current_dir dir s))
    by (apply update_lookup, Hs).
  destruct (more_lines_served w2 cmd0 arg0 st1 client_fd i filename Hi1
              ltac:(now rewrite (session_at_lookup _ _ _ Hs1)) Hf Hf1)
    as (_ & E2 & _).
  rewrite E2. unfold Server.handle_dele_command.
  rewrite Hi1, (session_at_lookup _ _ _ Hs1).
  cbn [current_dir set_current_dir]. change (files st1) with (files st).
  rewrite Hfile, Hunlink. cbn [Z.eqb].
  split; [|split; [|split]].
  - change (session_at (set_files _ st1) i) with (session_at st1 i).
    now rewrite (session_at_lookup _ _ _ Hs1).
  - cbn [files set_files]. apply lookup_delete_eq.
  - apply in_or_app. right. rewrite app_nil_r. right. left. reflexivity.
  - rewrite !replies_app. cbn [send_response replies app].
    rewrite !Z.eqb_refl. cbn [app].
    destruct (strstr dir (username s)); reflexivity.
Qed.

Lemma cwd_then_dele_reaches_any_directory_witness :
  let st := Scenario.server_with Scenario.alice Scenario.files0 in
  let '(st', out) :=
    serve_lines EmptyString EmptyString 5 st
      [(Scenario.world_ok, Client.send_command "CWD /etc");
       (Scenario.world_ok, Client.send_command "DELE passwd")] in
  current_dir (session_at st' 0) = "/etc"%string
  /\ files st' !! final_path "/etc" "passwd" = None
  /\ replies 5 out
     = ["200 directory changed to /etc/." +:+ CRLF;
        ("250 " +:+ DQUOTE +:+ "passwd" +:+ DQUOTE +:+ " file deleted.")
        +:+ CRLF].
Proof.
  intros st.
  pose proof (cwd_then_dele_reaches_any_directory Scenario.world_ok
                Scenario.world_ok EmptyString EmptyString st 5 0
                Scenario.alice "etc" "passwd"
                [Byte.x72; Byte.x6f; Byte.x6f; Byte.x74]
                eq_refl eq_refl eq_refl eq_refl eq_refl eq_refl eq_refl
                ltac:(vm_compute; lia) eq_refl eq_refl eq_refl) as H.
  cbv zeta in H.
  destruct (serve_lines _ _ _ _ _) as [st' out].
  destruct H as (H1 & H2 & _ & H4).
  split; [exact H1|]. split; [exact H2 | exact H4].
Defined.


Lemma forked_transfer_replies_226_witness :
  last (replies 5
          (snd (Server.handle_list_command Scenario.world_ok
                  (Scenario.server_with Scenario.alice_port Scenario.files0)
                  5)))
  = Some ("226 Transfer complete." +:+ CRLF).
Proof.
  apply (forked_transfer_replies_226 Scenario.world_ok
           (Scenario.server_with Scenario.alice_port Scenario.files0) 5 0
           Scenario.alice_port "hello.txt" eq_refl eq_refl
           ltac:(simpl; lia) eq_refl).
Defined.

(** ** The first connections *)

Section Accepts.

Lemma accepted_fd c : control_fd (accepted c) = snd c.
Proof. unfold accepted. now destruct (w_getcwd (fst c)). Qed.

Lemma accepted_unauth c : auth_state_of (accepted c) = Unauth.
Proof. unfold accepted. now destruct (w_getcwd (fst c)). Qed.

Lemma accept_all_sessions conns :
  forall m occupied n,
    client_sessions (Server.srv m) = occupied ++ replicate n free_slot ->
    Forall (fun s => control_fd s <> -1) occupied ->
    Forall (fun c : World * Z => snd c <> -1) conns ->
    (length conns <= n)%nat ->
    client_sessions (Server.srv (accept_all m conns))
    = occupied ++ map accepted conns
      ++ replicate (n - length conns) free_slot.
Proof.
  induction conns as [|[w fd] conns IH];
    intros m occupied n Hm Hocc Hfds Hlen.
  - cbn [accept_all map app length]. now rewrite Nat.sub_0_r.
  - cbn [accept_all length] in *.
    apply Forall_cons in Hfds as [Hfd Hfds]. cbn [snd] in Hfd.
    destruct n as [|n]; [lia|].
    assert (Hfree : find_session (client_sessions (Server.srv m)) (-1) 0
                    = Some (length occupied)).
    { apply (find_session_first _ _ (length occupied) free_slot 0).
      - rewrite Hm. rewrite lookup_app_r by lia.
        now rewrite Nat.sub_diag.
      - reflexivity.
      - intros j s' Hj Hl. rewrite Hm, lookup_app_l in Hl by lia.
        rewrite Forall_lookup in Hocc. exact (Hocc j s' Hl). }
    rewrite (IH _ (occupied ++ [accepted (w, fd)]) n).
    + rewrite <- app_assoc. cbn [map app]. now rewrite Nat.sub_succ.
    + unfold Server.accept_connection. cbn [fst Server.srv].
      rewrite Hfree. unfold update_session.
      cbn [client_sessions set_sessions]. rewrite Hm.
      replace (length occupied) with (length occupied + 0)%nat at 1 by lia.
      rewrite alter_app_r. rewrite <- app_assoc. reflexivity.
    + apply Forall_app. split; [exact Hocc|].
      apply List.Forall_cons; [|apply List.Forall_nil].
      now rewrite accepted_fd.
    + exact Hfds.
    + lia.
Qed.

Lemma accept_all_watched conns :
  forall m fd,
    In fd (map snd conns) -> fd ∈ Server.master_fds (accept_all m conns).
Proof.
  assert (Hkeep : forall conns m fd,
             fd ∈ Server.master_fds m ->
             fd ∈ Server.master_fds (accept_all m conns)).
  { induction conns0 as [|[w c] conns0 IH]; intros m fd H; [exact H|].
    cbn [accept_all]. apply IH. unfold Server.accept_connection.
    cbn [fst Server.master_fds]. set_solver. }
  induction conns as [|[w c] conns IH]; intros m fd Hin; [destruct Hin|].
  cbn [accept_all map snd] in *. destruct Hin as [<-|Hin].
  - apply Hkeep. unfold Server.accept_connection.
    cbn [fst Server.master_fds]. set_solver.
  - now apply IH.
Qed.

Lemma accept_all_slot us fs listen_fd conns k c :
  NoDup (map snd conns) ->
  Forall (fun c : World * Z => snd c <> -1) conns ->
  (length conns <= MAX_CLIENTS)%nat ->
  conns !! k = Some c ->
  let m := accept_all (main_start us fs listen_fd) conns in
  get_session_index (Server.srv m) (snd c) = Some k
  /\ client_sessions (Server.srv m) !! k = Some (accepted c).
Proof.
  intros Hnodup Hfds Hlen Hk m.
  pose proof (accept_all_sessions conns (main_start us fs listen_fd) []
                MAX_CLIENTS eq_refl (List.Forall_nil _) Hfds Hlen) as Hs.
  fold m in Hs. cbn [app] in Hs.
  assert (Hl : client_sessions (Server.srv m) !! k = Some (accepted c)).
  { rewrite Hs, lookup_app_l.
    - now rewrite list_lookup_fmap, Hk.
    - rewrite length_map. now apply lookup_lt_Some in Hk. }
  split; [|exact Hl].
  apply (find_session_first _ _ k (accepted c) 0 Hl (accepted_fd c)).
  intros j s' Hj Hj'.
  assert (Hjl : (j < length conns)%nat)
    by (apply lookup_lt_Some in Hk; lia).
  rewrite Hs, lookup_app_l in Hj' by now rewrite length_map.
  rewrite list_lookup_fmap in Hj'.
  destruct (conns !! j) as [c'|] eqn:Ec'; [|discriminate].
  inversion Hj'; subst. rewrite accepted_fd. intros Heq.
  assert (j = k); [|lia].
  apply (NoDup_lookup (map snd conns) j k (snd c) Hnodup).
  - rewrite list_lookup_fmap, Ec'. cbn. now rewrite Heq.
  - now rewrite list_lookup_fmap, Hk.
Qed.

End Accepts.

(** X22.  The first MAX_CLIENTS connections each get a slot of their own:
    from the state in which main enters its loop, after any number up to
    ten of accepts that return distinct descriptors, the k-th accepted
    descriptor is found in slot k, is watched by select, and its session
    is not authenticated and has no user name and no endpoint. *)
Theorem first_connections_get_their_slots
    (us : list User) (fs : gmap string (list Byte.byte)) (listen_fd : Z)
    (conns : list (World * Z)) (k : nat) (w : World) (client_fd : Z) :
  NoDup (map snd conns) ->
  Forall (fun c : World * Z => snd c <> -1) conns ->
  (length conns <= MAX_CLIENTS)%nat ->
  conns !! k = Some (w, client_fd) ->
  let m := accept_all (main_start us fs listen_fd) conns in
  get_session_index (Server.srv m) client_fd = Some k
  /\ client_fd ∈ Server.master_fds m
  /\ auth_state_of (session_at (Server.srv m) k) = Unauth
  /\ pending_data_endpoint (session_at (Server.srv m) k) = None
  /\ root_dir (session_at (Server.srv m) k)
     = default EmptyString (w_getcwd w).
Proof.
  intros Hnodup Hfds Hlen Hk m.
  destruct (accept_all_slot us fs listen_fd conns k (w, client_fd)
              Hnodup Hfds Hlen Hk) as [Hi Hs].
  fold m in Hi, Hs. cbn [snd] in Hi.
  split; [exact Hi|]. split.
  - apply accept_all_watched. apply in_map_iff.
    exists (w, client_fd). split; [reflexivity|].
    apply list_elem_of_In. now apply list_elem_of_lookup_2 in Hk.
  - rewrite (session_at_lookup _ _ _ Hs). unfold accepted. cbn [fst snd].
    destruct (w_getcwd w); repeat split.
Qed.

Lemma first_connections_get_their_slots_witness :
  let conns := [(Scenario.world_ok, 4); (Scenario.world_ok, 5);
                (Scenario.world_ok, 6)] in
  let m := accept_all (main_start Scenario.users0 Scenario.files0 3) conns in
  get_session_index (Server.srv m) 5 = Some 1%nat
  /\ 5 ∈ Server.master_fds m
  /\ auth_state_of (session_at (Server.srv m) 1) = Unauth
  /\ pending_data_endpoint (session_at (Server.srv m) 1) = None
  /\ root_dir (session_at (Server.srv m) 1) = "/srv"%string.
Proof.
  intros conns m.
  assert (Hn : NoDup (map snd conns)).
  { apply (bool_decide_unpack _). vm_compute. exact I. }
  assert (Hf : Forall (fun c : World * Z => snd c <> -1) conns).
  { repeat (apply List.Forall_cons; [simpl; lia|]). apply List.Forall_nil. }
  apply (first_connections_get_their_slots Scenario.users0 Scenario.files0 3
           conns 1 Scenario.world_ok 5 Hn Hf);
    [unfold MAX_CLIENTS; simpl; lia | reflexivity].
Defined.

(** ** The data socket *)

Section DataSocket.

Variables (w : World) (st : Server) (client_fd : Z) (i : nat) (s : FTPSession)
          (filename : string).
Hypothesis Hi : get_session_index st client_fd = Some i.
Hypothesis Hs : client_sessions st !! i = Some s.
Hypothesis Hport : data_port s <> -1.
Hypothesis Hsock : 0 <= w_socket w.

Lemma child_writes_skipped {A} (f : A -> event) l tl :
  (forall x, match f x with Fork _ | Exit _ => false | _ => true end = true) ->
  Server.parent_events true (map f l ++ tl) = Server.parent_events true tl.
Proof.
  intros Hf. induction l as [|x l IH]; [reflexivity|].
  cbn [map app]. specialize (Hf x).
  destruct (f x); try discriminate; exact IH.
Qed.

Ltac closed :=
  unfold Server.closes;
  cbn [snd app send_response Server.parent_events existsb orb];
  rewrite ?leb_ltb0;
  repeat match goal with
         | H : (_ <? 0) = _ |- _ => rewrite H
         end;
  cbn [negb snd app send_response Server.parent_events existsb orb];
  rewrite <- ?app_assoc;
  rewrite ?child_writes_skipped by reflexivity;
  cbn [negb snd app send_response Server.parent_events existsb orb];
  rewrite ?Z.eqb_refl; reflexivity.

Ltac start :=
  rewrite Hi, (session_at_lookup _ _ _ Hs);
  let E := fresh in
  destruct (data_port s =? -1) eqn:E;
    [apply Z.eqb_eq in E; contradiction|];
  let E := fresh in
  destruct (w_socket w <? 0) eqn:E; [apply Z.ltb_lt in E; lia|];
  destruct (w_setsockopt w <? 0); [closed|].

Ltac finish :=
  destruct (w_connect w <? 0); [closed|];
  let E := fresh in
  destruct (w_fork w <? 0) eqn:E; [closed|].

Lemma data_socket_closed_list :
  Server.closes (w_socket w) (snd (Server.handle_list_command w st client_fd))
  = true
  /\ Server.closes (w_socket w)
       (snd (ServerDoc.handle_list_command w st client_fd)) = true.
Proof.
  unfold Server.handle_list_command, ServerDoc.handle_list_command,
    transfer_parent, Server.list_child, ServerDoc.list_child.
  split; start; try (destruct (w_bind w <? 0); [closed|]); finish;
    destruct (w_opendir w _); closed.
Qed.

Lemma data_socket_closed_retr :
  Server.closes (w_socket w)
    (snd (Server.handle_retr_command w st client_fd filename)) = true
  /\ Server.closes (w_socket w)
       (snd (ServerDoc.handle_retr_command w st client_fd filename)) = true.
Proof.
  unfold Server.handle_retr_command, ServerDoc.handle_retr_command,
    transfer_parent, retr_child.
  split; start; try (destruct (w_bind w <? 0); [closed|]);
    (destruct (bool_decide _); cbn [negb]; [|closed]); finish;
    (destruct (files st !! _); [destruct (w_child_fopen w _)|]); closed.
Qed.

Lemma data_socket_closed_stor :
  Server.closes (w_socket w)
    (snd (Server.handle_stor_command w st client_fd filename)) = true
  /\ Server.closes (w_socket w)
       (snd (ServerDoc.handle_stor_command w st client_fd filename)) = true.
Proof.
  unfold Server.handle_stor_command, ServerDoc.handle_stor_command,
    transfer_parent, stor_child.
  split; start; try (destruct (w_bind w <? 0); [closed|]); finish;
    destruct (w_child_fopen w _); closed.
Qed.

End DataSocket.

(** X23.  The server does not leak data sockets: on every path of LIST,
    RETR and STOR, in either version, on which socket() gave a
    descriptor, the server process itself closes that descriptor before
    the handler returns, whichever later call fails and whatever the
    child does. *)
Theorem data_socket_is_always_closed
    (w : World) (st : Server) (client_fd : Z) (i : nat) (s : FTPSession)
    (filename : string) (out : list event) :
  get_session_index st client_fd = Some i ->
  client_sessions st !! i = Some s ->
  data_port s <> -1 ->
  0 <= w_socket w ->
  In out [snd (Server.handle_list_command w st client_fd);
          snd (Server.handle_retr_command w st client_fd filename);
          snd (Server.handle_stor_command w st client_fd filename);
          snd (ServerDoc.handle_list_command w st client_fd);
          snd (ServerDoc.handle_retr_command w st client_fd filename);
          snd (ServerDoc.handle_stor_command w st client_fd filename)] ->
  Server.closes (w_socket w) out = true.
Proof.
  intros Hi Hs Hport Hsock Hin.
  destruct (data_socket_closed_list w st client_fd i s Hi Hs Hport Hsock)
    as [L1 L2].
  destruct (data_socket_closed_retr w st client_fd i s filename Hi Hs Hport
              Hsock) as [R1 R2].
  destruct (data_socket_closed_stor w st client_fd i s filename Hi Hs Hport
              Hsock) as [S1 S2].
  cbn [In] in Hin.
  destruct Hin as [<-|[<-|[<-|[<-|[<-|[<-|[]]]]]]]; assumption.
Qed.

Lemma data_socket_is_always_closed_witness :
  Server.closes 7
    (snd (Server.handle_retr_command Scenario.world_refused
            (Scenario.server_with Scenario.alice_port Scenario.files0) 5
            "hello.txt")) = true.
Proof.
  apply (data_socket_is_always_closed Scenario.world_refused
           (Scenario.server_with Scenario.alice_port Scenario.files0) 5 0
           Scenario.alice_port "hello.txt");
    [reflexivity | reflexivity | simpl; lia | simpl; lia
    | right; left; reflexivity].
Defined.

(** X24.  A transfer connects to the declared endpoint and nowhere else:
    for a declared address of four numbers from 0 to 255 with dots
    between them, as inet_addr reads it, once socket and setsockopt have
    succeeded (and, for RETR, the file has opened), LIST, RETR and STOR
    of code/server.c make exactly one connect, to the declared address
    and to the declared port taken modulo 65536. *)
Theorem transfer_connects_to_the_declared_endpoint
    (w : World) (st : Server) (client_fd : Z) (i : nat) (s : FTPSession)
    (filename : string) (h1 h2 h3 h4 : Z) :
  get_session_index st client_fd = Some i ->
  client_sessions st !! i = Some s ->
  data_port s <> -1 ->
  Forall (fun h => 0 <= h <= 255) [h1; h2; h3; h4] ->
  data_ip s = fmt_d h1 +:+ "." +:+ fmt_d h2 +:+ "." +:+ fmt_d h3 +:+ "."
              +:+ fmt_d h4 ->
  0 <= w_socket w -> 0 <= w_setsockopt w ->
  let target :=
    [Connect (w_socket w)
       (fmt_d h1 +:+ "." +:+ fmt_d h2 +:+ "." +:+ fmt_d h3 +:+ "."
        +:+ fmt_d h4)
       (data_port s mod 65536) (w_connect w)] in
  List.filter is_connect (snd (Server.handle_list_command w st client_fd))
  = target
  /\ List.filter is_connect
       (snd (Server.handle_stor_command w st client_fd filename))
     = target
  /\ (is_Some (files st !! final_path (current_dir s) filename) ->
      List.filter is_connect
        (snd (Server.handle_retr_command w st client_fd filename))
      = target)
  /\ 0 <= data_port s mod 65536 < 65536.
Proof.
  intros Hi Hs Hport _ Hip Hsock Hopt target. unfold target.
  rewrite <- Hip.
  apply Z.eqb_neq in Hport. apply Z.ltb_ge in Hsock, Hopt.
  assert (Hm : forall A (f : A -> event) l tl,
             (forall x, is_connect (f x) = false) ->
             List.filter is_connect (map f l ++ tl)
             = List.filter is_connect tl).
  { intros A f l tl Hf. induction l as [|x l IH]; [reflexivity|].
    cbn [map app List.filter]. now rewrite Hf. }
  unfold Server.handle_list_command, Server.handle_stor_command,
    Server.handle_retr_command, final_path.
  rewrite Hi, (session_at_lookup _ _ _ Hs), Hport, Hsock, Hopt.
  unfold transfer_parent, Server.list_child, stor_child, retr_child, htons.
  split; [|split; [|split]].
  - destruct (w_connect w <? 0); [reflexivity|].
    destruct (w_fork w <? 0); [reflexivity|].
    destruct (w_opendir w _);
      cbn [snd app send_response List.filter is_connect];
      rewrite <- ?app_assoc, ?Hm by reflexivity; reflexivity.
  - destruct (w_connect w <? 0); [reflexivity|].
    destruct (w_fork w <? 0); [reflexivity|].
    destruct (w_child_fopen w _);
      cbn [snd app send_response List.filter is_connect];
      rewrite <- ?app_assoc, ?Hm by reflexivity; reflexivity.
  - intros Hfile. rewrite (bool_decide_eq_true_2 _ Hfile). cbn [negb].
    destruct Hfile as [content Hfile]. rewrite Hfile.
    destruct (w_connect w <? 0); [reflexivity|].
    destruct (w_fork w <? 0); [reflexivity|].
    destruct (w_child_fopen w _);
      cbn [snd app send_response List.filter is_connect];
      rewrite <- ?app_assoc, ?Hm by reflexivity; reflexivity.
  - apply Z.mod_pos_bound. lia.
Qed.

Lemma transfer_connects_to_the_declared_endpoint_witness :
  let st := Scenario.server_with Scenario.alice_port Scenario.files0 in
  (get_session_index st 5 = Some 0%nat
   /\ client_sessions st !! 0%nat = Some Scenario.alice_port
   /\ data_port Scenario.alice_port <> -1
   /\ Forall (fun h => 0 <= h <= 255) [127; 0; 0; 1]
   /\ data_ip Scenario.alice_port
      = fmt_d 127 +:+ "." +:+ fmt_d 0 +:+ "." +:+ fmt_d 0 +:+ "."
        +:+ fmt_d 1)
  /\ List.filter is_connect
       (snd (Server.handle_list_command Scenario.world_ok st 5))
     = [Connect 7 "127.0.0.1" 5000 0].
Proof.
  intros st.
  assert (Hq : Forall (fun h => 0 <= h <= 255) [127; 0; 0; 1]).
  { repeat (apply List.Forall_cons; [lia|]). apply List.Forall_nil. }
  assert (Hp : data_port Scenario.alice_port <> -1) by (simpl; lia).
  split; [repeat split; try reflexivity; assumption|].
  exact (proj1 (transfer_connects_to_the_declared_endpoint Scenario.world_ok
                  st 5 0 Scenario.alice_port "hello.txt" 127 0 0 1
                  eq_refl eq_refl Hp Hq eq_refl
                  ltac:(simpl; lia) ltac:(simpl; lia))).
Defined.

(** X25.  A client that hangs up is cleaned up after: when read returns 0
    or -1 on a control socket that one slot holds, the loop closes the
    socket, takes it out of the set it selects on, frees the slot and
    forgets name, login and endpoint; unlike after QUIT, nothing closed
    is left in the set, so the next select does not fail for it. *)
Theorem hang_up_frees_the_slot
    (w : World) (cmd0 arg0 : string) (m : Server.Main) (fd : Z) (i : nat)
    (r : read_result) :
  get_session_index (Server.srv m) fd = Some i ->
  fd <> -1 ->
  (forall j s, j <> i -> client_sessions (Server.srv m) !! j = Some s ->
               control_fd s <> fd) ->
  r = REof \/ r = RError ->
  let '(m', out) := Server.client_data w cmd0 arg0 m fd r in
  last out = Some (Close fd)
  /\ (fd ∉ Server.master_fds m')
  /\ (fd ∉ Server.closed_fds m')
  /\ get_session_index (Server.srv m') fd = None
  /\ session_at (Server.srv m') i
     = set_data_ip EmptyString
         (set_username EmptyString
            (set_authenticated false
               (set_data_port (-1)
                  (set_data_fd (-1)
                     (set_control_fd (-1) (session_at (Server.srv m) i))))))
  /\ (Server.closed_fds m = ∅ -> Server.closed_fds m' = ∅).
Proof.
  intros Hi Hfd Huniq Hr.
  destruct (get_session_index_Some _ _ _ Hi) as (s & Hs & _).
  assert (E : Server.client_data w cmd0 arg0 m fd r
              = (let '(st', closed) := clean_up_session i (Server.srv m) in
                 (Server.mkMain st' (Server.server_fd m)
                    (Server.master_fds m ∖ {[fd]}) (Server.max_fd m)
                    (Server.closed_fds m ∖ {[fd]}),
                  closed ++ [Close fd]))).
  { unfold Server.client_data. destruct Hr as [-> | ->]; now rewrite Hi. }
  rewrite E. unfold clean_up_session.
  cbn [Server.srv Server.master_fds Server.closed_fds].
  split; [|split; [|split; [|split; [|split]]]].
  - destruct (_ =? -1); reflexivity.
  - apply not_elem_of_difference. right. now apply elem_of_singleton.
  - apply not_elem_of_difference. right. now apply elem_of_singleton.
  - apply find_session_None. unfold update_session.
    cbn [client_sessions set_sessions].
    apply Forall_lookup. intros j s' Hj.
    destruct (decide (j = i)) as [->|Hne].
    + rewrite list_lookup_alter_eq, Hs in Hj.
      inversion Hj; subst. cbn. lia.
    + rewrite list_lookup_alter_ne in Hj by congruence.
      exact (Huniq j s' Hne Hj).
  - rewrite (session_at_update _ _ _ _ Hs).
    now rewrite (session_at_lookup _ _ _ Hs).
  - intros ->. apply empty_difference_L.
Qed.

Lemma hang_up_frees_the_slot_witness :
  let '(m', out) :=
    Server.client_data Scenario.world_ok EmptyString EmptyString
      Scenario.main_full 6 REof in
  last out = Some (Close 6)
  /\ (6 ∉ Server.master_fds m')
  /\ (6 ∉ Server.closed_fds m')
  /\ get_session_index (Server.srv m') 6 = None
  /\ session_at (Server.srv m') 2
     = set_data_ip EmptyString
         (set_username EmptyString
            (set_authenticated false
               (set_data_port (-1)
                  (set_data_fd (-1)
                     (set_control_fd (-1)
                        (session_at (Server.srv Scenario.main_full) 2))))))
  /\ (Server.closed_fds Scenario.main_full = ∅ -> Server.closed_fds m' = ∅).
Proof.
  apply (hang_up_frees_the_slot Scenario.world_ok EmptyString EmptyString
           Scenario.main_full 6 2 REof); [reflexivity | lia | | now left].
  intros j s Hj Hs.
  assert (Hl : (j < 10)%nat) by (apply lookup_lt_Some in Hs; exact Hs).
  do 10 (destruct j as [|j]; [inversion Hs; subst; simpl; lia || congruence|]).
  simpl in Hl. lia.
Defined.
